(** * Agent task dispatcher: [be/src/agent/task_worker_pool.cpp]

    A shallow embedding of [doris::TaskWorkerPool]: the process-wide
    signature registry ([_record_task_info], [_remove_task_info]), the
    fair-share selector ([_get_next_task_index]), the finish reporter
    ([_finish_task]), the per-kind worker callbacks and the three report
    loops, followed by the properties of the dispatcher that are proved
    about them.

    Conventions of the embedding.
    - [std::map] is [gmap], [std::set] is [gset], [std::deque] is [list]
      (head = front).  [m[k]] on a [std::map] default-constructs a missing
      entry; [at_] gives the value read and [touch] the map left behind.
    - [uint32_t], [int32_t] and [std::atomic_ulong] values are [Z] with the
      wrap-around written out ([wrap_uint32], [to_int32], [wrap_uint64]).
    - [float] and [double] are [spec_float] at precision 24 and 53.
    - The storage engine, the snapshot loader and the master RPC client are
      not part of this file: they are oracles gathered in the record [Env].
    - Every effect that leaves the dispatcher (engine call, RPC, sleep,
      notify) is appended to a trace of [Event]s, together with the log
      lines of the registry and of the selector.  The other log lines and
      the metric counters are left out.
    - The production build is modelled ([BE_TEST] undefined); the body of
      each [while (true)] loop is one function, split at the point where the
      pool mutex is released.  Threads interleave at these points: the
      critical section of a worker, the rest of its loop body, and a
      submission are the steps of the node ([Action]).  A submission takes
      its two locks one after the other; [Move] splits it there, so that
      other threads also run between the two.  The spawning of the threads
      and their signal masks are not modelled. *)

From Stdlib Require Import ZArith Lia.
From Stdlib Require Import Floats.SpecFloat.
From stdpp Require Import base gmap sets list strings pretty.

Local Open Scope Z_scope.

(** ** Machine integers and floating point *)

Definition wrap_uint32 (z : Z) : Z := z mod 2 ^ 32.
Definition wrap_uint64 (z : Z) : Z := z mod 2 ^ 64.

(** Conversion of a 32-bit pattern to [int32_t] (two's complement). *)
Definition to_int32 (z : Z) : Z := (z + 2 ^ 31) mod 2 ^ 32 - 2 ^ 31.

(** Integer to [double] conversion (exact below 2^53). *)
Definition double_of_Z (z : Z) : spec_float := binary_normalize 53 1024 z 0 false.

Definition double_mul : spec_float -> spec_float -> spec_float := SFmul 53 1024.
Definition double_div : spec_float -> spec_float -> spec_float := SFdiv 53 1024.

(** [double] to [float] conversion, round to nearest even. *)
Definition float_of_double (d : spec_float) : spec_float :=
  match d with
  | S754_finite s m e => binary_round 24 128 s m e
  | _ => d
  end.

(** [a <= b] on floats: false as soon as one side is NaN. *)
Definition float_le : spec_float -> spec_float -> bool := SFleb.

(** ** [std::map::operator[]] *)

Section MapIndex.
Context {K : Type} `{Countable K} {V : Type}.

(** The value of [m[k]], where a missing entry reads as [dflt]. *)
Definition at_ (dflt : V) (m : gmap K V) (k : K) : V := default dflt (m !! k).

(** The map after [m[k]] was evaluated: a missing entry now exists. *)
Definition touch (dflt : V) (m : gmap K V) (k : K) : gmap K V :=
  <[k := at_ dflt m k]> m.
End MapIndex.

Section MapIndex2.
Context {K1 : Type} `{Countable K1} {K2 : Type} `{Countable K2}.

(** [m[k][u]] for the [map<TTaskType, map<string, uint32_t>>] tables. *)
Definition at2 (m : gmap K1 (gmap K2 Z)) (k : K1) (u : K2) : Z :=
  at_ 0 (at_ ∅ m k) u.

(** [m[k][u] = v]. *)
Definition set2 (m : gmap K1 (gmap K2 Z)) (k : K1) (u : K2) (v : Z)
  : gmap K1 (gmap K2 Z) :=
  <[k := <[u := v]> (at_ ∅ m k)]> m.

(** The table after [m[k][u]] was read. *)
Definition touch2 (m : gmap K1 (gmap K2 Z)) (k : K1) (u : K2)
  : gmap K1 (gmap K2 Z) :=
  set2 m k u (at2 m k u).
End MapIndex2.

(** ** Thrift enums and structs used by the dispatcher *)

Module TTaskType.
(** Modelled from the spec: the enum [TTaskType::type] is generated from
    the Thrift IDL ([gen_cpp/Types_types.h]), which is not part of the
    sources.  [PUSH], [SCHEMA_CHANGE] and [ROLLUP] are the values the
    dispatcher names; the others are the task kinds of the submission
    interface. *)
Inductive type :=
| CREATE | DROP | PUSH | CLONE | STORAGE_MEDIUM_MIGRATE | ROLLUP
| SCHEMA_CHANGE | DELETE | MAKE_SNAPSHOT | RELEASE_SNAPSHOT
| CHECK_CONSISTENCY | UPLOAD | DOWNLOAD | MOVE | REALTIME_PUSH
| PUBLISH_VERSION | CLEAR_ALTER_TASK | CLEAR_TRANSACTION_TASK
| RECOVER_TABLET.

Definition to_nat (k : type) : nat :=
  match k with
  | CREATE => 0 | DROP => 1 | PUSH => 2 | CLONE => 3
  | STORAGE_MEDIUM_MIGRATE => 4 | ROLLUP => 5 | SCHEMA_CHANGE => 6
  | DELETE => 7 | MAKE_SNAPSHOT => 8 | RELEASE_SNAPSHOT => 9
  | CHECK_CONSISTENCY => 10 | UPLOAD => 11 | DOWNLOAD => 12 | MOVE => 13
  | REALTIME_PUSH => 14 | PUBLISH_VERSION => 15 | CLEAR_ALTER_TASK => 16
  | CLEAR_TRANSACTION_TASK => 17 | RECOVER_TABLET => 18
  end%nat.

Definition of_nat (n : nat) : type :=
  match n with
  | 0 => CREATE | 1 => DROP | 2 => PUSH | 3 => CLONE
  | 4 => STORAGE_MEDIUM_MIGRATE | 5 => ROLLUP | 6 => SCHEMA_CHANGE
  | 7 => DELETE | 8 => MAKE_SNAPSHOT | 9 => RELEASE_SNAPSHOT
  | 10 => CHECK_CONSISTENCY | 11 => UPLOAD | 12 => DOWNLOAD | 13 => MOVE
  | 14 => REALTIME_PUSH | 15 => PUBLISH_VERSION | 16 => CLEAR_ALTER_TASK
  | 17 => CLEAR_TRANSACTION_TASK | _ => RECOVER_TABLET
  end%nat.
End TTaskType.

#[global] Instance TTaskType_eq_dec : EqDecision TTaskType.type.
Proof. solve_decision. Defined.

#[global] Instance TTaskType_countable : Countable TTaskType.type.
Proof.
  apply (inj_countable' TTaskType.to_nat TTaskType.of_nat).
  intros []; reflexivity.
Defined.

Module TPriority.
Inductive type := NORMAL | HIGH.
End TPriority.

#[global] Instance TPriority_eq_dec : EqDecision TPriority.type.
Proof. solve_decision. Defined.

Module TPushType.
Inductive type := LOAD | DELETE | LOAD_DELETE.
End TPushType.

#[global] Instance TPushType_eq_dec : EqDecision TPushType.type.
Proof. solve_decision. Defined.

Module TStatusCode.
Inductive type := OK | ANALYSIS_ERROR | RUNTIME_ERROR.
End TStatusCode.

#[global] Instance TStatusCode_eq_dec : EqDecision TStatusCode.type.
Proof. solve_decision. Defined.

(** [OLAPStatus] of the storage engine: the dispatcher tells apart success,
    "table not found" and every other error code. *)
Inductive OLAPStatus :=
| OLAP_SUCCESS
| OLAP_ERR_TABLE_NOT_FOUND
| OLAP_ERR_OTHER (code : Z).

#[global] Instance OLAPStatus_eq_dec : EqDecision OLAPStatus.
Proof. solve_decision. Defined.

(** [AgentStatus] of [agent/status.h], with the values the dispatcher
    compares against. *)
Inductive AgentStatus :=
| DORIS_SUCCESS
| DORIS_ERROR
| DORIS_TASK_REQUEST_ERROR
| DORIS_PUSH_HAD_LOADED
| DORIS_CREATE_TABLE_EXIST
| DORIS_INTERNAL_ERROR
| DORIS_OTHER (code : Z).

#[global] Instance AgentStatus_eq_dec : EqDecision AgentStatus.
Proof. solve_decision. Defined.

(** The tablet description filled in by the engine. *)
Record TTabletInfo := {
  tablet_id : Z;
  schema_hash : Z;
  tablet_version : Z
}.

Record TPushReq := {
  push_type : TPushType.type;
  push_version : Z;
  push_version_hash : Z
}.

Record TAlterTabletReq := {
  new_tablet_id : Z;
  new_schema_hash : Z
}.

Record TCheckConsistencyReq := {
  check_tablet_id : Z;
  check_schema_hash : Z;
  check_version : Z;
  check_version_hash : Z
}.

Record TSnapshotRequest := {
  snapshot_tablet_id : Z;
  snapshot_schema_hash : Z;
  list_files : option bool
}.

Record TMoveDirReq := {
  move_tablet_id : Z;
  move_schema_hash : Z;
  move_src : string;
  move_job_id : Z
}.

(** [TAgentTaskRequest].  An optional Thrift field [f] with its
    [__isset.f] flag is an [option]; [resource_info] keeps the one member
    the dispatcher reads, [resource_info.user].  The kind-specific payloads
    the dispatcher only forwards to the engine are not listed: the engine
    oracle receives the whole request. *)
Record TAgentTaskRequest := {
  task_type : TTaskType.type;
  signature : Z;
  priority : option TPriority.type;
  resource_info : option string;
  push_req : TPushReq;
  alter_tablet_req : TAlterTabletReq;
  check_consistency_req : TCheckConsistencyReq;
  snapshot_req : TSnapshotRequest;
  release_snapshot_path : string;
  move_dir_req : TMoveDirReq
}.

Record TStatus := {
  status_code : TStatusCode.type;
  error_msgs : list string
}.

Record TBackend := {
  host : string;
  be_port : Z;
  http_port : Z
}.

(** [TFinishTaskRequest]: a field is [Some v] once [__set_f(v)] was called
    on the request. *)
Record TFinishTaskRequest := {
  fin_backend : option TBackend;
  fin_task_type : option TTaskType.type;
  fin_signature : option Z;
  fin_task_status : option TStatus;
  fin_report_version : option Z;
  fin_finish_tablet_infos : option (list TTabletInfo);
  fin_error_tablet_ids : option (list Z);
  fin_request_version : option Z;
  fin_request_version_hash : option Z;
  fin_tablet_checksum : option Z;
  fin_snapshot_path : option string;
  fin_snapshot_files : option (list string);
  fin_tablet_files : option (list (Z * list string));
  fin_downloaded_tablet_ids : option (list Z)
}.

Definition empty_finish_task_request : TFinishTaskRequest :=
  {| fin_backend := None; fin_task_type := None; fin_signature := None;
     fin_task_status := None; fin_report_version := None;
     fin_finish_tablet_infos := None; fin_error_tablet_ids := None;
     fin_request_version := None; fin_request_version_hash := None;
     fin_tablet_checksum := None; fin_snapshot_path := None;
     fin_snapshot_files := None; fin_tablet_files := None;
     fin_downloaded_tablet_ids := None |}.

Record TDisk := {
  root_path : string;
  path_hash : Z;
  disk_total_capacity : spec_float;
  data_used_capacity : spec_float;
  disk_available_capacity : spec_float;
  used : bool
}.

Record TReportRequest := {
  rep_backend : option TBackend;
  rep_force_recovery : option bool;
  rep_report_version : option Z;
  rep_tasks : option (gmap TTaskType.type (gset Z));
  rep_tablets : option (list TTabletInfo);
  rep_disks : option (gmap string TDisk)
}.

(** ** Constants and configuration *)

Definition TASK_FINISH_MAX_RETRY : Z := 3.
Definition PUBLISH_VERSION_MAX_RETRY : Z := 3.
Definition REPORT_TASK_WORKER_COUNT : Z := 1.
Definition REPORT_DISK_STATE_WORKER_COUNT : Z := 1.
Definition REPORT_OLAP_TABLE_WORKER_COUNT : Z := 1.

(** The members of [config::] the dispatcher reads. *)
Record Config := {
  create_tablet_worker_count : Z;
  drop_tablet_worker_count : Z;
  push_worker_count_normal_priority : Z;
  push_worker_count_high_priority : Z;
  publish_version_worker_count : Z;
  clear_alter_task_worker_count : Z;
  clear_transaction_task_worker_count : Z;
  delete_worker_count : Z;
  alter_tablet_worker_count : Z;
  clone_worker_count : Z;
  storage_medium_migrate_count : Z;
  check_consistency_worker_count : Z;
  upload_worker_count : Z;
  download_worker_count : Z;
  make_snapshot_worker_count : Z;
  release_snapshot_worker_count : Z;
  sleep_one_second : Z;
  report_task_interval_seconds : Z;
  report_disk_state_interval_seconds : Z;
  report_tablet_interval_seconds : Z;
  force_recovery : bool
}.

(** ** The trace of outward effects *)

(** [EvGetNextTask] is the log line the selector writes for each rate it
    computes (the kind of the task is recorded with it); [EvEngine] is the
    call of the engine or of the snapshot loader for a task;
    [EvPublishVersion] one attempt of [publish_version], with the error
    tablet list it is handed; [EvFinishTask] one attempt of the finish RPC;
    [EvRecordTaskInfo] and [EvRemoveTaskInfo] the log lines of the
    registry. *)

Inductive Event :=
| EvNotify
| EvSleep (seconds : Z)
| EvGetNextTask (kind : TTaskType.type) (sig : Z) (user : string)
    (total_task_user_count total_task_count running_task_user_count_plus_1
       thread_count : Z)
    (user_total_rate user_running_rate : spec_float)
| EvEngine (task : TAgentTaskRequest)
| EvPublishVersion (retry_time : Z) (error_tablet_ids : list Z)
| EvFinishTask (try_time : Z) (request : TFinishTaskRequest)
| EvRecordTaskInfo (kind : TTaskType.type) (sig : Z) (user : string)
    (inserted : bool)
| EvRemoveTaskInfo (kind : TTaskType.type) (sig : Z) (user : string)
| EvReport (request : TReportRequest)
| EvWaitForReportNotify (seconds : Z) (is_tablet_report : bool).

(** ** The static members of [TaskWorkerPool] *)

Record Registry := {
  _s_report_version : Z;
  _s_task_signatures : gmap TTaskType.type (gset Z);
  _s_running_task_user_count : gmap TTaskType.type (gmap string Z);
  _s_total_task_user_count : gmap TTaskType.type (gmap string Z);
  _s_total_task_count : gmap TTaskType.type Z
}.

(** [_s_report_version(time(NULL) * 10000)] and empty tables. *)
Definition registry_init (now : Z) : Registry :=
  {| _s_report_version := wrap_uint64 (now * 10000);
     _s_task_signatures := ∅;
     _s_running_task_user_count := ∅;
     _s_total_task_user_count := ∅;
     _s_total_task_count := ∅ |}.

(** Views of the tables, a missing entry being empty or zero. *)
Definition live (reg : Registry) (kind : TTaskType.type) : gset Z :=
  at_ ∅ (_s_task_signatures reg) kind.
Definition total_by_user (reg : Registry) (kind : TTaskType.type) (user : string) : Z :=
  at2 (_s_total_task_user_count reg) kind user.
Definition total_by_kind (reg : Registry) (kind : TTaskType.type) : Z :=
  at_ 0 (_s_total_task_count reg) kind.
Definition running_by_user (reg : Registry) (kind : TTaskType.type) (user : string) : Z :=
  at2 (_s_running_task_user_count reg) kind user.

(** [++_s_report_version] on the [atomic_ulong]. *)
Definition bump_report_version (reg : Registry) : Registry :=
  {| _s_report_version := wrap_uint64 (_s_report_version reg + 1);
     _s_task_signatures := _s_task_signatures reg;
     _s_running_task_user_count := _s_running_task_user_count reg;
     _s_total_task_user_count := _s_total_task_user_count reg;
     _s_total_task_count := _s_total_task_count reg |}.

(** [TaskWorkerPool::_record_task_info]: the result and the registry left
    behind. *)
Definition _record_task_info (kind : TTaskType.type) (sig : Z) (user : string)
    (reg : Registry) : bool * Registry :=
  let signature_set := at_ ∅ (_s_task_signatures reg) kind in
  if bool_decide (sig ∈ signature_set) then
    (false,
     {| _s_report_version := _s_report_version reg;
        _s_task_signatures := touch ∅ (_s_task_signatures reg) kind;
        _s_running_task_user_count := _s_running_task_user_count reg;
        _s_total_task_user_count := _s_total_task_user_count reg;
        _s_total_task_count := _s_total_task_count reg |})
  else
    let signatures := <[kind := {[sig]} ∪ signature_set]> (_s_task_signatures reg) in
    if bool_decide (kind = TTaskType.PUSH) then
      (true,
       {| _s_report_version := _s_report_version reg;
          _s_task_signatures := signatures;
          _s_running_task_user_count := _s_running_task_user_count reg;
          _s_total_task_user_count :=
            set2 (_s_total_task_user_count reg) kind user
              (wrap_uint32 (at2 (_s_total_task_user_count reg) kind user + 1));
          _s_total_task_count :=
            <[kind := wrap_uint32 (at_ 0 (_s_total_task_count reg) kind + 1)]>
              (_s_total_task_count reg) |})
    else
      (true,
       {| _s_report_version := _s_report_version reg;
          _s_task_signatures := signatures;
          _s_running_task_user_count := _s_running_task_user_count reg;
          _s_total_task_user_count := _s_total_task_user_count reg;
          _s_total_task_count := _s_total_task_count reg |}).

(** [TaskWorkerPool::_remove_task_info]. *)
Definition _remove_task_info (kind : TTaskType.type) (sig : Z) (user : string)
    (reg : Registry) : Registry :=
  let signature_set := at_ ∅ (_s_task_signatures reg) kind in
  let signatures := <[kind := signature_set ∖ {[sig]}]> (_s_task_signatures reg) in
  if bool_decide (kind = TTaskType.PUSH) then
    {| _s_report_version := _s_report_version reg;
       _s_task_signatures := signatures;
       _s_running_task_user_count :=
         set2 (_s_running_task_user_count reg) kind user
           (wrap_uint32 (at2 (_s_running_task_user_count reg) kind user - 1));
       _s_total_task_user_count :=
         set2 (_s_total_task_user_count reg) kind user
           (wrap_uint32 (at2 (_s_total_task_user_count reg) kind user - 1));
       _s_total_task_count :=
         <[kind := wrap_uint32 (at_ 0 (_s_total_task_count reg) kind - 1)]>
           (_s_total_task_count reg) |}
  else
    {| _s_report_version := _s_report_version reg;
       _s_task_signatures := signatures;
       _s_running_task_user_count := _s_running_task_user_count reg;
       _s_total_task_user_count := _s_total_task_user_count reg;
       _s_total_task_count := _s_total_task_count reg |}.

(** ** The fair-share selector *)

Definition is_high_priority (task : TAgentTaskRequest) : bool :=
  bool_decide (priority task = Some TPriority.HIGH).

(** [_s_total_task_user_count[kind][user] * 1.0 / _s_total_task_count[kind]]
    stored into a [float]. *)
Definition user_total_rate (total_task_user_count total_task_count : Z) : spec_float :=
  float_of_double
    (double_div (double_mul (double_of_Z total_task_user_count) (double_of_Z 1))
       (double_of_Z total_task_count)).

(** [(_s_running_task_user_count[kind][user] + 1) * 1.0 / thread_count]
    stored into a [float]; the sum is a [uint32_t]. *)
Definition user_running_rate (running_task_user_count thread_count : Z) : spec_float :=
  float_of_double
    (double_div
       (double_mul (double_of_Z (wrap_uint32 (running_task_user_count + 1)))
          (double_of_Z 1))
       (double_of_Z thread_count)).

(** The registry after the three counters of [(kind, user)] were read with
    [operator[]]. *)
Definition touch_counters (kind : TTaskType.type) (user : string) (reg : Registry)
    : Registry :=
  {| _s_report_version := _s_report_version reg;
     _s_task_signatures := _s_task_signatures reg;
     _s_running_task_user_count := touch2 (_s_running_task_user_count reg) kind user;
     _s_total_task_user_count := touch2 (_s_total_task_user_count reg) kind user;
     _s_total_task_count := touch 0 (_s_total_task_count reg) kind |}.

(** [_s_running_task_user_count[kind][user] += 1]. *)
Definition incr_running (kind : TTaskType.type) (user : string) (reg : Registry)
    : Registry :=
  {| _s_report_version := _s_report_version reg;
     _s_task_signatures := _s_task_signatures reg;
     _s_running_task_user_count :=
       set2 (_s_running_task_user_count reg) kind user
         (wrap_uint32 (at2 (_s_running_task_user_count reg) kind user + 1));
     _s_total_task_user_count := _s_total_task_user_count reg;
     _s_total_task_count := _s_total_task_count reg |}.

(** The [for] loop of [_get_next_task_index] over the tasks from position
    [i] on.  [user] and [improper_users] are the locals declared before the
    loop: [user] is assigned only when the task carries [resource_info] and
    otherwise keeps the value of the previous iteration.  The result is
    [index] (still [-1] when the loop ran to the end), [user], the registry
    and the log lines written. *)
Fixpoint scan_tasks (thread_count : Z) (prio : TPriority.type)
    (rest : list TAgentTaskRequest) (i : Z) (user : string)
    (improper_users : gset string) (reg : Registry) (log : list Event)
    {struct rest} : Z * string * Registry * list Event :=
  match rest with
  | [] => (-1, user, reg, log)
  | task :: rest' =>
      let user := match resource_info task with Some u => u | None => user end in
      if bool_decide (prio = TPriority.HIGH) then
        if is_high_priority task then (to_int32 i, user, reg, log)
        else scan_tasks thread_count prio rest' (wrap_uint32 (i + 1)) user
               improper_users reg log
      else if bool_decide (user ∈ improper_users) then
        scan_tasks thread_count prio rest' (wrap_uint32 (i + 1)) user
          improper_users reg log
      else
        let kind := task_type task in
        let total_user := total_by_user reg kind user in
        let total := total_by_kind reg kind in
        let running := running_by_user reg kind user in
        let total_rate := user_total_rate total_user total in
        let running_rate := user_running_rate running thread_count in
        let reg' := touch_counters kind user reg in
        let log' :=
          log ++ [EvGetNextTask kind (signature task) user total_user total
                    (wrap_uint32 (running + 1)) thread_count total_rate running_rate] in
        if (running =? 0) || float_le running_rate total_rate then
          (to_int32 i, user, reg', log')
        else
          scan_tasks thread_count prio rest' (wrap_uint32 (i + 1)) user
            ({[user]} ∪ improper_users) reg' log'
  end.

(** [tasks[index]]; an index outside the deque is undefined behaviour. *)
Definition task_at (tasks : list TAgentTaskRequest) (index : Z)
    : option TAgentTaskRequest :=
  if index <? 0 then None else tasks !! Z.to_nat index.

(** [TaskWorkerPool::_get_next_task_index].  The result is the [uint32_t]
    returned (so [-1] is returned as [2^32 - 1]), the registry and the log
    lines; [None] stands for the undefined behaviour of indexing outside
    the deque. *)
Definition _get_next_task_index (thread_count : Z)
    (tasks : list TAgentTaskRequest) (prio : TPriority.type) (reg : Registry)
    : option (Z * Registry * list Event) :=
  let '(index, user, reg1, log) := scan_tasks thread_count prio tasks 0 "" ∅ reg [] in
  if bool_decide (index = -1) then
    if bool_decide (prio = TPriority.HIGH) then Some (wrap_uint32 index, reg1, log)
    else
      match task_at tasks 0 with
      | None => None
      | Some task0 =>
          let user := match resource_info task0 with Some u => u | None => "" end in
          Some (wrap_uint32 0, incr_running (task_type task0) user reg1, log)
      end
  else
    match task_at tasks index with
    | None => None
    | Some task => Some (wrap_uint32 index, incr_running (task_type task) user reg1, log)
    end.

(** ** The state a worker thread acts on, and the effect monad *)

(** The static registry, the queue [_tasks] of the pool the thread belongs
    to, and the trace. *)
Record World := {
  registry : Registry;
  _tasks : list TAgentTaskRequest;
  trace : list Event
}.

Definition M (A : Type) : Type := World -> A * World.

Definition ret {A : Type} (a : A) : M A := fun w => (a, w).

Definition bind {A B : Type} (m : M A) (k : A -> M B) : M B :=
  fun w => let '(a, w') := m w in k a w'.

Notation "'let*' x ':=' m 'in' k" := (bind m (fun x => k))
  (at level 10, x name, m at level 100, k at level 200).
Notation "m >> k" := (bind m (fun _ => k))
  (at level 100, k at level 200, right associativity).

Definition emit (ev : Event) : M unit :=
  fun w => (tt, {| registry := registry w; _tasks := _tasks w;
                   trace := trace w ++ [ev] |}).

Definition emit_all (evs : list Event) : M unit :=
  fun w => (tt, {| registry := registry w; _tasks := _tasks w;
                   trace := trace w ++ evs |}).

Definition get_registry : M Registry := fun w => (registry w, w).

Definition put_registry (reg : Registry) : M unit :=
  fun w => (tt, {| registry := reg; _tasks := _tasks w; trace := trace w |}).

Definition put_tasks (tasks : list TAgentTaskRequest) : M unit :=
  fun w => (tt, {| registry := registry w; _tasks := tasks; trace := trace w |}).

Definition exec {A : Type} (m : M A) (w : World) : World := snd (m w).

(** [++_s_report_version]. *)
Definition incr_report_version : M unit :=
  let* reg := get_registry in put_registry (bump_report_version reg).

(** The value read from [_s_report_version]. *)
Definition read_report_version : M Z :=
  let* reg := get_registry in ret (_s_report_version reg).

(** A call of [_record_task_info] with its log line. *)
Definition record_task_info (kind : TTaskType.type) (sig : Z) (user : string) : M bool :=
  let* reg := get_registry in
  let '(inserted, reg') := _record_task_info kind sig user reg in
  put_registry reg' >> emit (EvRecordTaskInfo kind sig user inserted) >> ret inserted.

(** A call of [_remove_task_info] with its log line. *)
Definition remove_task_info (kind : TTaskType.type) (sig : Z) (user : string) : M unit :=
  let* reg := get_registry in
  put_registry (_remove_task_info kind sig user reg) >>
  emit (EvRemoveTaskInfo kind sig user).

(** [TaskWorkerPool::submit_task]. *)
Definition submit_task (task : TAgentTaskRequest) : M unit :=
  let user := match resource_info task with Some u => u | None => "" end in
  let* inserted := record_task_info (task_type task) (signature task) user in
  if inserted then
    (fun w => put_tasks (_tasks w ++ [task]) w) >> emit EvNotify
  else ret tt.

(** ** Setters of [TFinishTaskRequest] *)

Definition __set_backend (v : TBackend) (r : TFinishTaskRequest) : TFinishTaskRequest :=
  let '(Build_TFinishTaskRequest _ b c d e f g h i j k l m n) := r in
  Build_TFinishTaskRequest (Some v) b c d e f g h i j k l m n.
Definition __set_task_type (v : TTaskType.type) (r : TFinishTaskRequest) : TFinishTaskRequest :=
  let '(Build_TFinishTaskRequest a _ c d e f g h i j k l m n) := r in
  Build_TFinishTaskRequest a (Some v) c d e f g h i j k l m n.
Definition __set_signature (v : Z) (r : TFinishTaskRequest) : TFinishTaskRequest :=
  let '(Build_TFinishTaskRequest a b _ d e f g h i j k l m n) := r in
  Build_TFinishTaskRequest a b (Some v) d e f g h i j k l m n.
Definition __set_task_status (v : TStatus) (r : TFinishTaskRequest) : TFinishTaskRequest :=
  let '(Build_TFinishTaskRequest a b c _ e f g h i j k l m n) := r in
  Build_TFinishTaskRequest a b c (Some v) e f g h i j k l m n.
Definition __set_report_version (v : Z) (r : TFinishTaskRequest) : TFinishTaskRequest :=
  let '(Build_TFinishTaskRequest a b c d _ f g h i j k l m n) := r in
  Build_TFinishTaskRequest a b c d (Some v) f g h i j k l m n.
Definition __set_finish_tablet_infos (v : list TTabletInfo) (r : TFinishTaskRequest)
    : TFinishTaskRequest :=
  let '(Build_TFinishTaskRequest a b c d e _ g h i j k l m n) := r in
  Build_TFinishTaskRequest a b c d e (Some v) g h i j k l m n.
Definition __set_error_tablet_ids (v : list Z) (r : TFinishTaskRequest) : TFinishTaskRequest :=
  let '(Build_TFinishTaskRequest a b c d e f _ h i j k l m n) := r in
  Build_TFinishTaskRequest a b c d e f (Some v) h i j k l m n.
Definition __set_request_version (v : Z) (r : TFinishTaskRequest) : TFinishTaskRequest :=
  let '(Build_TFinishTaskRequest a b c d e f g _ i j k l m n) := r in
  Build_TFinishTaskRequest a b c d e f g (Some v) i j k l m n.
Definition __set_request_version_hash (v : Z) (r : TFinishTaskRequest) : TFinishTaskRequest :=
  let '(Build_TFinishTaskRequest a b c d e f g h _ j k l m n) := r in
  Build_TFinishTaskRequest a b c d e f g h (Some v) j k l m n.
Definition __set_tablet_checksum (v : Z) (r : TFinishTaskRequest) : TFinishTaskRequest :=
  let '(Build_TFinishTaskRequest a b c d e f g h i _ k l m n) := r in
  Build_TFinishTaskRequest a b c d e f g h i (Some v) k l m n.
Definition __set_snapshot_path (v : string) (r : TFinishTaskRequest) : TFinishTaskRequest :=
  let '(Build_TFinishTaskRequest a b c d e f g h i j _ l m n) := r in
  Build_TFinishTaskRequest a b c d e f g h i j (Some v) l m n.
Definition __set_snapshot_files (v : list string) (r : TFinishTaskRequest) : TFinishTaskRequest :=
  let '(Build_TFinishTaskRequest a b c d e f g h i j k _ m n) := r in
  Build_TFinishTaskRequest a b c d e f g h i j k (Some v) m n.
Definition __set_tablet_files (v : list (Z * list string)) (r : TFinishTaskRequest)
    : TFinishTaskRequest :=
  let '(Build_TFinishTaskRequest a b c d e f g h i j k l _ n) := r in
  Build_TFinishTaskRequest a b c d e f g h i j k l (Some v) n.
Definition __set_downloaded_tablet_ids (v : list Z) (r : TFinishTaskRequest)
    : TFinishTaskRequest :=
  let '(Build_TFinishTaskRequest a b c d e f g h i j k l m _) := r in
  Build_TFinishTaskRequest a b c d e f g h i j k l m (Some v).

(** ** The collaborators, as oracles *)

(** [doris::Status] of the snapshot loader and of [FileUtils]. *)
Record Status := {
  ok : bool;
  get_error_msg : string
}.

Record DataDirInfo := {
  dir_path : string;
  dir_path_hash : Z;
  dir_capacity : Z;
  dir_data_used_capacity : Z;
  dir_available : Z;
  dir_is_used : bool
}.

(** The answers of the storage engine, of the snapshot loader and of the
    master.  Calls that are retried take the number of the attempt, so that
    each attempt can be answered differently; [engine_publish_version] also
    takes the error-tablet vector it is handed and returns the vector it
    leaves. *)
Record Env := {
  backend : TBackend;
  master_port : Z;
  master_finish_task : TFinishTaskRequest -> Z -> AgentStatus;
  engine_create_tablet : TAgentTaskRequest -> OLAPStatus;
  engine_drop_tablet : TAgentTaskRequest -> OLAPStatus;
  engine_schema_change : TAgentTaskRequest -> OLAPStatus * list string;
  engine_report_tablet_info : TTabletInfo -> OLAPStatus * TTabletInfo;
  engine_batch_load : TAgentTaskRequest -> AgentStatus * list TTabletInfo;
  engine_publish_version : TAgentTaskRequest -> Z -> list Z -> OLAPStatus * list Z;
  engine_clear_alter_task : TAgentTaskRequest -> OLAPStatus;
  engine_clone : TAgentTaskRequest -> AgentStatus * list string * list TTabletInfo;
  engine_storage_migration : TAgentTaskRequest -> OLAPStatus;
  engine_checksum : TCheckConsistencyReq -> OLAPStatus * Z;
  engine_recover_tablet : TAgentTaskRequest -> OLAPStatus;
  engine_report_all_tablets_info : OLAPStatus * list TTabletInfo;
  engine_get_all_data_dir_info : list DataDirInfo;
  engine_get_tablet : Z -> Z -> option (string * string);
  snapshot_make_snapshot : TSnapshotRequest -> OLAPStatus * string;
  snapshot_release_snapshot : string -> OLAPStatus;
  file_scan_dir : string -> Status * list string;
  loader_upload : TAgentTaskRequest -> Status * list (Z * list string);
  loader_download : TAgentTaskRequest -> Status * list Z;
  loader_move : string -> string -> string -> Z -> bool -> Status;
  print_agent_status : AgentStatus -> string;
  print_olap_status : OLAPStatus -> string
}.

(** What a worker holds after it released the pool mutex. *)
Inductive Job :=
| Fifo (agent_task_req : TAgentTaskRequest)
| PushSelected (agent_task_req : TAgentTaskRequest) (user : string)
| PushNone
| Report.

(** The critical section of the FIFO workers: [_tasks.front()] and
    [_tasks.pop_front()].  [None]: the queue is empty and the worker waits
    on the condition variable. *)
Definition pop_front (w : World) : option (Job * World) :=
  match _tasks w with
  | [] => None
  | agent_task_req :: rest =>
      Some (Fifo agent_task_req,
            {| registry := registry w; _tasks := rest; trace := trace w |})
  end.

Section Worker.
Variable cfg : Config.
Variable env : Env.

(** The loop of [TaskWorkerPool::_finish_task], [remaining] iterations
    before [try_time] reaches [TASK_FINISH_MAX_RETRY]. *)
Fixpoint finish_task_loop (remaining : nat) (try_time : Z)
    (finish_task_request : TFinishTaskRequest) : M unit :=
  match remaining with
  | O => ret tt
  | S remaining' =>
      emit (EvFinishTask try_time finish_task_request) >>
      if bool_decide (master_finish_task env finish_task_request try_time = DORIS_SUCCESS)
      then ret tt
      else
        emit (EvSleep (sleep_one_second cfg)) >>
        finish_task_loop remaining' (try_time + 1) finish_task_request
  end.

(** [TaskWorkerPool::_finish_task]. *)
Definition _finish_task (finish_task_request : TFinishTaskRequest) : M unit :=
  finish_task_loop (Z.to_nat TASK_FINISH_MAX_RETRY) 0 finish_task_request.

Definition make_status (code : TStatusCode.type) (msgs : list string) : TStatus :=
  {| status_code := code; error_msgs := msgs |}.

(** [_create_tablet_worker_thread_callback], after the critical section. *)
Definition _create_tablet_body (agent_task_req : TAgentTaskRequest) : M unit :=
  emit (EvEngine agent_task_req) >>
  let create_status := engine_create_tablet env agent_task_req in
  let* status_code :=
    (if bool_decide (create_status ≠ OLAP_SUCCESS)
     then ret TStatusCode.RUNTIME_ERROR
     else incr_report_version >> ret TStatusCode.OK) in
  let* report_version := read_report_version in
  let finish_task_request :=
    __set_task_status (make_status status_code [])
      (__set_signature (signature agent_task_req)
         (__set_task_type (task_type agent_task_req)
            (__set_report_version report_version
               (__set_backend (backend env) empty_finish_task_request)))) in
  _finish_task finish_task_request >>
  remove_task_info (task_type agent_task_req) (signature agent_task_req) "".

(** [_drop_tablet_worker_thread_callback]. *)
Definition _drop_tablet_body (agent_task_req : TAgentTaskRequest) : M unit :=
  emit (EvEngine agent_task_req) >>
  let drop_status := engine_drop_tablet env agent_task_req in
  let status :=
    if bool_decide (drop_status ≠ OLAP_SUCCESS)
       && bool_decide (drop_status ≠ OLAP_ERR_TABLE_NOT_FOUND)
    then DORIS_ERROR else DORIS_SUCCESS in
  let task_status :=
    if bool_decide (status ≠ DORIS_SUCCESS)
    then make_status TStatusCode.RUNTIME_ERROR ["drop table failed!"%string]
    else make_status TStatusCode.OK [] in
  let finish_task_request :=
    __set_task_status task_status
      (__set_signature (signature agent_task_req)
         (__set_task_type (task_type agent_task_req)
            (__set_backend (backend env) empty_finish_task_request))) in
  _finish_task finish_task_request >>
  remove_task_info (task_type agent_task_req) (signature agent_task_req) "".

(** [TaskWorkerPool::_get_tablet_info]. *)
Definition _get_tablet_info (tablet : Z) (hash : Z) : AgentStatus * TTabletInfo :=
  let '(olap_status, tablet_info) :=
    engine_report_tablet_info env
      {| tablet_id := tablet; schema_hash := hash; tablet_version := 0 |} in
  (if bool_decide (olap_status ≠ OLAP_SUCCESS) then DORIS_ERROR else DORIS_SUCCESS,
   tablet_info).

(** [TaskWorkerPool::_alter_tablet]: the finish request it fills in. *)
Definition _alter_tablet (agent_task_req : TAgentTaskRequest)
    (kind : TTaskType.type) (finish_task_request : TFinishTaskRequest)
    : M TFinishTaskRequest :=
  let alter_tablet_request := alter_tablet_req agent_task_req in
  let '(status, process_name) :=
    match kind with
    | TTaskType.ROLLUP => (DORIS_SUCCESS, "roll up"%string)
    | TTaskType.SCHEMA_CHANGE => (DORIS_SUCCESS, "schema change"%string)
    | _ => (DORIS_TASK_REQUEST_ERROR, ""%string)
    end in
  let* executed :=
    (if bool_decide (status = DORIS_SUCCESS) then
       emit (EvEngine agent_task_req) >>
       let '(sc_status, engine_msgs) := engine_schema_change env agent_task_req in
       ret (if bool_decide (sc_status ≠ OLAP_SUCCESS) then DORIS_ERROR else DORIS_SUCCESS,
            engine_msgs)
     else ret (status, [])) in
  let '(status, error_msgs) := executed in
  (if bool_decide (status = DORIS_SUCCESS) then incr_report_version else ret tt) >>
  let* report_version := read_report_version in
  let finish_task_request :=
    __set_signature (signature agent_task_req)
      (__set_task_type kind
         (__set_report_version report_version
            (__set_backend (backend env) finish_task_request))) in
  let '(status, finish_tablet_infos) :=
    if bool_decide (status = DORIS_SUCCESS) then
      let '(status', tablet_info) :=
        _get_tablet_info (new_tablet_id alter_tablet_request)
          (new_schema_hash alter_tablet_request) in
      if bool_decide (status' ≠ DORIS_SUCCESS) then (status', [])
      else (status', [tablet_info])
    else (status, []) in
  if bool_decide (status = DORIS_SUCCESS) then
    ret (__set_task_status
           (make_status TStatusCode.OK (error_msgs ++ [process_name +:+ " success"]))
           (__set_finish_tablet_infos finish_tablet_infos finish_task_request))
  else if bool_decide (status = DORIS_TASK_REQUEST_ERROR) then
    ret (__set_task_status
           (make_status TStatusCode.ANALYSIS_ERROR
              (error_msgs ++
               ["alter table request new tablet id or schema count invalid."%string]))
           finish_task_request)
  else
    ret (__set_task_status
           (make_status TStatusCode.RUNTIME_ERROR
              (error_msgs ++ [process_name +:+ " failed";
                              "status: " +:+ print_agent_status env status]))
           finish_task_request).

(** [_alter_tablet_worker_thread_callback]. *)
Definition _alter_tablet_body (agent_task_req : TAgentTaskRequest) : M unit :=
  let kind := task_type agent_task_req in
  let* finish_task_request :=
    (match kind with
     | TTaskType.SCHEMA_CHANGE | TTaskType.ROLLUP =>
         _alter_tablet agent_task_req kind empty_finish_task_request
     | _ => ret empty_finish_task_request
     end) in
  _finish_task finish_task_request >>
  remove_task_info (task_type agent_task_req) (signature agent_task_req) "".

(** The [thread_count] the push workers hand to the selector. *)
Definition push_thread_count : Z :=
  to_int32 (push_worker_count_normal_priority cfg + push_worker_count_high_priority cfg).

(** The election at the start of [_push_worker_thread_callback]:
    [s_worker_count] is the function-local static, a [uint32_t] shared by
    every thread that runs the callback; the [int32_t] bound is converted
    to [uint32_t] by the comparison. *)
Definition elect_priority (s_worker_count : Z) : TPriority.type * Z :=
  if s_worker_count <? wrap_uint32 (push_worker_count_high_priority cfg)
  then (TPriority.HIGH, wrap_uint32 (s_worker_count + 1))
  else (TPriority.NORMAL, s_worker_count).

(** The critical section of [_push_worker_thread_callback]. *)
Definition _push_dequeue (prio : TPriority.type) (w : World) : option (Job * World) :=
  match _tasks w with
  | [] => None
  | _ :: _ =>
      match _get_next_task_index push_thread_count (_tasks w) prio (registry w) with
      | None => None
      | Some (returned, reg, log) =>
          let index := to_int32 returned in
          if index <? 0 then
            Some (PushNone,
                  {| registry := reg; _tasks := _tasks w;
                     trace := trace w ++ log ++ [EvNotify] |})
          else
            match task_at (_tasks w) index with
            | None => None
            | Some agent_task_req =>
                let user :=
                  match resource_info agent_task_req with
                  | Some u => u
                  | None => ""%string
                  end in
                Some (PushSelected agent_task_req user,
                      {| registry := reg;
                         _tasks := delete (Z.to_nat index) (_tasks w);
                         trace := trace w ++ log |})
            end
      end
  end.

(** [_push_worker_thread_callback], after the critical section, for the
    task taken from the queue. *)
Definition _push_body (agent_task_req : TAgentTaskRequest) (user : string) : M unit :=
  let push_request := push_req agent_task_req in
  emit (EvEngine agent_task_req) >>
  let '(status, tablet_infos) := engine_batch_load env agent_task_req in
  if bool_decide (status = DORIS_PUSH_HAD_LOADED) then
    remove_task_info (task_type agent_task_req) (signature agent_task_req) user
  else
    let finish_task_request :=
      __set_signature (signature agent_task_req)
        (__set_task_type (task_type agent_task_req)
           (__set_backend (backend env) empty_finish_task_request)) in
    let finish_task_request :=
      if bool_decide (push_type push_request = TPushType.DELETE) then
        __set_request_version_hash (push_version_hash push_request)
          (__set_request_version (push_version push_request) finish_task_request)
      else finish_task_request in
    let* finish_task_request :=
      (if bool_decide (status = DORIS_SUCCESS) then
         incr_report_version >>
         ret (__set_task_status (make_status TStatusCode.OK ["push success"%string])
                (__set_finish_tablet_infos tablet_infos finish_task_request))
       else if bool_decide (status = DORIS_TASK_REQUEST_ERROR) then
         ret (__set_task_status
                (make_status TStatusCode.ANALYSIS_ERROR
                   ["push request push_type invalid."%string])
                finish_task_request)
       else
         ret (__set_task_status
                (make_status TStatusCode.RUNTIME_ERROR ["push failed"%string])
                finish_task_request)) in
    let* report_version := read_report_version in
    _finish_task (__set_report_version report_version finish_task_request) >>
    remove_task_info (task_type agent_task_req) (signature agent_task_req) user.

(** The loop around the engine's [publish_version]: the status of the
    last attempt and the error tablets it left. *)
Fixpoint publish_version_loop (remaining : nat) (retry_time : Z)
    (agent_task_req : TAgentTaskRequest) (res : OLAPStatus)
    (error_tablet_ids : list Z) : M (OLAPStatus * list Z) :=
  match remaining with
  | O => ret (res, error_tablet_ids)
  | S remaining' =>
      let cleared : list Z := [] in
      emit (EvPublishVersion retry_time cleared) >>
      let '(res', error_tablet_ids') :=
        engine_publish_version env agent_task_req retry_time cleared in
      if bool_decide (res' = OLAP_SUCCESS) then ret (res', error_tablet_ids')
      else
        emit (EvSleep 1) >>
        publish_version_loop remaining' (retry_time + 1) agent_task_req res'
          error_tablet_ids'
  end.

(** [_publish_version_worker_thread_callback]. *)
Definition _publish_version_body (agent_task_req : TAgentTaskRequest) : M unit :=
  let* published :=
    publish_version_loop (Z.to_nat PUBLISH_VERSION_MAX_RETRY) 0 agent_task_req
      OLAP_SUCCESS [] in
  let '(res, error_tablet_ids) := published in
  let '(task_status, finish_task_request) :=
    if bool_decide (res ≠ OLAP_SUCCESS) then
      (make_status TStatusCode.RUNTIME_ERROR ["publish version failed"%string],
       __set_error_tablet_ids error_tablet_ids empty_finish_task_request)
    else (make_status TStatusCode.OK [], empty_finish_task_request) in
  let finish_task_request :=
    __set_signature (signature agent_task_req)
      (__set_task_type (task_type agent_task_req)
         (__set_backend (backend env)
            (__set_task_status task_status finish_task_request))) in
  _finish_task finish_task_request >>
  remove_task_info (task_type agent_task_req) (signature agent_task_req) "".

(** The finish request most callbacks build: backend, type, signature
    and status. *)
Definition plain_finish_request (agent_task_req : TAgentTaskRequest)
    (task_status : TStatus) : TFinishTaskRequest :=
  __set_task_status task_status
    (__set_signature (signature agent_task_req)
       (__set_task_type (task_type agent_task_req)
          (__set_backend (backend env) empty_finish_task_request))).

(** [_clear_alter_task_worker_thread_callback]. *)
Definition _clear_alter_task_body (agent_task_req : TAgentTaskRequest) : M unit :=
  emit (EvEngine agent_task_req) >>
  let clear_status := engine_clear_alter_task env agent_task_req in
  let task_status :=
    if bool_decide (clear_status ≠ OLAP_SUCCESS)
    then make_status TStatusCode.RUNTIME_ERROR ["clear alter task failed"%string]
    else make_status TStatusCode.OK [] in
  _finish_task (plain_finish_request agent_task_req task_status) >>
  remove_task_info (task_type agent_task_req) (signature agent_task_req) "".

(** [_clear_transaction_task_worker_thread_callback]: the engine call
    returns nothing. *)
Definition _clear_transaction_task_body (agent_task_req : TAgentTaskRequest) : M unit :=
  emit (EvEngine agent_task_req) >>
  _finish_task (plain_finish_request agent_task_req (make_status TStatusCode.OK [])) >>
  remove_task_info (task_type agent_task_req) (signature agent_task_req) "".

(** [_clone_worker_thread_callback]. *)
Definition _clone_body (agent_task_req : TAgentTaskRequest) : M unit :=
  emit (EvEngine agent_task_req) >>
  let '(status, engine_msgs, tablet_infos) := engine_clone env agent_task_req in
  let finish_task_request :=
    __set_signature (signature agent_task_req)
      (__set_task_type (task_type agent_task_req)
         (__set_backend (backend env) empty_finish_task_request)) in
  let finish_task_request :=
    if bool_decide (status ≠ DORIS_SUCCESS)
       && bool_decide (status ≠ DORIS_CREATE_TABLE_EXIST)
    then
      __set_task_status
        (make_status TStatusCode.RUNTIME_ERROR (engine_msgs ++ ["clone failed."%string]))
        finish_task_request
    else
      __set_task_status (make_status TStatusCode.OK engine_msgs)
        (__set_finish_tablet_infos tablet_infos finish_task_request) in
  _finish_task finish_task_request >>
  remove_task_info (task_type agent_task_req) (signature agent_task_req) "".

(** [_storage_medium_migrate_worker_thread_callback]. *)
Definition _storage_medium_migrate_body (agent_task_req : TAgentTaskRequest) : M unit :=
  emit (EvEngine agent_task_req) >>
  let res := engine_storage_migration env agent_task_req in
  let status_code :=
    if bool_decide (res ≠ OLAP_SUCCESS) then TStatusCode.RUNTIME_ERROR
    else TStatusCode.OK in
  _finish_task (plain_finish_request agent_task_req (make_status status_code [])) >>
  remove_task_info (task_type agent_task_req) (signature agent_task_req) "".

(** [_check_consistency_worker_thread_callback]. *)
Definition _check_consistency_body (agent_task_req : TAgentTaskRequest) : M unit :=
  let check_consistency_request := check_consistency_req agent_task_req in
  emit (EvEngine agent_task_req) >>
  let '(res, checksum) := engine_checksum env check_consistency_request in
  let status_code :=
    if bool_decide (res ≠ OLAP_SUCCESS) then TStatusCode.RUNTIME_ERROR
    else TStatusCode.OK in
  let finish_task_request :=
    __set_request_version_hash (check_version_hash check_consistency_request)
      (__set_request_version (check_version check_consistency_request)
         (__set_tablet_checksum (wrap_uint32 checksum)
            (plain_finish_request agent_task_req (make_status status_code [])))) in
  _finish_task finish_task_request >>
  remove_task_info (task_type agent_task_req) (signature agent_task_req) "".

(** [_upload_worker_thread_callback]. *)
Definition _upload_body (agent_task_req : TAgentTaskRequest) : M unit :=
  emit (EvEngine agent_task_req) >>
  let '(status, tablet_files) := loader_upload env agent_task_req in
  let task_status :=
    if negb (ok status)
    then make_status TStatusCode.RUNTIME_ERROR [get_error_msg status]
    else make_status TStatusCode.OK [] in
  _finish_task
    (__set_tablet_files tablet_files (plain_finish_request agent_task_req task_status)) >>
  remove_task_info (task_type agent_task_req) (signature agent_task_req) "".

(** [_download_worker_thread_callback]. *)
Definition _download_body (agent_task_req : TAgentTaskRequest) : M unit :=
  emit (EvEngine agent_task_req) >>
  let '(status, downloaded_tablet_ids) := loader_download env agent_task_req in
  let task_status :=
    if negb (ok status)
    then make_status TStatusCode.RUNTIME_ERROR [get_error_msg status]
    else make_status TStatusCode.OK [] in
  _finish_task
    (__set_downloaded_tablet_ids downloaded_tablet_ids
       (plain_finish_request agent_task_req task_status)) >>
  remove_task_info (task_type agent_task_req) (signature agent_task_req) "".

(** [_make_snapshot_thread_callback]. *)
Definition _make_snapshot_body (agent_task_req : TAgentTaskRequest) : M unit :=
  let snapshot_request := snapshot_req agent_task_req in
  emit (EvEngine agent_task_req) >>
  let '(make_snapshot_status, snapshot_path) :=
    snapshot_make_snapshot env snapshot_request in
  let '(task_status, snapshot_files) :=
    if bool_decide (make_snapshot_status ≠ OLAP_SUCCESS) then
      (make_status TStatusCode.RUNTIME_ERROR
         ["make_snapshot failed. status: " +:+ print_olap_status env make_snapshot_status],
       [])
    else
      match list_files snapshot_request with
      | Some _ =>
          let dir :=
            snapshot_path +:+ "/" +:+ pretty (snapshot_tablet_id snapshot_request)
              +:+ "/" +:+ pretty (snapshot_schema_hash snapshot_request) +:+ "/" in
          let '(st, files) := file_scan_dir env dir in
          if negb (ok st) then
            (make_status TStatusCode.RUNTIME_ERROR
               ["make_snapshot failed. list file failed: " +:+ get_error_msg st],
             files)
          else (make_status TStatusCode.OK [], files)
      | None => (make_status TStatusCode.OK [], [])
      end in
  let finish_task_request :=
    __set_task_status task_status
      (__set_snapshot_files snapshot_files
         (__set_snapshot_path snapshot_path
            (__set_signature (signature agent_task_req)
               (__set_task_type (task_type agent_task_req)
                  (__set_backend (backend env) empty_finish_task_request))))) in
  _finish_task finish_task_request >>
  remove_task_info (task_type agent_task_req) (signature agent_task_req) "".

(** [_release_snapshot_thread_callback]. *)
Definition _release_snapshot_body (agent_task_req : TAgentTaskRequest) : M unit :=
  emit (EvEngine agent_task_req) >>
  let release_snapshot_status :=
    snapshot_release_snapshot env (release_snapshot_path agent_task_req) in
  let task_status :=
    if bool_decide (release_snapshot_status ≠ OLAP_SUCCESS)
    then make_status TStatusCode.RUNTIME_ERROR
           ["release_snapshot failed. status: "
              +:+ print_olap_status env release_snapshot_status]
    else make_status TStatusCode.OK [] in
  _finish_task (plain_finish_request agent_task_req task_status) >>
  remove_task_info (task_type agent_task_req) (signature agent_task_req) "".

(** [TaskWorkerPool::_move_dir]: the status and the messages pushed. *)
Definition _move_dir (tablet : Z) (hash : Z) (src : string) (job_id : Z)
    (overwrite : bool) : AgentStatus * list string :=
  match engine_get_tablet env tablet hash with
  | None => (DORIS_TASK_REQUEST_ERROR, ["failed to get tablet"%string])
  | Some (dest_tablet_dir, store_path) =>
      let status := loader_move env src dest_tablet_dir store_path job_id overwrite in
      if negb (ok status) then (DORIS_INTERNAL_ERROR, [get_error_msg status])
      else (DORIS_SUCCESS, [])
  end.

(** [_move_dir_thread_callback]. *)
Definition _move_dir_body (agent_task_req : TAgentTaskRequest) : M unit :=
  let move_dir_request := move_dir_req agent_task_req in
  emit (EvEngine agent_task_req) >>
  let '(status, msgs) :=
    _move_dir (move_tablet_id move_dir_request) (move_schema_hash move_dir_request)
      (move_src move_dir_request) (move_job_id move_dir_request) true in
  let status_code :=
    if bool_decide (status ≠ DORIS_SUCCESS) then TStatusCode.RUNTIME_ERROR
    else TStatusCode.OK in
  _finish_task (plain_finish_request agent_task_req (make_status status_code msgs)) >>
  remove_task_info (task_type agent_task_req) (signature agent_task_req) "".

(** [_recover_tablet_thread_callback]. *)
Definition _recover_tablet_body (agent_task_req : TAgentTaskRequest) : M unit :=
  emit (EvEngine agent_task_req) >>
  let status := engine_recover_tablet env agent_task_req in
  let status_code :=
    if bool_decide (status ≠ OLAP_SUCCESS) then TStatusCode.RUNTIME_ERROR
    else TStatusCode.OK in
  _finish_task (plain_finish_request agent_task_req (make_status status_code [])) >>
  remove_task_info (task_type agent_task_req) (signature agent_task_req) "".

(** The report request every loop starts from: [force_recovery] and
    [backend] are set before the loop. *)
Definition report_request_base : TReportRequest :=
  {| rep_backend := Some (backend env);
     rep_force_recovery := Some (force_recovery cfg);
     rep_report_version := None; rep_tasks := None; rep_tablets := None;
     rep_disks := None |}.

(** One round of [_report_task_worker_thread_callback]. *)
Definition _report_task_body : M unit :=
  let* reg := get_registry in
  let request :=
    {| rep_backend := rep_backend report_request_base;
       rep_force_recovery := rep_force_recovery report_request_base;
       rep_report_version := None;
       rep_tasks := Some (_s_task_signatures reg);
       rep_tablets := None; rep_disks := None |} in
  emit (EvReport request) >>
  emit (EvSleep (report_task_interval_seconds cfg)).

Definition disk_of_data_dir (root_path_info : DataDirInfo) : TDisk :=
  {| root_path := dir_path root_path_info;
     path_hash := dir_path_hash root_path_info;
     disk_total_capacity := double_of_Z (dir_capacity root_path_info);
     data_used_capacity := double_of_Z (dir_data_used_capacity root_path_info);
     disk_available_capacity := double_of_Z (dir_available root_path_info);
     used := dir_is_used root_path_info |}.

(** One round of [_report_disk_state_worker_thread_callback]. *)
Definition _report_disk_state_body : M unit :=
  if master_port env =? 0 then emit (EvSleep (sleep_one_second cfg))
  else
    let disks :=
      foldl (fun (acc : gmap string TDisk) (info : DataDirInfo) =>
               <[dir_path info := disk_of_data_dir info]> acc)
        ∅ (engine_get_all_data_dir_info env) in
    let request :=
      {| rep_backend := rep_backend report_request_base;
         rep_force_recovery := rep_force_recovery report_request_base;
         rep_report_version := None; rep_tasks := None; rep_tablets := None;
         rep_disks := Some disks |} in
    emit (EvReport request) >>
    emit (EvWaitForReportNotify (report_disk_state_interval_seconds cfg) false).

(** One round of [_report_tablet_worker_thread_callback]: the request
    carries the value read from [_s_report_version]. *)
Definition _report_tablet_body : M unit :=
  if master_port env =? 0 then emit (EvSleep (sleep_one_second cfg))
  else
    let* report_version := read_report_version in
    let '(report_all_tablets_info_status, tablets) :=
      engine_report_all_tablets_info env in
    if bool_decide (report_all_tablets_info_status ≠ OLAP_SUCCESS) then
      emit (EvWaitForReportNotify (report_tablet_interval_seconds cfg) true)
    else
      let request :=
        {| rep_backend := rep_backend report_request_base;
           rep_force_recovery := rep_force_recovery report_request_base;
           rep_report_version := Some report_version;
           rep_tasks := None; rep_tablets := Some tablets; rep_disks := None |} in
      emit (EvReport request) >>
      emit (EvWaitForReportNotify (report_tablet_interval_seconds cfg) true).
End Worker.

(** ** Pools: [TaskWorkerPool::start] and the worker loop *)

Module TaskWorkerType.
Inductive type :=
| CREATE_TABLE | DROP_TABLE | PUSH | REALTIME_PUSH | PUBLISH_VERSION
| CLEAR_ALTER_TASK | CLEAR_TRANSACTION_TASK | DELETE | ALTER_TABLE | CLONE
| STORAGE_MEDIUM_MIGRATE | CHECK_CONSISTENCY | REPORT_TASK
| REPORT_DISK_STATE | REPORT_OLAP_TABLE | UPLOAD | DOWNLOAD | MAKE_SNAPSHOT
| RELEASE_SNAPSHOT | MOVE | RECOVER_TABLET.
End TaskWorkerType.

#[global] Instance TaskWorkerType_eq_dec : EqDecision TaskWorkerType.type.
Proof. solve_decision. Defined.

(** The callbacks a pool can be started with. *)
Inductive CALLBACK_FUNCTION :=
| _create_tablet_worker_thread_callback
| _drop_tablet_worker_thread_callback
| _push_worker_thread_callback
| _publish_version_worker_thread_callback
| _clear_alter_task_worker_thread_callback
| _clear_transaction_task_worker_thread_callback
| _alter_tablet_worker_thread_callback
| _clone_worker_thread_callback
| _storage_medium_migrate_worker_thread_callback
| _check_consistency_worker_thread_callback
| _report_task_worker_thread_callback
| _report_disk_state_worker_thread_callback
| _report_tablet_worker_thread_callback
| _upload_worker_thread_callback
| _download_worker_thread_callback
| _make_snapshot_thread_callback
| _release_snapshot_thread_callback
| _move_dir_thread_callback
| _recover_tablet_thread_callback.

(** [TaskWorkerPool::start]: [_worker_count] and [_callback_function]. *)
Definition start (cfg : Config) (task_worker_type : TaskWorkerType.type)
    : Z * CALLBACK_FUNCTION :=
  match task_worker_type with
  | TaskWorkerType.CREATE_TABLE =>
      (create_tablet_worker_count cfg, _create_tablet_worker_thread_callback)
  | TaskWorkerType.DROP_TABLE =>
      (drop_tablet_worker_count cfg, _drop_tablet_worker_thread_callback)
  | TaskWorkerType.PUSH | TaskWorkerType.REALTIME_PUSH =>
      (push_worker_count_normal_priority cfg + push_worker_count_high_priority cfg,
       _push_worker_thread_callback)
  | TaskWorkerType.PUBLISH_VERSION =>
      (publish_version_worker_count cfg, _publish_version_worker_thread_callback)
  | TaskWorkerType.CLEAR_ALTER_TASK =>
      (clear_alter_task_worker_count cfg, _clear_alter_task_worker_thread_callback)
  | TaskWorkerType.CLEAR_TRANSACTION_TASK =>
      (clear_transaction_task_worker_count cfg,
       _clear_transaction_task_worker_thread_callback)
  | TaskWorkerType.DELETE =>
      (delete_worker_count cfg, _push_worker_thread_callback)
  | TaskWorkerType.ALTER_TABLE =>
      (alter_tablet_worker_count cfg, _alter_tablet_worker_thread_callback)
  | TaskWorkerType.CLONE =>
      (clone_worker_count cfg, _clone_worker_thread_callback)
  | TaskWorkerType.STORAGE_MEDIUM_MIGRATE =>
      (storage_medium_migrate_count cfg, _storage_medium_migrate_worker_thread_callback)
  | TaskWorkerType.CHECK_CONSISTENCY =>
      (check_consistency_worker_count cfg, _check_consistency_worker_thread_callback)
  | TaskWorkerType.REPORT_TASK =>
      (REPORT_TASK_WORKER_COUNT, _report_task_worker_thread_callback)
  | TaskWorkerType.REPORT_DISK_STATE =>
      (REPORT_DISK_STATE_WORKER_COUNT, _report_disk_state_worker_thread_callback)
  | TaskWorkerType.REPORT_OLAP_TABLE =>
      (REPORT_OLAP_TABLE_WORKER_COUNT, _report_tablet_worker_thread_callback)
  | TaskWorkerType.UPLOAD =>
      (upload_worker_count cfg, _upload_worker_thread_callback)
  | TaskWorkerType.DOWNLOAD =>
      (download_worker_count cfg, _download_worker_thread_callback)
  | TaskWorkerType.MAKE_SNAPSHOT =>
      (make_snapshot_worker_count cfg, _make_snapshot_thread_callback)
  | TaskWorkerType.RELEASE_SNAPSHOT =>
      (release_snapshot_worker_count cfg, _release_snapshot_thread_callback)
  | TaskWorkerType.MOVE => (1, _move_dir_thread_callback)
  | TaskWorkerType.RECOVER_TABLET => (1, _recover_tablet_thread_callback)
  end.

(** The part of a callback's loop body that runs under the pool mutex.
    [None]: the worker waits for a task.  The report loops have no queue. *)
Definition callback_dequeue (cfg : Config) (callback : CALLBACK_FUNCTION)
    (prio : TPriority.type) (w : World) : option (Job * World) :=
  match callback with
  | _push_worker_thread_callback => _push_dequeue cfg prio w
  | _report_task_worker_thread_callback
  | _report_disk_state_worker_thread_callback
  | _report_tablet_worker_thread_callback => Some (Report, w)
  | _ => pop_front w
  end.

(** The rest of the loop body, for what the worker took out of the queue.
    A job the callback never holds leaves the world as it is. *)
Definition callback_body (cfg : Config) (env : Env) (callback : CALLBACK_FUNCTION)
    (job : Job) : M unit :=
  match callback, job with
  | _create_tablet_worker_thread_callback, Fifo t => _create_tablet_body cfg env t
  | _drop_tablet_worker_thread_callback, Fifo t => _drop_tablet_body cfg env t
  | _push_worker_thread_callback, PushSelected t user => _push_body cfg env t user
  | _push_worker_thread_callback, PushNone => emit (EvSleep 1)
  | _publish_version_worker_thread_callback, Fifo t => _publish_version_body cfg env t
  | _clear_alter_task_worker_thread_callback, Fifo t => _clear_alter_task_body cfg env t
  | _clear_transaction_task_worker_thread_callback, Fifo t =>
      _clear_transaction_task_body cfg env t
  | _alter_tablet_worker_thread_callback, Fifo t => _alter_tablet_body cfg env t
  | _clone_worker_thread_callback, Fifo t => _clone_body cfg env t
  | _storage_medium_migrate_worker_thread_callback, Fifo t =>
      _storage_medium_migrate_body cfg env t
  | _check_consistency_worker_thread_callback, Fifo t => _check_consistency_body cfg env t
  | _report_task_worker_thread_callback, Report => _report_task_body cfg env
  | _report_disk_state_worker_thread_callback, Report => _report_disk_state_body cfg env
  | _report_tablet_worker_thread_callback, Report => _report_tablet_body cfg env
  | _upload_worker_thread_callback, Fifo t => _upload_body cfg env t
  | _download_worker_thread_callback, Fifo t => _download_body cfg env t
  | _make_snapshot_thread_callback, Fifo t => _make_snapshot_body cfg env t
  | _release_snapshot_thread_callback, Fifo t => _release_snapshot_body cfg env t
  | _move_dir_thread_callback, Fifo t => _move_dir_body cfg env t
  | _recover_tablet_thread_callback, Fifo t => _recover_tablet_body cfg env t
  | _, _ => ret tt
  end.

(** One pass of a worker through its loop. *)
Definition callback_iteration (cfg : Config) (env : Env)
    (callback : CALLBACK_FUNCTION) (prio : TPriority.type) (w : World)
    : option World :=
  match callback_dequeue cfg callback prio w with
  | None => None
  | Some (job, w') => Some (exec (callback_body cfg env callback job) w')
  end.

(** ** The node: one registry, one queue per pool, the busy workers *)

Record System := {
  sys_registry : Registry;
  sys_tasks : TaskWorkerType.type -> list TAgentTaskRequest;
  sys_busy : list (TaskWorkerType.type * Job);
  sys_trace : list Event
}.

Definition system_init (now : Z) : System :=
  {| sys_registry := registry_init now;
     sys_tasks := fun _ => [];
     sys_busy := [];
     sys_trace := [] |}.

(** The world a thread of pool [pool] sees. *)
Definition world_of (s : System) (pool : TaskWorkerType.type) : World :=
  {| registry := sys_registry s; _tasks := sys_tasks s pool; trace := sys_trace s |}.

(** The node after a thread of pool [pool] left the world [w]. *)
Definition with_world (s : System) (pool : TaskWorkerType.type) (w : World)
    (busy : list (TaskWorkerType.type * Job)) : System :=
  {| sys_registry := registry w;
     sys_tasks := fun pool' => if decide (pool' = pool) then _tasks w else sys_tasks s pool';
     sys_busy := busy;
     sys_trace := trace w |}.

(** What can happen next: the front end submits a task to a pool, a worker
    of a pool goes through its critical section, or a busy worker (the
    [n]-th one) runs the rest of its loop body against some answers of the
    collaborators. *)
Inductive Action :=
| Submit (pool : TaskWorkerType.type) (task : TAgentTaskRequest)
| Dequeue (pool : TaskWorkerType.type) (prio : TPriority.type)
| Execute (n : nat) (env : Env).

Definition apply_action (cfg : Config) (a : Action) (s : System) : option System :=
  match a with
  | Submit pool task =>
      Some (with_world s pool (exec (submit_task task) (world_of s pool)) (sys_busy s))
  | Dequeue pool prio =>
      match callback_dequeue cfg (snd (start cfg pool)) prio (world_of s pool) with
      | None => None
      | Some (job, w) => Some (with_world s pool w (sys_busy s ++ [(pool, job)]))
      end
  | Execute n env =>
      match sys_busy s !! n with
      | None => None
      | Some (pool, job) =>
          Some (with_world s pool
                  (exec (callback_body cfg env (snd (start cfg pool)) job) (world_of s pool))
                  (delete n (sys_busy s)))
      end
  end.

Fixpoint run (cfg : Config) (actions : list Action) (s : System) : option System :=
  match actions with
  | [] => Some s
  | a :: rest =>
      match apply_action cfg a s with
      | None => None
      | Some s' => run cfg rest s'
      end
  end.

Definition step (cfg : Config) (s s' : System) : Prop :=
  exists a, apply_action cfg a s = Some s'.

(** The states the node can be in, [now] being the clock at start-up. *)
Definition reachable (cfg : Config) (now : Z) (s : System) : Prop :=
  rtc (step cfg) (system_init now) s.

(** All pools are drained: nothing queued, no worker busy. *)
Definition drained (s : System) : Prop :=
  (forall pool, sys_tasks s pool = []) /\ sys_busy s = [].

(** The events [w'] has after those of [w]. *)
Definition new_events (w w' : World) : list Event :=
  drop (length (trace w)) (trace w').

Definition finish_attempts (tr : list Event) : list (Z * TFinishTaskRequest) :=
  omap (fun ev => match ev with EvFinishTask n r => Some (n, r) | _ => None end) tr.

Definition removals (tr : list Event) : list (TTaskType.type * Z * string) :=
  omap (fun ev => match ev with EvRemoveTaskInfo k s u => Some (k, s, u) | _ => None end) tr.

Definition publish_attempts (tr : list Event) : list (Z * list Z) :=
  omap (fun ev => match ev with EvPublishVersion n ids => Some (n, ids) | _ => None end) tr.

Definition engine_calls (tr : list Event) : list TAgentTaskRequest :=
  omap (fun ev => match ev with EvEngine t => Some t | _ => None end) tr.

(** ** Reading the code's traces *)

(** The world with [evs] appended to its trace. *)
Definition add_trace (w : World) (evs : list Event) : World :=
  {| registry := registry w; _tasks := _tasks w; trace := trace w ++ evs |}.

(** The events the loop of [_finish_task] appends: it does not read the
    world. *)
Fixpoint finish_task_events (cfg : Config) (env : Env) (remaining : nat)
    (try_time : Z) (request : TFinishTaskRequest) : list Event :=
  match remaining with
  | O => []
  | S remaining' =>
      EvFinishTask try_time request ::
      (if bool_decide (master_finish_task env request try_time = DORIS_SUCCESS) then []
       else EvSleep (sleep_one_second cfg) ::
            finish_task_events cfg env remaining' (try_time + 1) request)
  end.

(** The task a callback holds after its critical section, with the user
    string it will hand to [_remove_task_info]. *)
Definition task_of_job (callback : CALLBACK_FUNCTION) (job : Job)
    : option (TAgentTaskRequest * string) :=
  match callback, job with
  | _push_worker_thread_callback, PushSelected t user => Some (t, user)
  | _push_worker_thread_callback, _ => None
  | _report_task_worker_thread_callback, _ => None
  | _report_disk_state_worker_thread_callback, _ => None
  | _report_tablet_worker_thread_callback, _ => None
  | _, Fifo t => Some (t, ""%string)
  | _, _ => None
  end.

(** What the body of a callback does to the registry when it releases the
    task it holds. *)
Definition release_job (callback : CALLBACK_FUNCTION) (job : Job) (reg : Registry)
    : Registry :=
  match task_of_job callback job with
  | Some (t, user) => _remove_task_info (task_type t) (signature t) user reg
  | None => reg
  end.

(** The completions on which the callbacks execute [++_s_report_version]:
    [create_tablet] returned [OLAP_SUCCESS]; the schema-change engine task
    of a [SCHEMA_CHANGE] or [ROLLUP] request returned [OLAP_SUCCESS]; the
    batch-load engine task of the push callback left [DORIS_SUCCESS]. *)
Definition successful_create_alter_push (env : Env) (callback : CALLBACK_FUNCTION)
    (job : Job) : bool :=
  match callback, job with
  | _create_tablet_worker_thread_callback, Fifo t =>
      bool_decide (engine_create_tablet env t = OLAP_SUCCESS)
  | _alter_tablet_worker_thread_callback, Fifo t =>
      bool_decide (task_type t = TTaskType.SCHEMA_CHANGE \/ task_type t = TTaskType.ROLLUP)
      && bool_decide (fst (engine_schema_change env t) = OLAP_SUCCESS)
  | _push_worker_thread_callback, PushSelected t _ =>
      bool_decide (fst (engine_batch_load env t) = DORIS_SUCCESS)
  | _, _ => false
  end.

(** [reg'] holds the same report version, live sets and counter values as
    [reg] (it may hold more default-constructed entries). *)
Definition same_counters (reg reg' : Registry) : Prop :=
  _s_report_version reg' = _s_report_version reg
  /\ _s_task_signatures reg' = _s_task_signatures reg
  /\ (forall kind, total_by_kind reg' kind = total_by_kind reg kind)
  /\ (forall kind user, total_by_user reg' kind user = total_by_user reg kind user)
  /\ (forall kind user, running_by_user reg' kind user = running_by_user reg kind user).

(** The divisors of the rate computations the selector logged, each with
    the kind and signature of the task it was computed for. *)
Definition rate_divisors (log : list Event) : list (TTaskType.type * Z * Z) :=
  omap (fun ev =>
          match ev with
          | EvGetNextTask kind sig _ _ total_task_count _ _ _ _ =>
              Some (kind, sig, total_task_count)
          | _ => None
          end) log.

(** The [(kind, signature)] pairs of the tasks that are queued in a pool or
    held by a busy worker. *)
Definition task_key (t : TAgentTaskRequest) : TTaskType.type * Z :=
  (task_type t, signature t).

Definition job_tasks (job : Job) : list TAgentTaskRequest :=
  match job with
  | Fifo t => [t]
  | PushSelected t _ => [t]
  | PushNone => []
  | Report => []
  end.

Definition all_pools : list TaskWorkerType.type :=
  [TaskWorkerType.CREATE_TABLE; TaskWorkerType.DROP_TABLE; TaskWorkerType.PUSH;
   TaskWorkerType.REALTIME_PUSH; TaskWorkerType.PUBLISH_VERSION;
   TaskWorkerType.CLEAR_ALTER_TASK; TaskWorkerType.CLEAR_TRANSACTION_TASK;
   TaskWorkerType.DELETE; TaskWorkerType.ALTER_TABLE; TaskWorkerType.CLONE;
   TaskWorkerType.STORAGE_MEDIUM_MIGRATE; TaskWorkerType.CHECK_CONSISTENCY;
   TaskWorkerType.REPORT_TASK; TaskWorkerType.REPORT_DISK_STATE;
   TaskWorkerType.REPORT_OLAP_TABLE; TaskWorkerType.UPLOAD; TaskWorkerType.DOWNLOAD;
   TaskWorkerType.MAKE_SNAPSHOT; TaskWorkerType.RELEASE_SNAPSHOT;
   TaskWorkerType.MOVE; TaskWorkerType.RECOVER_TABLET].

Definition busy_tasks (busy : list (TaskWorkerType.type * Job)) : list TAgentTaskRequest :=
  flat_map (fun b => job_tasks (snd b)) busy.

Definition in_system (s : System) : list TAgentTaskRequest :=
  flat_map (sys_tasks s) all_pools ++ busy_tasks (sys_busy s).

(** The index a push worker reads back from the selector (as [int32_t]),
    and the log lines the selector wrote. *)
Definition selector_index (thread_count : Z) (tasks : list TAgentTaskRequest)
    (prio : TPriority.type) (reg : Registry) : option Z :=
  match _get_next_task_index thread_count tasks prio reg with
  | Some (returned, _, _) => Some (to_int32 returned)
  | None => None
  end.

Definition selector_log (thread_count : Z) (tasks : list TAgentTaskRequest)
    (prio : TPriority.type) (reg : Registry) : list Event :=
  match _get_next_task_index thread_count tasks prio reg with
  | Some (_, _, log) => log
  | None => []
  end.

(** The registry accounts for the tasks [tasks]: their keys are pairwise
    distinct and live, the PUSH total counts the live PUSH signatures
    (modulo 2^32), and no total is kept for another kind. *)
Definition consistent (reg : Registry) (tasks : list TAgentTaskRequest) : Prop :=
  NoDup (task_key <$> tasks)
  /\ (forall t, t ∈ tasks -> signature t ∈ live reg (task_type t))
  /\ total_by_kind reg TTaskType.PUSH
     = wrap_uint32 (Z.of_nat (size (live reg TTaskType.PUSH)))
  /\ (forall kind, kind <> TTaskType.PUSH -> total_by_kind reg kind = 0).

(** ** The selection rule, as the specification words it *)

(** The user of a task: [resource_info.user], and the empty string for a
    task without [resource_info] (as [submit_task] and the push callback
    have it). *)
Definition task_user (task : TAgentTaskRequest) : string :=
  match resource_info task with Some u => u | None => ""%string end.

(** The test of the selector on the counters of [reg]: the user runs
    nothing, or its running rate is at most its total rate. *)
Definition eligible (thread_count : Z) (reg : Registry) (kind : TTaskType.type)
    (user : string) : bool :=
  (running_by_user reg kind user =? 0)
  || float_le (user_running_rate (running_by_user reg kind user) thread_count)
       (user_total_rate (total_by_user reg kind user) (total_by_kind reg kind)).

(** The position, from the head of [rest], of the first task whose user is
    not yet improper and passes the test; a user that fails it becomes
    improper. *)
Fixpoint first_eligible (thread_count : Z) (reg : Registry)
    (rest : list TAgentTaskRequest) (improper_users : gset string) : option nat :=
  match rest with
  | [] => None
  | task :: rest' =>
      if bool_decide (task_user task ∈ improper_users) then
        S <$> first_eligible thread_count reg rest' improper_users
      else if eligible thread_count reg (task_type task) (task_user task) then Some 0%nat
      else S <$> first_eligible thread_count reg rest'
                   ({[task_user task]} ∪ improper_users)
  end.

(** The index the rule chooses for a NORMAL worker: the first eligible
    one, and index 0 when there is none. *)
Definition fair_share_choice (thread_count : Z) (reg : Registry)
    (tasks : list TAgentTaskRequest) : nat :=
  match first_eligible thread_count reg tasks ∅ with
  | Some j => j
  | None => 0%nat
  end.

(** ** Notions used by the further properties *)

(** Two requests a NORMAL worker's selector cannot tell apart: it reads
    the kind, the signature (for its log line) and [resource_info] of a
    task, and nothing else. *)
Definition same_for_normal_worker (t t' : TAgentTaskRequest) : Prop :=
  task_type t = task_type t' /\ signature t = signature t'
  /\ resource_info t = resource_info t'.

(** Every live signature belongs to a task of [tasks]. *)
Definition tracked (reg : Registry) (tasks : list TAgentTaskRequest) : Prop :=
  forall kind sig, sig ∈ live reg kind -> (kind, sig) ∈ task_key <$> tasks.

(** A busy worker holds what the critical section of its callback hands
    out: a task the callback will release, or no task at all. *)
Definition holds_own_job (cfg : Config) (busy : TaskWorkerType.type * Job) : Prop :=
  match task_of_job (snd (start cfg (fst busy))) (snd busy) with
  | Some _ => True
  | None => job_tasks (snd busy) = []
  end.

(** No total is kept for a user of a kind other than PUSH. *)
Definition no_totals_outside_push (reg : Registry) : Prop :=
  forall kind user, kind <> TTaskType.PUSH -> total_by_user reg kind user = 0.

(** The callbacks whose critical section takes the front of the queue: all
    but the push callback, which asks the selector, and the report loops,
    which have no queue. *)
Definition takes_front (callback : CALLBACK_FUNCTION) : bool :=
  match callback with
  | _push_worker_thread_callback
  | _report_task_worker_thread_callback
  | _report_disk_state_worker_thread_callback
  | _report_tablet_worker_thread_callback => false
  | _ => true
  end.

(** [n] threads entering [_push_worker_thread_callback] one after the
    other: the priority each of them is elected to, in order, and the value
    the static [s_worker_count] is left with. *)
Fixpoint elect_threads (cfg : Config) (n : nat) (s_worker_count : Z)
    : list TPriority.type * Z :=
  match n with
  | O => ([], s_worker_count)
  | S n' =>
      let '(prio, s_worker_count') := elect_priority cfg s_worker_count in
      let '(prios, final_count) := elect_threads cfg n' s_worker_count' in
      (prio :: prios, final_count)
  end.

(** The alter callback leaves the finish request default-constructed when
    the request is neither a SCHEMA_CHANGE nor a ROLLUP: its [switch] falls
    to [default] and [_alter_tablet] is not called. *)
Definition leaves_request_unfilled (callback : CALLBACK_FUNCTION)
    (t : TAgentTaskRequest) : bool :=
  match callback with
  | _alter_tablet_worker_thread_callback =>
      negb (bool_decide (task_type t = TTaskType.SCHEMA_CHANGE
                         \/ task_type t = TTaskType.ROLLUP))
  | _ => false
  end.

(** The callbacks that call [__set_report_version] on the finish request. *)
Definition sets_report_version (callback : CALLBACK_FUNCTION)
    (t : TAgentTaskRequest) : bool :=
  match callback with
  | _create_tablet_worker_thread_callback => true
  | _push_worker_thread_callback => true
  | _alter_tablet_worker_thread_callback =>
      bool_decide (task_type t = TTaskType.SCHEMA_CHANGE \/ task_type t = TTaskType.ROLLUP)
  | _ => false
  end.

(** The selector's local [user] after the loop has gone through [tasks],
    starting from [user]: each task that carries [resource_info] assigns it,
    a task without leaves it as it is. *)
Definition user_after (user : string) (tasks : list TAgentTaskRequest) : string :=
  foldl (fun user task => match resource_info task with Some u => u | None => user end)
    user tasks.

(** The user of the last task of [tasks] that carries [resource_info]; the
    empty string if there is none. *)
Definition last_named_user (tasks : list TAgentTaskRequest) : string :=
  user_after "" tasks.

(** ** Sample inputs *)

Module Sample.
Definition cfg : Config :=
  {| create_tablet_worker_count := 3; drop_tablet_worker_count := 3;
     push_worker_count_normal_priority := 2; push_worker_count_high_priority := 1;
     publish_version_worker_count := 2; clear_alter_task_worker_count := 1;
     clear_transaction_task_worker_count := 1; delete_worker_count := 3;
     alter_tablet_worker_count := 3; clone_worker_count := 3;
     storage_medium_migrate_count := 1; check_consistency_worker_count := 1;
     upload_worker_count := 3; download_worker_count := 3;
     make_snapshot_worker_count := 5; release_snapshot_worker_count := 5;
     sleep_one_second := 1; report_task_interval_seconds := 10;
     report_disk_state_interval_seconds := 60;
     report_tablet_interval_seconds := 60; force_recovery := false |}.

Definition status_ok : Status := {| ok := true; get_error_msg := "" |}.

(** Collaborators that succeed, but for the three answers given: the
    master's transport status per finish attempt, the status the
    batch-load task leaves, and the engine's answer per publish attempt. *)
Definition make_env (finish : Z -> AgentStatus) (batch_load : AgentStatus)
    (publish : Z -> OLAPStatus * list Z) : Env :=
  {| backend := {| host := "be1"; be_port := 9060; http_port := 8040 |};
     master_port := 9020;
     master_finish_task := fun _ try_time => finish try_time;
     engine_create_tablet := fun _ => OLAP_SUCCESS;
     engine_drop_tablet := fun _ => OLAP_SUCCESS;
     engine_schema_change := fun _ => (OLAP_SUCCESS, []);
     engine_report_tablet_info := fun info => (OLAP_SUCCESS, info);
     engine_batch_load := fun _ => (batch_load, []);
     engine_publish_version := fun _ retry_time _ => publish retry_time;
     engine_clear_alter_task := fun _ => OLAP_SUCCESS;
     engine_clone := fun _ => (DORIS_SUCCESS, [], []);
     engine_storage_migration := fun _ => OLAP_SUCCESS;
     engine_checksum := fun _ => (OLAP_SUCCESS, 0);
     engine_recover_tablet := fun _ => OLAP_SUCCESS;
     engine_report_all_tablets_info := (OLAP_SUCCESS, []);
     engine_get_all_data_dir_info := [];
     engine_get_tablet := fun _ _ => None;
     snapshot_make_snapshot := fun _ => (OLAP_SUCCESS, "snapshot"%string);
     snapshot_release_snapshot := fun _ => OLAP_SUCCESS;
     file_scan_dir := fun _ => (status_ok, []);
     loader_upload := fun _ => (status_ok, []);
     loader_download := fun _ => (status_ok, []);
     loader_move := fun _ _ _ _ _ => status_ok;
     print_agent_status := fun _ => ""%string;
     print_olap_status := fun _ => ""%string |}.

(** Collaborators that always succeed. *)
Definition env : Env :=
  make_env (fun _ => DORIS_SUCCESS) DORIS_SUCCESS (fun _ => (OLAP_SUCCESS, [])).

(** A request of kind [kind] with the given header fields. *)
Definition task (kind : TTaskType.type) (sig : Z) (prio : option TPriority.type)
    (user : option string) : TAgentTaskRequest :=
  {| task_type := kind; signature := sig; priority := prio; resource_info := user;
     push_req := {| push_type := TPushType.LOAD; push_version := 0;
                    push_version_hash := 0 |};
     alter_tablet_req := {| new_tablet_id := 0; new_schema_hash := 0 |};
     check_consistency_req :=
       {| check_tablet_id := 0; check_schema_hash := 0; check_version := 0;
          check_version_hash := 0 |};
     snapshot_req := {| snapshot_tablet_id := 0; snapshot_schema_hash := 0;
                        list_files := None |};
     release_snapshot_path := "";
     move_dir_req := {| move_tablet_id := 0; move_schema_hash := 0; move_src := "";
                        move_job_id := 0 |} |}.

Definition world (now : Z) (tasks : list TAgentTaskRequest) : World :=
  {| registry := registry_init now; _tasks := tasks; trace := [] |}.

(** The node started at clock 0 after [actions] (the initial node if one
    of them cannot happen). *)
Definition after (actions : list Action) : System :=
  match run cfg actions (system_init 0) with
  | Some s => s
  | None => system_init 0
  end.
End Sample.

(** Collaborators that answer as [env] does, but for one of them. *)
Module Answers.
Definition with_report_tablet_info (answer : TTabletInfo -> OLAPStatus * TTabletInfo)
    (env : Env) : Env :=
  let '(Build_Env a b c d e f _ h i j k l m n o p q r s t u v w x y) := env in
  Build_Env a b c d e f answer h i j k l m n o p q r s t u v w x y.

Definition with_data_dir_info (dirs : list DataDirInfo) (env : Env) : Env :=
  let '(Build_Env a b c d e f g h i j k l m n o _ q r s t u v w x y) := env in
  Build_Env a b c d e f g h i j k l m n o dirs q r s t u v w x y.

Definition with_scan_dir (answer : string -> Status * list string) (env : Env) : Env :=
  let '(Build_Env a b c d e f g h i j k l m n o p q r s _ u v w x y) := env in
  Build_Env a b c d e f g h i j k l m n o p q r s answer u v w x y.

Definition with_drop_tablet (answer : TAgentTaskRequest -> OLAPStatus) (env : Env) : Env :=
  let '(Build_Env a b c d _ f g h i j k l m n o p q r s t u v w x y) := env in
  Build_Env a b c d answer f g h i j k l m n o p q r s t u v w x y.

Definition with_clone
    (answer : TAgentTaskRequest -> AgentStatus * list string * list TTabletInfo)
    (env : Env) : Env :=
  let '(Build_Env a b c d e f g h i j _ l m n o p q r s t u v w x y) := env in
  Build_Env a b c d e f g h i j answer l m n o p q r s t u v w x y.
End Answers.

(** ** The node, with a submission as the two critical sections it is *)

(** [submit_task] holds [_s_task_signatures_lock] while it records the
    signature, releases it, and then holds [_worker_thread_lock] while it
    pushes the task and notifies a worker: any other thread can run in
    between.  The two critical sections: *)
Definition submit_task_record (task : TAgentTaskRequest) : M bool :=
  let user := match resource_info task with Some u => u | None => "" end in
  record_task_info (task_type task) (signature task) user.

Definition submit_task_push (task : TAgentTaskRequest) : M unit :=
  (fun w => put_tasks (_tasks w ++ [task]) w) >> emit EvNotify.

(** The node together with the submissions that stand between the two:
    [node_submitting] lists the tasks whose signature was recorded and that
    are not pushed yet, with the pool they were submitted to. *)
Record Node := {
  node_system : System;
  node_submitting : list (TaskWorkerType.type * TAgentTaskRequest)
}.

Definition node_init (now : Z) : Node :=
  {| node_system := system_init now; node_submitting := [] |}.

(** What can happen next: a submitter goes through its first critical
    section; a submitter that recorded its task (the [n]-th one) goes through
    its second; a worker goes through its critical section, or runs the rest
    of its loop body, as in [apply_action]. *)
Inductive Move :=
| SubmitRecord (pool : TaskWorkerType.type) (task : TAgentTaskRequest)
| SubmitPush (n : nat)
| WorkerDequeue (pool : TaskWorkerType.type) (prio : TPriority.type)
| WorkerExecute (n : nat) (env : Env).

Definition on_system (node : Node) (s : System) : Node :=
  {| node_system := s; node_submitting := node_submitting node |}.

Definition apply_move (cfg : Config) (m : Move) (node : Node) : option Node :=
  let s := node_system node in
  match m with
  | SubmitRecord pool task =>
      let '(inserted, w) := submit_task_record task (world_of s pool) in
      Some {| node_system := with_world s pool w (sys_busy s);
              node_submitting :=
                if inserted then node_submitting node ++ [(pool, task)]
                else node_submitting node |}
  | SubmitPush n =>
      match node_submitting node !! n with
      | None => None
      | Some (pool, task) =>
          Some {| node_system :=
                    with_world s pool (exec (submit_task_push task) (world_of s pool))
                      (sys_busy s);
                  node_submitting := delete n (node_submitting node) |}
      end
  | WorkerDequeue pool prio => on_system node <$> apply_action cfg (Dequeue pool prio) s
  | WorkerExecute n env => on_system node <$> apply_action cfg (Execute n env) s
  end.

Fixpoint play (cfg : Config) (moves : list Move) (node : Node) : option Node :=
  match moves with
  | [] => Some node
  | m :: rest =>
      match apply_move cfg m node with
      | None => None
      | Some node' => play cfg rest node'
      end
  end.

Definition node_step (cfg : Config) (node node' : Node) : Prop :=
  exists m, apply_move cfg m node = Some node'.

(** The states the node can be in, submissions in progress included. *)
Definition node_reachable (cfg : Config) (now : Z) (node : Node) : Prop :=
  rtc (node_step cfg) (node_init now) node.

(** The tasks a submitter holds between its two critical sections. *)
Definition submitting_tasks (node : Node) : list TAgentTaskRequest :=
  snd <$> node_submitting node.

(** Nothing is queued, no worker is busy and no submission is in
    progress. *)
Definition node_drained (node : Node) : Prop :=
  drained (node_system node) /\ node_submitting node = [].

(** The node keeps, at every move, the registry consistent with the tasks
    that are queued, held by a busy worker or held by a submitter between its
    two critical sections; every live signature belongs to one of these
    tasks; a busy worker holds a job of its own callback. *)
Definition node_invariant (cfg : Config) (node : Node) : Prop :=
  let reg := sys_registry (node_system node) in
  let tasks := in_system (node_system node) ++ submitting_tasks node in
  consistent reg tasks /\ tracked reg tasks
  /\ Forall (holds_own_job cfg) (sys_busy (node_system node)).

(** The node started at clock 0 after [moves] (the initial node if one of
    them cannot happen). *)
Definition node_after (moves : list Move) : Node :=
  match play Sample.cfg moves (node_init 0) with
  | Some node => node
  | None => node_init 0
  end.


(** * Properties *)

(** ** Machine integers *)

Lemma to_int32_small (z : Z) : 0 <= z < 2 ^ 31 -> to_int32 z = z.
Proof.
  intros Hz. unfold to_int32.
  rewrite Z.mod_small by lia. lia.
Qed.

Lemma wrap_uint32_small (z : Z) : 0 <= z < 2 ^ 32 -> wrap_uint32 z = z.
Proof. intros Hz. unfold wrap_uint32. apply Z.mod_small. lia. Qed.

Lemma to_int32_wrap_uint32 (z : Z) : to_int32 (wrap_uint32 z) = to_int32 z.
Proof.
  unfold to_int32, wrap_uint32.
  rewrite Zplus_mod_idemp_l. reflexivity.
Qed.

Lemma wrap_uint32_range (z : Z) : 0 <= wrap_uint32 z < 2 ^ 32.
Proof. unfold wrap_uint32. apply Z.mod_pos_bound. lia. Qed.

(** ** [operator[]] on the tables *)

Section MapIndexFacts.
Context {K : Type} `{Countable K} {V : Type}.
Implicit Types (m : gmap K V) (k : K) (v dflt : V).

Lemma at_insert dflt m k k' v :
  at_ dflt (<[k := v]> m) k' = if decide (k = k') then v else at_ dflt m k'.
Proof.
  unfold at_. rewrite lookup_insert. destruct (decide (k = k')); reflexivity.
Qed.

Lemma at_insert_eq dflt m k v : at_ dflt (<[k := v]> m) k = v.
Proof. rewrite at_insert. destruct (decide (k = k)); congruence. Qed.

Lemma at_insert_ne dflt m k k' v : k <> k' -> at_ dflt (<[k := v]> m) k' = at_ dflt m k'.
Proof. intros Hne. rewrite at_insert. destruct (decide (k = k')); congruence. Qed.

Lemma at_touch dflt dflt' m k k' : at_ dflt (touch dflt' m k) k' =
  if decide (k = k') then at_ dflt' m k else at_ dflt m k'.
Proof. unfold touch. apply at_insert. Qed.

Lemma at_touch_same dflt m k k' : at_ dflt (touch dflt m k) k' = at_ dflt m k'.
Proof. rewrite at_touch. destruct (decide (k = k')); congruence. Qed.

(** Reading an entry that exists leaves the map as it is. *)
Lemma touch_present dflt m k : is_Some (m !! k) -> touch dflt m k = m.
Proof.
  intros [v Hv]. unfold touch, at_. rewrite Hv. cbn. apply insert_id, Hv.
Qed.

Lemma at_empty dflt k : at_ dflt (∅ : gmap K V) k = dflt.
Proof. unfold at_. rewrite lookup_empty. reflexivity. Qed.
End MapIndexFacts.

Section MapIndex2Facts.
Context {K1 : Type} `{Countable K1} {K2 : Type} `{Countable K2}.
Implicit Types (m : gmap K1 (gmap K2 Z)) (k : K1) (u : K2) (v : Z).

Lemma at2_set2 m k u v k' u' :
  at2 (set2 m k u v) k' u' = if decide (k = k' /\ u = u') then v else at2 m k' u'.
Proof.
  unfold at2, set2. rewrite at_insert.
  destruct (decide (k = k')) as [->|Hk].
  - rewrite at_insert.
    destruct (decide (u = u')) as [->|Hu]; destruct (decide _) as [[_ ?]|Hn];
      try reflexivity; try congruence.
    exfalso. apply Hn. split; reflexivity.
  - destruct (decide _) as [[? _]|_]; [congruence | reflexivity].
Qed.

Lemma at2_set2_eq m k u v : at2 (set2 m k u v) k u = v.
Proof. rewrite at2_set2. destruct (decide _) as [|Hn]; [reflexivity|]. exfalso; auto. Qed.

Lemma at2_set2_ne_kind m k u v k' u' : k <> k' -> at2 (set2 m k u v) k' u' = at2 m k' u'.
Proof. intros Hne. rewrite at2_set2. destruct (decide _) as [[? _]|]; congruence. Qed.

Lemma at2_touch2 m k u k' u' : at2 (touch2 m k u) k' u' = at2 m k' u'.
Proof.
  unfold touch2. rewrite at2_set2.
  destruct (decide _) as [[-> ->]|]; reflexivity.
Qed.

Lemma at2_empty k u : at2 (∅ : gmap K1 (gmap K2 Z)) k u = 0.
Proof. unfold at2. rewrite at_empty. apply at_empty. Qed.
End MapIndex2Facts.

(** ** The registry operations, seen through the views *)

Lemma live_record kind sig user reg kind' :
  live (snd (_record_task_info kind sig user reg)) kind' =
  if decide (kind = kind') then {[sig]} ∪ live reg kind else live reg kind'.
Proof.
  unfold _record_task_info, live.
  destruct (bool_decide (sig ∈ at_ ∅ (_s_task_signatures reg) kind)) eqn:Hdup.
  - apply bool_decide_eq_true in Hdup. cbn.
    rewrite at_touch_same.
    destruct (decide (kind = kind')) as [<-|]; [|reflexivity].
    apply set_eq. intros x. rewrite elem_of_union, elem_of_singleton.
    split; [auto | intros [->|Hx]; assumption].
  - destruct (bool_decide (kind = TTaskType.PUSH)); cbn; apply at_insert.
Qed.

Lemma record_result kind sig user reg :
  fst (_record_task_info kind sig user reg) = negb (bool_decide (sig ∈ live reg kind)).
Proof.
  unfold _record_task_info, live.
  destruct (bool_decide (sig ∈ _)); [reflexivity|].
  destruct (bool_decide (kind = _)); reflexivity.
Qed.

(** A rejected submission leaves every table as it is. *)
Lemma record_duplicate kind sig user reg :
  sig ∈ live reg kind -> _record_task_info kind sig user reg = (false, reg).
Proof.
  intros Hin. unfold _record_task_info, live in *.
  rewrite bool_decide_eq_true_2 by exact Hin.
  rewrite touch_present.
  - destruct reg; reflexivity.
  - unfold at_ in Hin. destruct (_s_task_signatures reg !! kind); [eauto|].
    cbn in Hin. apply not_elem_of_empty in Hin. contradiction.
Qed.

Lemma total_by_kind_record kind sig user reg kind' :
  total_by_kind (snd (_record_task_info kind sig user reg)) kind' =
  if decide (kind = TTaskType.PUSH /\ kind' = TTaskType.PUSH /\ sig ∉ live reg kind)
  then wrap_uint32 (total_by_kind reg kind' + 1) else total_by_kind reg kind'.
Proof.
  unfold _record_task_info, live, total_by_kind.
  destruct (bool_decide (sig ∈ _)) eqn:Hdup.
  - apply bool_decide_eq_true in Hdup. cbn.
    destruct (decide _) as [(_ & _ & Hn)|]; [contradiction|reflexivity].
  - apply bool_decide_eq_false in Hdup.
    destruct (bool_decide (kind = TTaskType.PUSH)) eqn:Hk; cbn.
    + apply bool_decide_eq_true in Hk. subst kind. rewrite at_insert.
      destruct (decide (TTaskType.PUSH = kind')) as [<-|Hne];
        destruct (decide _) as [(_ & ? & _)|Hn]; try reflexivity; try congruence.
      exfalso. apply Hn. auto.
    + apply bool_decide_eq_false in Hk.
      destruct (decide _) as [(? & _ & _)|]; [contradiction|reflexivity].
Qed.

Lemma report_version_record kind sig user reg :
  _s_report_version (snd (_record_task_info kind sig user reg)) = _s_report_version reg.
Proof.
  unfold _record_task_info.
  destruct (bool_decide (sig ∈ _)); [reflexivity|].
  destruct (bool_decide (kind = _)); reflexivity.
Qed.

Lemma live_remove kind sig user reg kind' :
  live (_remove_task_info kind sig user reg) kind' =
  if decide (kind = kind') then live reg kind ∖ {[sig]} else live reg kind'.
Proof.
  unfold _remove_task_info, live.
  destruct (bool_decide (kind = TTaskType.PUSH)); cbn; apply at_insert.
Qed.

Lemma total_by_kind_remove kind sig user reg kind' :
  total_by_kind (_remove_task_info kind sig user reg) kind' =
  if decide (kind = TTaskType.PUSH /\ kind' = TTaskType.PUSH)
  then wrap_uint32 (total_by_kind reg kind' - 1) else total_by_kind reg kind'.
Proof.
  unfold _remove_task_info, total_by_kind.
  destruct (bool_decide (kind = TTaskType.PUSH)) eqn:Hk; cbn.
  - apply bool_decide_eq_true in Hk. subst kind. rewrite at_insert.
    destruct (decide (TTaskType.PUSH = kind')) as [<-|Hne];
      destruct (decide _) as [[_ ?]|Hn]; try reflexivity; try congruence.
    exfalso. apply Hn. auto.
  - apply bool_decide_eq_false in Hk.
    destruct (decide _) as [[? _]|]; [contradiction|reflexivity].
Qed.

Lemma report_version_remove kind sig user reg :
  _s_report_version (_remove_task_info kind sig user reg) = _s_report_version reg.
Proof. unfold _remove_task_info. destruct (bool_decide _); reflexivity. Qed.

(** C10. For every task kind other than PUSH, [_remove_task_info] erases
    only the signature from the live set of that kind: the live sets of the
    other kinds, [total_by_user], [total_by_kind], [running_by_user] (the
    three tables themselves) and the report version are left unchanged,
    whatever user string is passed. *)
Theorem remove_task_info_non_push_frame (kind : TTaskType.type) (sig : Z)
    (user : string) (reg : Registry) :
  kind <> TTaskType.PUSH ->
  live (_remove_task_info kind sig user reg) kind = live reg kind ∖ {[sig]}
  /\ (forall kind', kind' <> kind ->
        live (_remove_task_info kind sig user reg) kind' = live reg kind')
  /\ _s_total_task_user_count (_remove_task_info kind sig user reg)
     = _s_total_task_user_count reg
  /\ _s_total_task_count (_remove_task_info kind sig user reg) = _s_total_task_count reg
  /\ _s_running_task_user_count (_remove_task_info kind sig user reg)
     = _s_running_task_user_count reg
  /\ _s_report_version (_remove_task_info kind sig user reg) = _s_report_version reg.
Proof.
  intros Hkind. split; [|split].
  - rewrite live_remove. destruct (decide (kind = kind)); congruence.
  - intros kind' Hne. rewrite live_remove.
    destruct (decide (kind = kind')); congruence.
  - unfold _remove_task_info.
    rewrite bool_decide_eq_false_2 by exact Hkind. cbn. auto.
Qed.

Lemma remove_task_info_non_push_frame_witness :
  TTaskType.CLONE <> TTaskType.PUSH
  /\ live (_remove_task_info TTaskType.CLONE 7 "alice" (registry_init 0)) TTaskType.CLONE
     = live (registry_init 0) TTaskType.CLONE ∖ {[7]}
  /\ _s_running_task_user_count
       (_remove_task_info TTaskType.CLONE 7 "alice" (registry_init 0))
     = _s_running_task_user_count (registry_init 0).
Proof.
  split; [discriminate|].
  pose proof (remove_task_info_non_push_frame TTaskType.CLONE 7 "alice"
                (registry_init 0)) as Hframe.
  destruct Hframe as (Hlive & _ & _ & _ & Hrunning & _); [discriminate|].
  split; [exact Hlive | exact Hrunning].
Defined.

(** ** Running the callbacks *)

Lemma new_events_app (w w' : World) (evs : list Event) :
  trace w' = trace w ++ evs -> new_events w w' = evs.
Proof. intros Htrace. unfold new_events. rewrite Htrace. apply drop_app_length. Qed.

Lemma finish_task_loop_run cfg env remaining try_time request w :
  finish_task_loop cfg env remaining try_time request w =
  (tt, add_trace w (finish_task_events cfg env remaining try_time request)).
Proof.
  revert try_time w. induction remaining as [|remaining IH]; intros try_time w.
  - cbn. unfold ret, add_trace. rewrite app_nil_r. destruct w; reflexivity.
  - cbn [finish_task_loop finish_task_events]. unfold bind at 1, emit.
    destruct (bool_decide _).
    + reflexivity.
    + unfold bind at 1. rewrite IH. unfold add_trace. cbn.
      rewrite <- !app_assoc. reflexivity.
Qed.

Lemma finish_task_run cfg env request w :
  _finish_task cfg env request w =
  (tt, add_trace w (finish_task_events cfg env (Z.to_nat TASK_FINISH_MAX_RETRY) 0 request)).
Proof. apply finish_task_loop_run. Qed.

Lemma finish_task_events_projections cfg env remaining try_time request :
  removals (finish_task_events cfg env remaining try_time request) = []
  /\ publish_attempts (finish_task_events cfg env remaining try_time request) = []
  /\ engine_calls (finish_task_events cfg env remaining try_time request) = [].
Proof.
  revert try_time. induction remaining as [|remaining IH]; intros try_time.
  - auto.
  - cbn [finish_task_events]. destruct (bool_decide _); [auto|].
    destruct (IH (try_time + 1)) as (? & ? & ?). auto.
Qed.

(** The publish loop only appends publish attempts and pauses. *)
Lemma publish_frame env remaining retry_time t res ids w :
  exists r evs,
    publish_version_loop env remaining retry_time t res ids w = (r, add_trace w evs)
    /\ removals evs = [] /\ finish_attempts evs = [].
Proof.
  revert retry_time res ids w.
  induction remaining as [|remaining IH]; intros retry_time res ids w.
  - exists (res, ids), []. cbn. unfold ret, add_trace. rewrite app_nil_r.
    destruct w; auto.
  - cbn [publish_version_loop]. unfold bind at 1, emit.
    destruct (engine_publish_version env t retry_time []) as [res' ids'].
    case_bool_decide.
    + exists (res', ids'), [EvPublishVersion retry_time []]. auto.
    + unfold bind at 1, emit. cbn [registry _tasks trace].
      match goal with
      | |- context [publish_version_loop _ _ _ _ _ _ ?w1] =>
          destruct (IH (retry_time + 1) res' ids' w1) as (r & evs & -> & Hrem & Hfin)
      end.
      exists r, ([EvPublishVersion retry_time []; EvSleep 1] ++ evs).
      unfold add_trace, removals, finish_attempts in *. cbn [registry _tasks trace].
      rewrite !omap_app, Hrem, Hfin, <- !app_assoc. auto.
Qed.

#[local] Opaque _finish_task.

Ltac destruct_oracle :=
  match goal with
  | |- context [bool_decide _] => case_bool_decide
  | |- context [publish_version_loop ?e ?n ?i ?t ?res ?ids ?w] =>
      let r := fresh "r" in
      let evs := fresh "evs" in
      let E := fresh "E" in
      let Hrem := fresh "Hrem" in
      let Hfin := fresh "Hfin" in
      destruct (publish_frame e n i t res ids w) as (r & evs & E & Hrem & Hfin);
      rewrite E; clear E; destruct r
  | |- context [match ?x with _ => _ end] =>
      lazymatch x with
      | context [match _ with _ => _ end] => fail
      | _ => destruct x eqn:?
      end
  end.

Ltac run_m :=
  repeat first
    [ progress cbn -[_remove_task_info finish_task_events Z.to_nat publish_version_loop app]
    | progress unfold bind, ret, emit, emit_all, get_registry, put_registry, put_tasks,
        incr_report_version, read_report_version, remove_task_info, exec, add_trace
    | rewrite finish_task_run
    | destruct_oracle ].

Ltac close_m :=
  first [ reflexivity | congruence | exfalso; cbn in *; intuition congruence ].

Ltac unfold_bodies :=
  unfold _create_tablet_body, _drop_tablet_body, _push_body, _publish_version_body,
    _clear_alter_task_body, _clear_transaction_task_body, _alter_tablet_body,
    _clone_body, _storage_medium_migrate_body, _check_consistency_body,
    _report_task_body, _report_disk_state_body, _report_tablet_body,
    _upload_body, _download_body, _make_snapshot_body, _release_snapshot_body,
    _move_dir_body, _recover_tablet_body, _move_dir, _alter_tablet, _get_tablet_info.

(** No callback body touches the queue. *)
Lemma body_tasks cfg env callback job w :
  _tasks (exec (callback_body cfg env callback job) w) = _tasks w.
Proof.
  destruct w as [reg q tr].
  destruct callback, job; cbn [callback_body]; try reflexivity.
  all: unfold_bodies; run_m; close_m.
Qed.

(** What a callback body does to the registry: the counter is bumped on a
    successful create, alter or push, and the task held is released. *)
Lemma body_registry cfg env callback job w :
  registry (exec (callback_body cfg env callback job) w) =
  release_job callback job
    (if successful_create_alter_push env callback job
     then bump_report_version (registry w) else registry w).
Proof.
  destruct w as [reg q tr]. unfold release_job.
  destruct callback, job; cbn [callback_body task_of_job successful_create_alter_push];
    try reflexivity.
  all: unfold_bodies; run_m; close_m.
Qed.

Ltac split_trace :=
  match goal with
  | |- exists pre fin, ?tr ++ ?p ++ finish_task_events ?c ?e ?n ?i ?r ++ [?R] = _ /\ _ =>
      exists p, (finish_task_events c e n i r)
  | |- exists pre fin, ?tr ++ finish_task_events ?c ?e ?n ?i ?r ++ [?R] = _ /\ _ =>
      exists [], (finish_task_events c e n i r)
  | |- exists pre fin, ?tr ++ ?p ++ [?R] = _ /\ _ =>
      exists p, []
  end.

(** The events a callback body appends for the task it holds: engine
    calls, then at most one run of [_finish_task], then the release. *)
Lemma body_trace cfg env callback job t user w :
  task_of_job callback job = Some (t, user) ->
  exists pre fin,
    trace (exec (callback_body cfg env callback job) w) =
      trace w ++ pre ++ fin ++ [EvRemoveTaskInfo (task_type t) (signature t) user]
    /\ removals pre = [] /\ finish_attempts pre = []
    /\ (fin = [] \/
        exists request,
          fin = finish_task_events cfg env (Z.to_nat TASK_FINISH_MAX_RETRY) 0 request).
Proof.
  destruct w as [reg q tr].
  destruct callback, job; cbn [callback_body task_of_job]; try discriminate.
  all: intros [= <- <-].
  all: unfold_bodies; run_m; rewrite <- ?app_assoc.
  all: split_trace; (split; [reflexivity|]); (split; [assumption || reflexivity|]);
    (split; [assumption || reflexivity|]); eauto.
Qed.

(** The attempts of one run of [_finish_task]: numbered from 0, all with
    the same request, between one and three of them, the last one being the
    first that the transport reports as a success, if there is one. *)
Lemma finish_task_attempts cfg env request :
  let attempts :=
    finish_attempts
      (finish_task_events cfg env (Z.to_nat TASK_FINISH_MAX_RETRY) 0 request) in
  (1 <= length attempts <= 3)%nat
  /\ forall i n r,
       attempts !! i = Some (n, r) ->
       n = Z.of_nat i /\ r = request
       /\ (master_finish_task env r n = DORIS_SUCCESS -> length attempts = S i)
       /\ (master_finish_task env r n <> DORIS_SUCCESS -> (S i < 3)%nat ->
           is_Some (attempts !! S i)).
Proof.
  change (Z.to_nat TASK_FINISH_MAX_RETRY) with 3%nat.
  cbn. repeat case_bool_decide; cbn in *; (split; [lia|]).
  all: intros [|[|[|i]]] n r; cbn; intros [= <- <-];
    (split; [reflexivity|]); (split; [reflexivity|]);
    (split; [intros ? | intros ? ?]);
    first [ reflexivity | contradiction | lia | eexists; reflexivity ].
Qed.

(** C6. For every executed task, the finish RPC is attempted at most
    TASK_FINISH_MAX_RETRY = 3 times, the attempts stop at the first
    transport success (a failed attempt below the bound is followed by the
    next one), and whether or not an attempt succeeds the callback then
    performs exactly one registry removal, as its last step: after three
    transport failures there is no fourth attempt and the signature is
    released all the same. *)
Theorem finish_task_bounded_then_release (cfg : Config) (env : Env)
    (callback : CALLBACK_FUNCTION) (job : Job) (t : TAgentTaskRequest)
    (user : string) (w : World) :
  task_of_job callback job = Some (t, user) ->
  let w' := exec (callback_body cfg env callback job) w in
  let attempts := finish_attempts (new_events w w') in
  (Z.of_nat (length attempts) <= TASK_FINISH_MAX_RETRY)
  /\ (forall i n r,
        attempts !! i = Some (n, r) ->
        n = Z.of_nat i
        /\ (master_finish_task env r n = DORIS_SUCCESS -> length attempts = S i)
        /\ (master_finish_task env r n <> DORIS_SUCCESS -> (S i < 3)%nat ->
            is_Some (attempts !! S i)))
  /\ removals (new_events w w') = [(task_type t, signature t, user)]
  /\ last (new_events w w') = Some (EvRemoveTaskInfo (task_type t) (signature t) user)
  /\ signature t ∉ live (registry w') (task_type t).
Proof.
  intros Hjob w' attempts.
  destruct (body_trace cfg env callback job t user w Hjob)
    as (pre & fin & Htrace & Hrem & Hatt & Hfin).
  assert (Hnew : new_events w w' =
                 pre ++ fin ++ [EvRemoveTaskInfo (task_type t) (signature t) user])
    by (apply new_events_app; exact Htrace).
  assert (Hattempts : attempts = finish_attempts fin).
  { unfold attempts. rewrite Hnew. unfold finish_attempts in *.
    rewrite !omap_app, Hatt. cbn. apply app_nil_r. }
  assert (Hremfin : removals fin = []).
  { destruct Hfin as [->|[request ->]]; [reflexivity|].
    apply finish_task_events_projections. }
  split; [|split; [|split; [|split]]].
  - rewrite Hattempts. destruct Hfin as [->|[request ->]]; [cbn; unfold TASK_FINISH_MAX_RETRY; lia|].
    pose proof (finish_task_attempts cfg env request) as [Hlen _].
    cbn zeta in Hlen. unfold TASK_FINISH_MAX_RETRY in *. lia.
  - rewrite Hattempts. intros i n r Hi.
    destruct Hfin as [->|[request ->]]; [discriminate|].
    pose proof (finish_task_attempts cfg env request) as [_ Hall].
    destruct (Hall i n r Hi) as (? & ? & ? & ?). auto.
  - rewrite Hnew. unfold removals in *. rewrite !omap_app, Hrem, Hremfin. reflexivity.
  - rewrite Hnew, !app_assoc. apply last_snoc.
  - unfold w'. rewrite body_registry. unfold release_job. rewrite Hjob.
    rewrite live_remove. destruct (decide _); [|congruence].
    rewrite elem_of_difference, elem_of_singleton. tauto.
Qed.

Lemma finish_task_bounded_then_release_witness :
  let env := Sample.make_env (fun _ => DORIS_ERROR) DORIS_SUCCESS
               (fun _ => (OLAP_SUCCESS, [])) in
  let t := Sample.task TTaskType.CLONE 5 None None in
  let w := exec (submit_task t) (Sample.world 0 []) in
  let w' := exec (callback_body Sample.cfg env _clone_worker_thread_callback (Fifo t)) w in
  task_of_job _clone_worker_thread_callback (Fifo t) = Some (t, ""%string)
  /\ Z.of_nat (length (finish_attempts (new_events w w'))) <= TASK_FINISH_MAX_RETRY
  /\ removals (new_events w w') = [(TTaskType.CLONE, 5, ""%string)].
Proof.
  intros env t w w'.
  split; [reflexivity|].
  pose proof (finish_task_bounded_then_release Sample.cfg env
                _clone_worker_thread_callback (Fifo t) t "" w eq_refl)
    as (Hle & _ & Hrem & _).
  split; [exact Hle | exact Hrem].
Defined.

(** C9. For every PUSH task whose engine execution leaves
    DORIS_PUSH_HAD_LOADED, the rest of the callback is the registry release
    of the task and nothing else: the signature leaves the live set, no
    finish request is built or sent, the report version is not bumped, the
    queue is untouched, and the only events are the engine call and the
    release. *)
Theorem push_had_loaded_releases_silently (cfg : Config) (env : Env)
    (t : TAgentTaskRequest) (user : string) (w : World) :
  fst (engine_batch_load env t) = DORIS_PUSH_HAD_LOADED ->
  let w' := exec (_push_body cfg env t user) w in
  w' = {| registry := _remove_task_info (task_type t) (signature t) user (registry w);
          _tasks := _tasks w;
          trace := trace w ++ [EvEngine t;
                               EvRemoveTaskInfo (task_type t) (signature t) user] |}
  /\ (signature t ∉ live (registry w') (task_type t))
  /\ finish_attempts (new_events w w') = []
  /\ _s_report_version (registry w') = _s_report_version (registry w).
Proof.
  intros Hloaded w'.
  assert (Hw' : w' = {| registry := _remove_task_info (task_type t) (signature t) user
                                      (registry w);
                        _tasks := _tasks w;
                        trace := trace w ++ [EvEngine t;
                                   EvRemoveTaskInfo (task_type t) (signature t) user] |}).
  { unfold w', _push_body. destruct w as [reg q tr].
    destruct (engine_batch_load env t) as [status infos]. cbn in Hloaded. subst status.
    run_m; try congruence. rewrite <- app_assoc. reflexivity. }
  split; [exact Hw'|]. rewrite Hw'. cbn [registry trace]. split; [|split].
  - rewrite live_remove. destruct (decide _); [|congruence].
    rewrite elem_of_difference, elem_of_singleton. tauto.
  - rewrite (new_events_app w _ [EvEngine t;
               EvRemoveTaskInfo (task_type t) (signature t) user]) by reflexivity.
    reflexivity.
  - apply report_version_remove.
Qed.

Lemma push_had_loaded_releases_silently_witness :
  let env := Sample.make_env (fun _ => DORIS_SUCCESS) DORIS_PUSH_HAD_LOADED
               (fun _ => (OLAP_SUCCESS, [])) in
  let t := Sample.task TTaskType.PUSH 9 None (Some "alice"%string) in
  let w := exec (submit_task t) (Sample.world 0 []) in
  let w' := exec (_push_body Sample.cfg env t "alice") w in
  fst (engine_batch_load env t) = DORIS_PUSH_HAD_LOADED
  /\ (signature t ∉ live (registry w') (task_type t))
  /\ finish_attempts (new_events w w') = [].
Proof.
  intros env t w w'.
  split; [reflexivity|].
  pose proof (push_had_loaded_releases_silently Sample.cfg env t "alice" w eq_refl)
    as (_ & Hlive & Hfin & _).
  split; [exact Hlive | exact Hfin].
Defined.

(** Every attempt of one run of [_finish_task] carries the same request,
    and there is at least one. *)
Lemma finish_task_events_same_request cfg env request :
  finish_attempts
    (finish_task_events cfg env (Z.to_nat TASK_FINISH_MAX_RETRY) 0 request) <> []
  /\ forall n r,
       (n, r) ∈ finish_attempts
                  (finish_task_events cfg env (Z.to_nat TASK_FINISH_MAX_RETRY) 0 request) ->
       r = request.
Proof.
  pose proof (finish_task_attempts cfg env request) as [Hlen Hall]. cbn zeta in *.
  split.
  - intros Hnil. rewrite Hnil in Hlen. cbn in Hlen. lia.
  - intros n r Hin. apply list_elem_of_lookup in Hin as [i Hi].
    destruct (Hall i n r Hi) as (_ & ? & _). assumption.
Qed.

(** C5. The engine's [publish_version] is attempted at most
    PUBLISH_VERSION_MAX_RETRY = 3 times, each time on a cleared error-tablet
    list, with a one-second sleep after each failed attempt; the attempts
    stop at the first success.  One finish request is then handed to
    [_finish_task]: if an attempt succeeded it carries status OK and
    [error_tablet_ids] is not set; if all three failed it carries
    RUNTIME_ERROR and the error tablet ids left by the third attempt. *)
Theorem publish_version_bounded_retry (cfg : Config) (env : Env)
    (t : TAgentTaskRequest) (w : World) :
  let w' := exec (_publish_version_body cfg env t) w in
  let answer n := engine_publish_version env t n [] in
  let succeeded n := fst (answer n) = OLAP_SUCCESS in
  let publish n := EvPublishVersion n [] in
  let pause := EvSleep 1 in
  let carries (request : TFinishTaskRequest) code ids :=
    status_code <$> fin_task_status request = Some code
    /\ fin_error_tablet_ids request = ids in
  exists attempts request,
    new_events w w' =
      attempts
      ++ finish_task_events cfg env (Z.to_nat TASK_FINISH_MAX_RETRY) 0 request
      ++ [EvRemoveTaskInfo (task_type t) (signature t) ""]
    /\ ((succeeded 0 /\ attempts = [publish 0]
         /\ carries request TStatusCode.OK None)
        \/ (~ succeeded 0 /\ succeeded 1
            /\ attempts = [publish 0; pause; publish 1]
            /\ carries request TStatusCode.OK None)
        \/ (~ succeeded 0 /\ ~ succeeded 1 /\ succeeded 2
            /\ attempts = [publish 0; pause; publish 1; pause; publish 2]
            /\ carries request TStatusCode.OK None)
        \/ (~ succeeded 0 /\ ~ succeeded 1 /\ ~ succeeded 2
            /\ attempts = [publish 0; pause; publish 1; pause; publish 2; pause]
            /\ carries request TStatusCode.RUNTIME_ERROR (Some (snd (answer 2)))))
    /\ publish_attempts (new_events w w') = publish_attempts attempts
    /\ finish_attempts (new_events w w') <> []
    /\ (forall n r, (n, r) ∈ finish_attempts (new_events w w') -> r = request).
Proof.
  intros w' answer succeeded publish pause carries.
  assert (Hshape : exists attempts request,
    trace w' = trace w ++ attempts
      ++ finish_task_events cfg env (Z.to_nat TASK_FINISH_MAX_RETRY) 0 request
      ++ [EvRemoveTaskInfo (task_type t) (signature t) ""]
    /\ ((succeeded 0 /\ attempts = [publish 0]
         /\ carries request TStatusCode.OK None)
        \/ (~ succeeded 0 /\ succeeded 1
            /\ attempts = [publish 0; pause; publish 1]
            /\ carries request TStatusCode.OK None)
        \/ (~ succeeded 0 /\ ~ succeeded 1 /\ succeeded 2
            /\ attempts = [publish 0; pause; publish 1; pause; publish 2]
            /\ carries request TStatusCode.OK None)
        \/ (~ succeeded 0 /\ ~ succeeded 1 /\ ~ succeeded 2
            /\ attempts = [publish 0; pause; publish 1; pause; publish 2; pause]
            /\ carries request TStatusCode.RUNTIME_ERROR (Some (snd (answer 2)))))).
  { unfold w', succeeded, answer, carries, publish, pause, _publish_version_body.
    destruct w as [reg q tr].
    change (Z.to_nat PUBLISH_VERSION_MAX_RETRY) with 3%nat.
    cbn [publish_version_loop]. unfold exec, bind, emit, ret. cbn [registry _tasks trace].
    change (0 + 1) with 1. change (1 + 1) with 2.
    destruct (engine_publish_version env t 0 []) as [res0 ids0].
    destruct (decide (res0 = OLAP_SUCCESS)) as [H0|H0].
    - rewrite (bool_decide_eq_true_2 _ H0). cbn [fst snd].
      rewrite (bool_decide_eq_false_2 (res0 <> OLAP_SUCCESS)) by tauto.
      rewrite finish_task_run. cbn [registry _tasks trace add_trace fst snd].
      unfold remove_task_info, bind, get_registry, put_registry, emit, add_trace.
      cbn [registry _tasks trace snd]. rewrite <- !app_assoc.
      eexists [EvPublishVersion 0 []], _. split; [reflexivity|]. left. cbn. auto.
    - rewrite (bool_decide_eq_false_2 _ H0). cbn [registry _tasks trace].
      destruct (engine_publish_version env t 1 []) as [res1 ids1].
      destruct (decide (res1 = OLAP_SUCCESS)) as [H1|H1].
      + rewrite (bool_decide_eq_true_2 _ H1). cbn [fst snd].
        rewrite (bool_decide_eq_false_2 (res1 <> OLAP_SUCCESS)) by tauto.
        rewrite finish_task_run. cbn [registry _tasks trace add_trace fst snd].
        unfold remove_task_info, bind, get_registry, put_registry, emit, add_trace.
        cbn [registry _tasks trace snd]. rewrite <- !app_assoc.
        eexists [EvPublishVersion 0 []; EvSleep 1; EvPublishVersion 1 []], _.
        split; [reflexivity|]. right; left. cbn. auto.
      + rewrite (bool_decide_eq_false_2 _ H1). cbn [registry _tasks trace].
        destruct (engine_publish_version env t 2 []) as [res2 ids2].
        destruct (decide (res2 = OLAP_SUCCESS)) as [H2|H2].
        * rewrite (bool_decide_eq_true_2 _ H2). cbn [fst snd].
          rewrite (bool_decide_eq_false_2 (res2 <> OLAP_SUCCESS)) by tauto.
          rewrite finish_task_run. cbn [registry _tasks trace add_trace fst snd].
          unfold remove_task_info, bind, get_registry, put_registry, emit, add_trace.
          cbn [registry _tasks trace snd]. rewrite <- !app_assoc.
          eexists [EvPublishVersion 0 []; EvSleep 1; EvPublishVersion 1 []; EvSleep 1;
                   EvPublishVersion 2 []], _.
          split; [reflexivity|]. right; right; left. cbn. auto 10.
        * rewrite (bool_decide_eq_false_2 _ H2). cbn [registry _tasks trace fst snd].
          rewrite (bool_decide_eq_true_2 (res2 <> OLAP_SUCCESS)) by exact H2.
          rewrite finish_task_run. cbn [registry _tasks trace add_trace fst snd].
          unfold remove_task_info, bind, get_registry, put_registry, emit, add_trace.
          cbn [registry _tasks trace snd]. rewrite <- !app_assoc.
          eexists [EvPublishVersion 0 []; EvSleep 1; EvPublishVersion 1 []; EvSleep 1;
                   EvPublishVersion 2 []; EvSleep 1], _.
          split; [reflexivity|]. right; right; right. cbn. auto 10. }
  destruct Hshape as (attempts & request & Htrace & Hcases).
  apply new_events_app in Htrace.
  exists attempts, request. split; [exact Htrace|]. split; [exact Hcases|].
  pose proof (finish_task_events_projections cfg env
                (Z.to_nat TASK_FINISH_MAX_RETRY) 0 request) as (_ & Hpub & _).
  pose proof (finish_task_events_same_request cfg env request) as [Hne Hsame].
  assert (Hatt : finish_attempts attempts = []).
  { destruct Hcases as [(_ & -> & _)|[(_ & _ & -> & _)|[(_ & _ & _ & -> & _)
                       |(_ & _ & _ & -> & _)]]];
      reflexivity. }
  rewrite Htrace. unfold publish_attempts, finish_attempts in *.
  rewrite !omap_app, Hpub, Hatt. cbn [omap app]. rewrite !app_nil_r.
  auto.
Qed.

(** ** The selector *)

Lemma same_counters_refl reg : same_counters reg reg.
Proof. unfold same_counters. auto. Qed.

Lemma same_counters_trans reg1 reg2 reg3 :
  same_counters reg1 reg2 -> same_counters reg2 reg3 -> same_counters reg1 reg3.
Proof.
  unfold same_counters.
  intros (Hv & Hs & Hk & Hu & Hr) (Hv' & Hs' & Hk' & Hu' & Hr').
  split; [congruence|]. split; [congruence|]. split; [|split].
  - intros kind. rewrite Hk'. apply Hk.
  - intros kind user. rewrite Hu'. apply Hu.
  - intros kind user. rewrite Hr'. apply Hr.
Qed.

Lemma same_counters_touch kind user reg : same_counters reg (touch_counters kind user reg).
Proof.
  unfold same_counters, touch_counters, total_by_kind, total_by_user, running_by_user.
  cbn. split; [reflexivity|]. split; [reflexivity|]. split; [|split].
  - intros kind'. apply at_touch_same.
  - intros kind' user'. apply at2_touch2.
  - intros kind' user'. apply at2_touch2.
Qed.

Lemma same_counters_live reg reg' kind : same_counters reg reg' -> live reg' kind = live reg kind.
Proof. intros (_ & Hs & _). unfold live. rewrite Hs. reflexivity. Qed.

(** [incr_running] changes one running count and nothing else. *)
Lemma incr_running_frame kind user reg :
  _s_report_version (incr_running kind user reg) = _s_report_version reg
  /\ _s_task_signatures (incr_running kind user reg) = _s_task_signatures reg
  /\ _s_total_task_user_count (incr_running kind user reg) = _s_total_task_user_count reg
  /\ _s_total_task_count (incr_running kind user reg) = _s_total_task_count reg
  /\ running_by_user (incr_running kind user reg) kind user
     = wrap_uint32 (running_by_user reg kind user + 1).
Proof.
  unfold incr_running, running_by_user. cbn. repeat split. apply at2_set2_eq.
Qed.

(** The scan leaves the counters as they are, and every rate it logs is
    computed for a task of the queue with the totals of the registry. *)
Lemma scan_tasks_frame thread_count prio rest :
  forall i user improper_users reg log,
    same_counters reg (scan_tasks thread_count prio rest i user improper_users reg log).1.2
    /\ exists new,
         (scan_tasks thread_count prio rest i user improper_users reg log).2 = log ++ new
         /\ forall kind sig divisor,
              (kind, sig, divisor) ∈ rate_divisors new ->
              divisor = total_by_kind reg kind
              /\ exists task, task ∈ rest /\ task_key task = (kind, sig).
Proof.
  induction rest as [|task rest IH]; intros i user improper_users reg log.
  - cbn. split; [apply same_counters_refl|].
    exists []. rewrite app_nil_r. split; [reflexivity|].
    intros kind sig divisor Hin. cbn in Hin. apply elem_of_nil in Hin. contradiction.
  - cbn [scan_tasks].
    set (user' := match resource_info task with Some u => u | None => user end).
    assert (Hlift : forall i' u' imp reg1 log1,
               same_counters reg reg1 ->
               (exists mid, log1 = log ++ mid /\
                  forall kind sig divisor, (kind, sig, divisor) ∈ rate_divisors mid ->
                    divisor = total_by_kind reg kind
                    /\ exists task', task' ∈ task :: rest /\ task_key task' = (kind, sig)) ->
               same_counters reg (scan_tasks thread_count prio rest i' u' imp reg1 log1).1.2
               /\ exists new,
                    (scan_tasks thread_count prio rest i' u' imp reg1 log1).2 = log ++ new
                    /\ forall kind sig divisor,
                         (kind, sig, divisor) ∈ rate_divisors new ->
                         divisor = total_by_kind reg kind
                         /\ exists task', task' ∈ task :: rest
                                          /\ task_key task' = (kind, sig)).
    { intros i' u' imp reg1 log1 Hsame (mid & -> & Hmid).
      destruct (IH i' u' imp reg1 (log ++ mid)) as (Hsame' & new & Hnew & Hall).
      split; [eapply same_counters_trans; eassumption|].
      exists (mid ++ new). rewrite Hnew, app_assoc. split; [reflexivity|].
      intros kind sig divisor Hin. unfold rate_divisors in Hin.
      rewrite omap_app, elem_of_app in Hin. destruct Hin as [Hin|Hin].
      - apply Hmid. exact Hin.
      - destruct (Hall kind sig divisor Hin) as (Hdiv & task' & Hin' & Hkey).
        split.
        + rewrite Hdiv. destruct Hsame as (_ & _ & Hk & _). apply Hk.
        + exists task'. split; [apply elem_of_cons; right; exact Hin' | exact Hkey]. }
    assert (Hnone : exists mid : list Event, log = log ++ mid /\
               forall kind sig divisor, (kind, sig, divisor) ∈ rate_divisors mid ->
                 divisor = total_by_kind reg kind
                 /\ exists task', task' ∈ task :: rest /\ task_key task' = (kind, sig)).
    { exists []. rewrite app_nil_r. split; [reflexivity|].
      intros kind sig divisor Hin. cbn in Hin. apply elem_of_nil in Hin. contradiction. }
    assert (Hone : forall ev,
               rate_divisors [ev] = [(task_type task, signature task,
                                      total_by_kind reg (task_type task))] ->
               exists mid : list Event, log ++ [ev] = log ++ mid /\
                 forall kind sig divisor, (kind, sig, divisor) ∈ rate_divisors mid ->
                   divisor = total_by_kind reg kind
                   /\ exists task', task' ∈ task :: rest /\ task_key task' = (kind, sig)).
    { intros ev Hev. exists [ev]. split; [reflexivity|].
      intros kind sig divisor Hin. rewrite Hev in Hin.
      apply list_elem_of_singleton in Hin. injection Hin as -> -> ->.
      split; [reflexivity|]. exists task. split; [apply elem_of_cons; left; reflexivity | reflexivity]. }
    case_bool_decide.
    + destruct (is_high_priority task).
      * cbn. split; [apply same_counters_refl|]. exact Hnone.
      * apply Hlift; [apply same_counters_refl | exact Hnone].
    + case_bool_decide.
      * apply Hlift; [apply same_counters_refl | exact Hnone].
      * destruct (_ || _).
        -- cbn [fst snd]. split; [apply same_counters_touch|].
           apply Hone. reflexivity.
        -- apply Hlift; [apply same_counters_touch|]. apply Hone. reflexivity.
Qed.

(** The index the scan leaves is [-1] or the position of a task of the
    queue; a HIGH worker only stops at a task of priority HIGH. *)
Lemma scan_tasks_index thread_count prio rest :
  forall i user improper_users reg log,
    0 <= i -> i + Z.of_nat (length rest) < 2 ^ 31 ->
    let index := (scan_tasks thread_count prio rest i user improper_users reg log).1.1.1 in
    index = -1
    \/ exists (j : nat) task,
         index = i + Z.of_nat j /\ rest !! j = Some task
         /\ (prio = TPriority.HIGH -> priority task = Some TPriority.HIGH).
Proof.
  induction rest as [|task rest IH]; intros i user improper_users reg log Hi Hlen; cbn zeta.
  - left. reflexivity.
  - cbn [scan_tasks]. cbn [length] in Hlen.
    assert (Hwrap : wrap_uint32 (i + 1) = i + 1) by (apply wrap_uint32_small; lia).
    assert (Hnext : forall u imp reg1 log1,
               (scan_tasks thread_count prio rest (wrap_uint32 (i + 1)) u imp reg1 log1).1.1.1
               = -1
               \/ exists (j : nat) task',
                    (scan_tasks thread_count prio rest (wrap_uint32 (i + 1)) u imp reg1
                       log1).1.1.1 = i + Z.of_nat j
                    /\ (task :: rest) !! j = Some task'
                    /\ (prio = TPriority.HIGH -> priority task' = Some TPriority.HIGH)).
    { intros u imp reg1 log1. rewrite Hwrap.
      destruct (IH (i + 1) u imp reg1 log1) as [Hm|(j & task' & Hj & Hlook & Hhigh)];
        [lia | lia | left; exact Hm |].
      right. exists (S j), task'. split; [lia|]. split; [exact Hlook | exact Hhigh]. }
    assert (Hhere : forall (Hprio : prio = TPriority.HIGH -> priority task = Some TPriority.HIGH),
               exists (j : nat) task',
                 to_int32 i = i + Z.of_nat j /\ (task :: rest) !! j = Some task'
                 /\ (prio = TPriority.HIGH -> priority task' = Some TPriority.HIGH)).
    { intros Hprio. exists 0%nat, task. rewrite to_int32_small by lia.
      split; [lia|]. split; [reflexivity | exact Hprio]. }
    case_bool_decide as Hp.
    + unfold is_high_priority. case_bool_decide as Hhigh.
      * right. cbn [fst]. apply Hhere. intros _. exact Hhigh.
      * apply Hnext.
    + case_bool_decide.
      * apply Hnext.
      * destruct (_ || _).
        -- right. cbn [fst]. apply Hhere. intros Hprio. contradiction.
        -- apply Hnext.
Qed.

(** A HIGH worker's scan reads no counter and writes no log line. *)
Lemma scan_tasks_high_pure thread_count rest :
  forall i user improper_users reg log,
    (scan_tasks thread_count TPriority.HIGH rest i user improper_users reg log).1.2 = reg
    /\ (scan_tasks thread_count TPriority.HIGH rest i user improper_users reg log).2 = log.
Proof.
  induction rest as [|task rest IH]; intros i user improper_users reg log.
  - auto.
  - cbn [scan_tasks]. rewrite bool_decide_eq_true_2 by reflexivity.
    destruct (is_high_priority task); [auto | apply IH].
Qed.

(** A HIGH worker's scan stops at the first task of priority HIGH. *)
Lemma scan_tasks_high_first thread_count rest :
  forall i user improper_users reg log (j : nat) task,
    0 <= i -> i + Z.of_nat (length rest) < 2 ^ 31 ->
    rest !! j = Some task ->
    priority task = Some TPriority.HIGH ->
    (forall (j' : nat) task',
       rest !! j' = Some task' -> (j' < j)%nat -> priority task' <> Some TPriority.HIGH) ->
    (scan_tasks thread_count TPriority.HIGH rest i user improper_users reg log).1.1.1
    = i + Z.of_nat j.
Proof.
  induction rest as [|task0 rest IH];
    intros i user improper_users reg log j task Hi Hlen Hlook Hhigh Hfirst.
  - discriminate.
  - cbn [scan_tasks]. cbn [length] in Hlen.
    rewrite bool_decide_eq_true_2 by reflexivity. unfold is_high_priority.
    destruct j as [|j].
    + cbn in Hlook. injection Hlook as ->.
      rewrite bool_decide_eq_true_2 by exact Hhigh. cbn [fst].
      rewrite to_int32_small by lia. lia.
    + rewrite bool_decide_eq_false_2 by (apply (Hfirst 0%nat task0); [reflexivity | lia]).
      rewrite wrap_uint32_small by lia.
      rewrite (IH (i + 1) _ _ _ _ j task); try assumption; try lia.
      intros j' task' Hlook' Hlt. apply (Hfirst (S j') task'); [exact Hlook' | lia].
Qed.

(** Without a task of priority HIGH a HIGH worker's scan ends with [-1]. *)
Lemma scan_tasks_high_none thread_count rest :
  forall i user improper_users reg log,
    (forall task, task ∈ rest -> priority task <> Some TPriority.HIGH) ->
    (scan_tasks thread_count TPriority.HIGH rest i user improper_users reg log).1.1.1 = -1.
Proof.
  induction rest as [|task rest IH]; intros i user improper_users reg log Hnone.
  - reflexivity.
  - cbn [scan_tasks]. rewrite bool_decide_eq_true_2 by reflexivity.
    unfold is_high_priority.
    rewrite bool_decide_eq_false_2 by (apply Hnone, elem_of_cons; left; reflexivity).
    apply IH. intros task' Hin. apply Hnone, elem_of_cons. right. exact Hin.
Qed.

Lemma task_at_lookup tasks (j : nat) : task_at tasks (Z.of_nat j) = tasks !! j.
Proof.
  unfold task_at. destruct (Z.ltb_spec (Z.of_nat j) 0); [lia|].
  rewrite Nat2Z.id. reflexivity.
Qed.

(** What [_get_next_task_index] returns, from what the scan left. *)
Lemma get_next_task_index_unfold thread_count tasks prio reg :
  _get_next_task_index thread_count tasks prio reg =
  let scanned := scan_tasks thread_count prio tasks 0 "" ∅ reg [] in
  let index := scanned.1.1.1 in
  let user := scanned.1.1.2 in
  let reg1 := scanned.1.2 in
  let log := scanned.2 in
  if bool_decide (index = -1) then
    if bool_decide (prio = TPriority.HIGH) then Some (wrap_uint32 index, reg1, log)
    else
      match task_at tasks 0 with
      | None => None
      | Some task0 =>
          Some (wrap_uint32 0,
                incr_running (task_type task0)
                  (match resource_info task0 with Some u => u | None => "" end) reg1,
                log)
      end
  else
    match task_at tasks index with
    | None => None
    | Some task => Some (wrap_uint32 index, incr_running (task_type task) user reg1, log)
    end.
Proof.
  unfold _get_next_task_index.
  destruct (scan_tasks thread_count prio tasks 0 "" ∅ reg []) as [[[index user] reg1] log].
  reflexivity.
Qed.

(** Whatever the selector returns, it leaves the report version, the live
    sets and the totals as they are, and every rate it logs divides by the
    total of the kind of a queued task. *)
Lemma get_next_task_index_frame thread_count tasks prio reg returned reg' log :
  _get_next_task_index thread_count tasks prio reg = Some (returned, reg', log) ->
  _s_report_version reg' = _s_report_version reg
  /\ _s_task_signatures reg' = _s_task_signatures reg
  /\ (forall kind, total_by_kind reg' kind = total_by_kind reg kind)
  /\ (forall kind user, total_by_user reg' kind user = total_by_user reg kind user)
  /\ (forall kind sig divisor,
        (kind, sig, divisor) ∈ rate_divisors log ->
        divisor = total_by_kind reg kind
        /\ exists task, task ∈ tasks /\ task_key task = (kind, sig)).
Proof.
  rewrite get_next_task_index_unfold. cbn zeta.
  destruct (scan_tasks_frame thread_count prio tasks 0 "" ∅ reg [])
    as (Hsame & new & Hlog & Hrates).
  cbn [app] in Hlog.
  destruct (scan_tasks thread_count prio tasks 0 "" ∅ reg []) as [[[index user] reg1] log1].
  cbn [fst snd] in *. subst log1.
  destruct Hsame as (Hv & Hs & Hk & Hu & Hr).
  assert (Hframe : forall kind' user',
             _s_report_version (incr_running kind' user' reg1) = _s_report_version reg
             /\ _s_task_signatures (incr_running kind' user' reg1) = _s_task_signatures reg
             /\ (forall kind, total_by_kind (incr_running kind' user' reg1) kind
                              = total_by_kind reg kind)
             /\ (forall kind user0, total_by_user (incr_running kind' user' reg1) kind user0
                                    = total_by_user reg kind user0)).
  { intros kind' user'.
    destruct (incr_running_frame kind' user' reg1) as (Hv' & Hs' & Hu' & Hk' & _).
    split; [congruence|]. split; [congruence|]. split.
    - intros kind. unfold total_by_kind in *. rewrite Hk'. apply Hk.
    - intros kind user0. unfold total_by_user in *. rewrite Hu'. apply Hu. }
  case_bool_decide as Hminus; [case_bool_decide as Hprio|].
  - intros [= <- <- <-]. auto.
  - destruct (task_at tasks 0) as [task0|]; [|discriminate].
    intros [= <- <- <-].
    destruct (Hframe (task_type task0)
                (match resource_info task0 with Some u => u | None => ""%string end))
      as (? & ? & ? & ?).
    auto.
  - destruct (task_at tasks index) as [task|]; [|discriminate].
    intros [= <- <- <-].
    destruct (Hframe (task_type task) user) as (? & ? & ? & ?). auto.
Qed.

(** On a queue that is not empty (and short enough to be indexed by an
    [int32_t]) the selector has defined behaviour; a NORMAL worker gets the
    index of a task of the queue, a HIGH worker gets the index of a task of
    priority HIGH or [2^32 - 1], with the registry untouched. *)
Lemma get_next_task_index_defined thread_count tasks prio reg :
  Z.of_nat (length tasks) < 2 ^ 31 ->
  tasks <> [] \/ prio = TPriority.HIGH ->
  exists returned reg' log,
    _get_next_task_index thread_count tasks prio reg = Some (returned, reg', log)
    /\ ((prio = TPriority.HIGH /\ returned = wrap_uint32 (-1) /\ reg' = reg /\ log = [])
        \/ exists (j : nat) task,
             returned = Z.of_nat j /\ tasks !! j = Some task
             /\ (prio = TPriority.HIGH -> priority task = Some TPriority.HIGH)).
Proof.
  intros Hlen Hdefined. rewrite get_next_task_index_unfold. cbn zeta.
  pose proof (scan_tasks_index thread_count prio tasks 0 "" ∅ reg []) as Hindex.
  cbn zeta in Hindex.
  assert (Hpure : prio = TPriority.HIGH ->
                  (scan_tasks thread_count prio tasks 0 "" ∅ reg []).1.2 = reg
                  /\ (scan_tasks thread_count prio tasks 0 "" ∅ reg []).2 = [])
    by (intros ->; apply scan_tasks_high_pure).
  destruct (scan_tasks thread_count prio tasks 0 "" ∅ reg []) as [[[index user] reg1] log].
  cbn [fst snd] in *.
  case_bool_decide as Hminus; [case_bool_decide as Hprio|].
  - eexists _, _, _. split; [reflexivity|]. left.
    destruct (Hpure Hprio) as [-> ->]. subst index. auto.
  - destruct Hdefined as [Hne|Hhigh]; [|contradiction].
    destruct tasks as [|task0 tasks']; [contradiction|].
    change (task_at (task0 :: tasks') 0) with (Some task0).
    eexists _, _, _. split; [reflexivity|].
    right. exists 0%nat, task0. split; [reflexivity|]. split; [reflexivity|].
    intros; contradiction.
  - destruct Hindex as [Hm|(j & task & Hj & Hlook & Hhigh)]; [lia | lia | contradiction |].
    rewrite Z.add_0_l in Hj. subst index. rewrite task_at_lookup, Hlook.
    eexists _, _, _. split; [reflexivity|].
    right. exists j, task. split; [|split; [exact Hlook | exact Hhigh]].
    apply wrap_uint32_small. apply lookup_lt_Some in Hlook. lia.
Qed.

(** The critical section of the push workers: what it hands out was in the
    queue, and the registry keeps its report version, live sets and totals. *)
Lemma push_dequeue_frame cfg prio w job w' :
  _push_dequeue cfg prio w = Some (job, w') ->
  _s_report_version (registry w') = _s_report_version (registry w)
  /\ _s_task_signatures (registry w') = _s_task_signatures (registry w)
  /\ (forall kind, total_by_kind (registry w') kind = total_by_kind (registry w) kind)
  /\ (forall kind user,
        total_by_user (registry w') kind user = total_by_user (registry w) kind user)
  /\ ((job = PushNone /\ _tasks w' = _tasks w)
      \/ exists (j : nat) task user,
           job = PushSelected task user /\ _tasks w !! j = Some task
           /\ _tasks w' = delete j (_tasks w))
  /\ exists log,
       (trace w' = trace w ++ log \/ trace w' = trace w ++ log ++ [EvNotify])
       /\ forall kind sig divisor,
            (kind, sig, divisor) ∈ rate_divisors log ->
            divisor = total_by_kind (registry w) kind
            /\ exists task, task ∈ _tasks w /\ task_key task = (kind, sig).
Proof.
  unfold _push_dequeue. destruct (_tasks w) as [|task0 rest] eqn:Htasks; [discriminate|].
  destruct (_get_next_task_index _ _ _ _) as [[[returned reg] log]|] eqn:Hnext;
    [|discriminate].
  apply get_next_task_index_frame in Hnext as (Hv & Hs & Hk & Hu & Hrates).
  destruct (Z.ltb_spec (to_int32 returned) 0) as [Hneg|Hpos].
  - intros [= <- <-]. cbn [registry _tasks trace].
    split; [exact Hv|]. split; [exact Hs|]. split; [exact Hk|]. split; [exact Hu|].
    split; [left; auto|]. exists log. split; [right; reflexivity | exact Hrates].
  - destruct (task_at (task0 :: rest) (to_int32 returned)) as [task|] eqn:Hat;
      [|discriminate].
    intros [= <- <-]. cbn [registry _tasks trace].
    split; [exact Hv|]. split; [exact Hs|]. split; [exact Hk|]. split; [exact Hu|].
    split.
    + right. eexists (Z.to_nat (to_int32 returned)), task, _.
      split; [reflexivity|]. split; [|reflexivity].
      unfold task_at in Hat. destruct (Z.ltb_spec (to_int32 returned) 0); [lia|]. exact Hat.
    + exists log. split; [left; reflexivity | exact Hrates].
Qed.

(** C3. For every queue (short enough to be indexed by an [int32_t]), the
    selector called by a HIGH-priority worker returns the smallest index
    whose task has priority HIGH.  If no queued task has priority HIGH it
    returns -1 (as the [uint32_t] 2^32 - 1, which the worker reads back as
    the [int32_t] -1) with the registry untouched, and the worker's critical
    section then dequeues nothing and only notifies the condition variable.
    A task a HIGH-priority worker takes out of the queue always has
    priority HIGH, whatever else is queued. *)
Theorem high_worker_takes_first_high_task (cfg : Config) (thread_count : Z)
    (tasks : list TAgentTaskRequest) (reg : Registry) :
  Z.of_nat (length tasks) < 2 ^ 31 ->
  (forall (i : nat) task,
     tasks !! i = Some task ->
     priority task = Some TPriority.HIGH ->
     (forall (j : nat) task',
        tasks !! j = Some task' -> (j < i)%nat -> priority task' <> Some TPriority.HIGH) ->
     exists reg',
       _get_next_task_index thread_count tasks TPriority.HIGH reg
       = Some (Z.of_nat i, reg', []))
  /\ ((forall task, task ∈ tasks -> priority task <> Some TPriority.HIGH) ->
      _get_next_task_index thread_count tasks TPriority.HIGH reg
      = Some (wrap_uint32 (-1), reg, [])
      /\ to_int32 (wrap_uint32 (-1)) = -1
      /\ forall tr,
           tasks <> [] ->
           _push_dequeue cfg TPriority.HIGH
             {| registry := reg; _tasks := tasks; trace := tr |}
           = Some (PushNone,
                   {| registry := reg; _tasks := tasks; trace := tr ++ [EvNotify] |}))
  /\ (forall tr task user w',
        _push_dequeue cfg TPriority.HIGH
          {| registry := reg; _tasks := tasks; trace := tr |}
        = Some (PushSelected task user, w') ->
        priority task = Some TPriority.HIGH).
Proof.
  intros Hlen. split; [|split].
  - intros i task Hlook Hhigh Hfirst.
    rewrite get_next_task_index_unfold. cbn zeta.
    rewrite (scan_tasks_high_first thread_count tasks 0 "" ∅ reg [] i task)
      by (assumption || lia).
    destruct (scan_tasks_high_pure thread_count tasks 0 "" ∅ reg []) as [-> ->].
    rewrite Z.add_0_l.
    rewrite bool_decide_eq_false_2 by lia.
    rewrite task_at_lookup, Hlook.
    rewrite wrap_uint32_small by (apply lookup_lt_Some in Hlook; lia).
    eexists. reflexivity.
  - intros Hnone.
    assert (Hnext : _get_next_task_index thread_count tasks TPriority.HIGH reg
                    = Some (wrap_uint32 (-1), reg, [])).
    { rewrite get_next_task_index_unfold. cbn zeta.
      rewrite (scan_tasks_high_none thread_count tasks 0 "" ∅ reg []) by exact Hnone.
      destruct (scan_tasks_high_pure thread_count tasks 0 "" ∅ reg []) as [-> ->].
      reflexivity. }
    split; [exact Hnext|]. split; [reflexivity|].
    intros tr Hne. unfold _push_dequeue. cbn [_tasks registry trace].
    destruct tasks as [|task0 rest]; [contradiction|].
    rewrite get_next_task_index_unfold. cbn zeta.
    rewrite (scan_tasks_high_none (push_thread_count cfg) (task0 :: rest) 0 "" ∅ reg [])
      by exact Hnone.
    destruct (scan_tasks_high_pure (push_thread_count cfg) (task0 :: rest) 0 "" ∅ reg [])
      as [-> ->].
    reflexivity.
  - intros tr task user w' Hdeq. unfold _push_dequeue in Hdeq.
    cbn [_tasks registry trace] in Hdeq.
    destruct tasks as [|task0 rest]; [discriminate|].
    destruct (get_next_task_index_defined (push_thread_count cfg) (task0 :: rest)
                TPriority.HIGH reg Hlen)
      as (returned & reg' & log & Hnext & Hcases); [left; discriminate|].
    rewrite Hnext in Hdeq.
    destruct Hcases as [(_ & -> & _)|(j & task' & -> & Hlook & Hhigh)].
    + change (to_int32 (wrap_uint32 (-1)) <? 0) with true in Hdeq. discriminate.
    + assert (Hj : to_int32 (Z.of_nat j) = Z.of_nat j)
        by (apply to_int32_small; apply lookup_lt_Some in Hlook; lia).
      rewrite Hj in Hdeq.
      destruct (Z.ltb_spec (Z.of_nat j) 0); [lia|].
      rewrite task_at_lookup, Hlook in Hdeq.
      injection Hdeq as <- _ _. apply Hhigh. reflexivity.
Qed.

Lemma high_worker_takes_first_high_task_witness :
  let normal n := Sample.task TTaskType.PUSH n (Some TPriority.NORMAL) (Some "A"%string) in
  let high := Sample.task TTaskType.PUSH 7 (Some TPriority.HIGH) (Some "B"%string) in
  let tasks := [normal 1; normal 2; normal 3; normal 4; normal 5; normal 6; high] in
  Z.of_nat (length tasks) < 2 ^ 31
  /\ exists reg',
       _get_next_task_index 6 tasks TPriority.HIGH (registry_init 0)
       = Some (6, reg', []).
Proof.
  intros normal high tasks.
  assert (Hlen : Z.of_nat (length tasks) < 2 ^ 31) by (cbn; lia).
  split; [exact Hlen|].
  destruct (high_worker_takes_first_high_task Sample.cfg 6 tasks (registry_init 0) Hlen)
    as (Hfirst & _ & _).
  apply (Hfirst 6%nat high); [reflexivity | reflexivity |].
  intros j task' Hlook Hlt.
  do 6 (destruct j as [|j]; [injection Hlook as <-; discriminate|]). lia.
Defined.

(** ** Submission *)

Lemma submit_task_run task w :
  exec (submit_task task) w =
  let user := match resource_info task with Some u => u | None => ""%string end in
  let recorded := _record_task_info (task_type task) (signature task) user (registry w) in
  {| registry := recorded.2;
     _tasks := if recorded.1 then _tasks w ++ [task] else _tasks w;
     trace := trace w
              ++ [EvRecordTaskInfo (task_type task) (signature task) user recorded.1]
              ++ (if recorded.1 then [EvNotify] else []) |}.
Proof.
  destruct w as [reg q tr]. unfold submit_task, record_task_info, exec, bind, get_registry.
  cbn [registry _tasks trace]. cbn zeta.
  destruct (_record_task_info _ _ _ reg) as [[|] reg'];
    unfold put_registry, put_tasks, emit, ret, bind; cbn [registry _tasks trace fst snd].
  - rewrite <- app_assoc. reflexivity.
  - rewrite app_nil_r. reflexivity.
Qed.

(** ** The report version *)

Lemma report_version_dequeue cfg callback prio w job w' :
  callback_dequeue cfg callback prio w = Some (job, w') ->
  _s_report_version (registry w') = _s_report_version (registry w).
Proof.
  destruct callback; cbn [callback_dequeue]; unfold pop_front;
    try (destruct (_tasks w); [discriminate|]; intros [= <- <-]; reflexivity);
    try (intros [= <- <-]; reflexivity).
  intros Hdeq. apply push_dequeue_frame in Hdeq as (Hv & _). exact Hv.
Qed.

(** C1 (amended).  The report-version counter is incremented (modulo 2^64)
    by a callback exactly on a successful CREATE_TABLET execution, a
    successful ALTER_TABLET execution and a successful PUSH execution;
    every other task completion and every report leaves it unchanged.  In
    particular a tablet-state report only reads the counter: the report sent
    carries its current value and the counter keeps that value.  Neither a
    submission nor a worker's critical section changes the counter. *)
Theorem report_version_bumped_by_create_alter_push_only (cfg : Config) (env : Env)
    (callback : CALLBACK_FUNCTION) (job : Job) (w : World) :
  _s_report_version (registry (exec (callback_body cfg env callback job) w))
  = (if successful_create_alter_push env callback job
     then wrap_uint64 (_s_report_version (registry w) + 1)
     else _s_report_version (registry w))
  /\ _s_report_version (registry (exec (_report_tablet_body cfg env) w))
     = _s_report_version (registry w)
  /\ (forall request,
        EvReport request ∈ new_events w (exec (_report_tablet_body cfg env) w) ->
        rep_report_version request = Some (_s_report_version (registry w)))
  /\ (forall prio job' w',
        callback_dequeue cfg callback prio w = Some (job', w') ->
        _s_report_version (registry w') = _s_report_version (registry w))
  /\ (forall task,
        _s_report_version (registry (exec (submit_task task) w))
        = _s_report_version (registry w)).
Proof.
  assert (Hbody : forall callback' job',
            _s_report_version (registry (exec (callback_body cfg env callback' job') w))
            = (if successful_create_alter_push env callback' job'
               then wrap_uint64 (_s_report_version (registry w) + 1)
               else _s_report_version (registry w))).
  { intros callback' job'. rewrite body_registry. unfold release_job.
    assert (Hbump : _s_report_version
                      (if successful_create_alter_push env callback' job'
                       then bump_report_version (registry w) else registry w)
                    = (if successful_create_alter_push env callback' job'
                       then wrap_uint64 (_s_report_version (registry w) + 1)
                       else _s_report_version (registry w)))
      by (destruct (successful_create_alter_push env callback' job'); reflexivity).
    destruct (task_of_job callback' job') as [[t user]|];
      [rewrite report_version_remove|]; exact Hbump. }
  split; [apply Hbody|]. split; [|split; [|split]].
  - apply (Hbody _report_tablet_worker_thread_callback Report).
  - intros request. destruct w as [reg q tr].
    unfold _report_tablet_body, new_events, exec.
    destruct (master_port env =? 0).
    + unfold emit. cbn [trace snd]. rewrite drop_app_length.
      intros Hin. apply list_elem_of_singleton in Hin. discriminate.
    + unfold bind, read_report_version, get_registry, ret.
      cbn [registry _tasks trace fst snd].
      destruct (engine_report_all_tablets_info env) as [status tablets].
      case_bool_decide; unfold bind, emit; cbn [registry _tasks trace fst snd].
      * rewrite drop_app_length.
        intros Hin. apply list_elem_of_singleton in Hin. discriminate.
      * rewrite <- app_assoc, drop_app_length.
        intros Hin. apply elem_of_cons in Hin as [Hin|Hin].
        -- injection Hin as ->. reflexivity.
        -- apply list_elem_of_singleton in Hin. discriminate.
  - intros prio job' w'. apply report_version_dequeue.
  - intros task. rewrite submit_task_run. cbn zeta. cbn [registry].
    apply report_version_record.
Qed.

(** C1, as stated, fails: a tablet-state report is sent and the counter is
    not incremented. *)
Lemma tablet_report_does_not_bump_report_version :
  let w := Sample.world 0 [] in
  let w' := exec (_report_tablet_body Sample.cfg Sample.env) w in
  (exists request, new_events w w' = [EvReport request; EvWaitForReportNotify 60 true])
  /\ _s_report_version (registry w') <> wrap_uint64 (_s_report_version (registry w) + 1).
Proof.
  cbn zeta. split.
  - eexists. reflexivity.
  - vm_compute. discriminate.
Qed.

(** ** The registry accounts for the tasks in the system *)

Lemma consistent_perm reg tasks tasks' :
  tasks ≡ₚ tasks' -> consistent reg tasks -> consistent reg tasks'.
Proof.
  intros Hperm (Hnodup & Hlive & Htotal & Hother).
  split; [|split; [|split]]; try assumption.
  - rewrite <- Hperm. exact Hnodup.
  - intros t Hin. apply Hlive. rewrite Hperm. exact Hin.
Qed.

Lemma consistent_same reg reg' tasks :
  _s_task_signatures reg' = _s_task_signatures reg ->
  (forall kind, total_by_kind reg' kind = total_by_kind reg kind) ->
  consistent reg tasks -> consistent reg' tasks.
Proof.
  intros Hs Hk (Hnodup & Hlive & Htotal & Hother).
  assert (Hl : forall kind, live reg' kind = live reg kind)
    by (intros kind; unfold live; rewrite Hs; reflexivity).
  split; [exact Hnodup|]. split; [|split].
  - intros t Hin. rewrite Hl. apply Hlive. exact Hin.
  - rewrite Hk, Hl. exact Htotal.
  - intros kind Hne. rewrite Hk. apply Hother. exact Hne.
Qed.

Lemma consistent_bump reg tasks (bumped : bool) :
  consistent reg tasks ->
  consistent (if bumped then bump_report_version reg else reg) tasks.
Proof. destruct bumped; [|auto]. apply consistent_same; reflexivity. Qed.

Lemma consistent_drop reg tasks dropped :
  consistent reg (dropped ++ tasks) -> consistent reg tasks.
Proof.
  intros (Hnodup & Hlive & Htotal & Hother).
  split; [|split; [|split]]; try assumption.
  - rewrite fmap_app in Hnodup. apply NoDup_app in Hnodup as (_ & _ & Hnodup). exact Hnodup.
  - intros t Hin. apply Hlive. apply elem_of_app. right. exact Hin.
Qed.

Lemma wrap_uint32_succ (n : Z) : wrap_uint32 (wrap_uint32 n + 1) = wrap_uint32 (n + 1).
Proof. unfold wrap_uint32. apply Zplus_mod_idemp_l. Qed.

Lemma wrap_uint32_pred (n : Z) : wrap_uint32 (wrap_uint32 n - 1) = wrap_uint32 (n - 1).
Proof. unfold wrap_uint32. apply Zminus_mod_idemp_l. Qed.

(** Admission of a fresh signature. *)
Lemma consistent_record reg tasks t user :
  consistent reg tasks ->
  signature t ∉ live reg (task_type t) ->
  consistent (_record_task_info (task_type t) (signature t) user reg).2 (t :: tasks).
Proof.
  intros (Hnodup & Hlive & Htotal & Hother) Hfresh.
  split; [|split; [|split]].
  - rewrite fmap_cons. apply NoDup_cons. split; [|exact Hnodup].
    intros Hin. apply list_elem_of_fmap in Hin as (t' & Hkey & Hin').
    apply Hlive in Hin'. unfold task_key in Hkey. injection Hkey as Hk Hs.
    rewrite <- Hk, <- Hs in Hin'. contradiction.
  - intros t' Hin. rewrite live_record.
    apply elem_of_cons in Hin as [->|Hin].
    + destruct (decide _); [|congruence].
      apply elem_of_union. left. apply elem_of_singleton. reflexivity.
    + destruct (decide (task_type t = task_type t')) as [Heq|Hne].
      * apply elem_of_union. right. rewrite Heq. apply Hlive. exact Hin.
      * apply Hlive. exact Hin.
  - rewrite total_by_kind_record, live_record.
    destruct (decide (task_type t = TTaskType.PUSH)) as [Hpush|Hnot].
    + rewrite Hpush in *.
      destruct (decide _) as [_|Hn]; [|exfalso; apply Hn; auto].
      rewrite Htotal, wrap_uint32_succ.
      rewrite size_union by (apply disjoint_singleton_l; exact Hfresh).
      rewrite size_singleton. f_equal. lia.
    + destruct (decide _) as [(? & _)|_]; [contradiction|]. exact Htotal.
  - intros kind Hne. rewrite total_by_kind_record.
    destruct (decide _) as [(_ & ? & _)|_]; [contradiction|]. apply Hother. exact Hne.
Qed.

(** Release of a task the registry accounts for. *)
Lemma consistent_remove reg tasks t user :
  consistent reg (t :: tasks) ->
  consistent (_remove_task_info (task_type t) (signature t) user reg) tasks.
Proof.
  intros (Hnodup & Hlive & Htotal & Hother).
  rewrite fmap_cons in Hnodup. apply NoDup_cons in Hnodup as [Hfresh Hnodup].
  assert (Hin_t : signature t ∈ live reg (task_type t))
    by (apply Hlive, elem_of_cons; left; reflexivity).
  split; [exact Hnodup|]. split; [|split].
  - intros t' Hin. rewrite live_remove.
    assert (Hlive' : signature t' ∈ live reg (task_type t'))
      by (apply Hlive, elem_of_cons; right; exact Hin).
    destruct (decide (task_type t = task_type t')) as [Heq|Hne]; [|exact Hlive'].
    apply elem_of_difference. split; [rewrite Heq; exact Hlive'|].
    intros Hsig. apply elem_of_singleton in Hsig. apply Hfresh.
    apply list_elem_of_fmap. exists t'. split; [|exact Hin].
    unfold task_key. congruence.
  - rewrite total_by_kind_remove, live_remove.
    destruct (decide (task_type t = TTaskType.PUSH)) as [Hpush|Hnot].
    + rewrite Hpush in *.
      destruct (decide _) as [_|Hn]; [|exfalso; apply Hn; auto].
      rewrite Htotal, wrap_uint32_pred.
      assert (Hsize : size (live reg TTaskType.PUSH)
                      = S (size (live reg TTaskType.PUSH ∖ {[signature t]}))).
      { rewrite (union_difference_L {[signature t]} (live reg TTaskType.PUSH)) at 1
          by (apply singleton_subseteq_l; exact Hin_t).
        rewrite size_union by (apply disjoint_difference_r1; reflexivity).
        rewrite size_singleton. reflexivity. }
      rewrite Hsize. f_equal. lia.
    + destruct (decide _) as [(? & _)|_]; [contradiction|]. exact Htotal.
  - intros kind Hne. rewrite total_by_kind_remove.
    destruct (decide _) as [(_ & ?)|_]; [contradiction|]. apply Hother. exact Hne.
Qed.

Lemma consistent_init now : consistent (registry_init now) [].
Proof.
  split; [|split; [|split]].
  - apply NoDup_nil_2.
  - intros t Hin. apply elem_of_nil in Hin. contradiction.
  - reflexivity.
  - intros kind _. reflexivity.
Qed.

(** ** The node *)

Lemma all_pools_complete pool : pool ∈ all_pools.
Proof.
  destruct pool; unfold all_pools;
    repeat first [ apply elem_of_cons; left; reflexivity | apply elem_of_cons; right ].
Qed.

Lemma all_pools_NoDup : NoDup all_pools.
Proof. apply (bool_decide_unpack _). vm_compute. exact I. Qed.

(** Replacing the queue of one pool. *)
Lemma flat_map_replace {A : Type} (f : TaskWorkerType.type -> list A)
    (pool : TaskWorkerType.type) (q : list A) (pools : list TaskWorkerType.type) :
  NoDup pools -> pool ∈ pools ->
  flat_map (fun p => if decide (p = pool) then q else f p) pools
  ≡ₚ q ++ flat_map f (filter (fun p => p <> pool) pools).
Proof.
  induction pools as [|p pools IH]; intros Hnodup Hin.
  - apply elem_of_nil in Hin. contradiction.
  - apply NoDup_cons in Hnodup as [Hp Hnodup]. cbn [flat_map].
    destruct (decide (p = pool)) as [->|Hne].
    + rewrite filter_cons_False by (intros Hn; apply Hn; reflexivity).
      apply Permutation_app_head.
      assert (Hsame : forall l, pool ∉ l ->
                flat_map (fun p => if decide (p = pool) then q else f p) l
                = flat_map f (filter (fun p => p <> pool) l)).
      { induction l as [|p' l IHl]; intros Hnot; [reflexivity|].
        apply not_elem_of_cons in Hnot as [Hne' Hnot].
        cbn [flat_map]. rewrite filter_cons_True by congruence. cbn [flat_map].
        destruct (decide (p' = pool)); [congruence|]. rewrite IHl by exact Hnot.
        reflexivity. }
      rewrite Hsame by exact Hp. reflexivity.
    + apply elem_of_cons in Hin as [->|Hin]; [contradiction|].
      rewrite filter_cons_True by exact Hne. cbn [flat_map].
      rewrite IH by assumption.
      rewrite !app_assoc. apply Permutation_app_tail. apply Permutation_app_comm.
Qed.

Lemma flat_map_split {A : Type} (f : TaskWorkerType.type -> list A)
    (pool : TaskWorkerType.type) :
  flat_map f all_pools ≡ₚ f pool ++ flat_map f (filter (fun p => p <> pool) all_pools).
Proof.
  rewrite <- (flat_map_replace f pool (f pool) all_pools
                all_pools_NoDup (all_pools_complete pool)).
  erewrite flat_map_ext; [reflexivity|].
  intros p. cbn. destruct (decide (p = pool)) as [->|]; reflexivity.
Qed.

(** The tasks in the system, with the queue of one pool in front. *)
Lemma in_system_split s pool :
  in_system s
  ≡ₚ sys_tasks s pool
     ++ flat_map (sys_tasks s) (filter (fun p => p <> pool) all_pools)
     ++ busy_tasks (sys_busy s).
Proof.
  unfold in_system. rewrite (flat_map_split (sys_tasks s) pool), <- app_assoc. reflexivity.
Qed.

Lemma in_system_with_world s pool w busy :
  in_system (with_world s pool w busy)
  ≡ₚ _tasks w
     ++ flat_map (sys_tasks s) (filter (fun p => p <> pool) all_pools)
     ++ busy_tasks busy.
Proof.
  unfold in_system, with_world. cbn [sys_tasks sys_busy].
  rewrite (flat_map_replace (sys_tasks s) pool (_tasks w) all_pools
             all_pools_NoDup (all_pools_complete pool)), <- app_assoc.
  reflexivity.
Qed.

Lemma queued_in_system s pool t : t ∈ sys_tasks s pool -> t ∈ in_system s.
Proof.
  intros Hin. rewrite (in_system_split s pool). apply elem_of_app. left. exact Hin.
Qed.

(** What a critical section hands out was in the queue; the live sets and
    the totals stay. *)
Lemma dequeue_frame cfg callback prio w job w' :
  callback_dequeue cfg callback prio w = Some (job, w') ->
  _s_task_signatures (registry w') = _s_task_signatures (registry w)
  /\ (forall kind, total_by_kind (registry w') kind = total_by_kind (registry w) kind)
  /\ _tasks w ≡ₚ job_tasks job ++ _tasks w'.
Proof.
  assert (Hfifo : pop_front w = Some (job, w') ->
                  _s_task_signatures (registry w') = _s_task_signatures (registry w)
                  /\ (forall kind, total_by_kind (registry w') kind
                                   = total_by_kind (registry w) kind)
                  /\ _tasks w ≡ₚ job_tasks job ++ _tasks w').
  { unfold pop_front. destruct (_tasks w) as [|t rest]; [discriminate|].
    intros [= <- <-]. cbn. auto. }
  assert (Hreport : Some (Report, w) = Some (job, w') ->
                    _s_task_signatures (registry w') = _s_task_signatures (registry w)
                    /\ (forall kind, total_by_kind (registry w') kind
                                     = total_by_kind (registry w) kind)
                    /\ _tasks w ≡ₚ job_tasks job ++ _tasks w').
  { intros [= <- <-]. cbn. auto. }
  destruct callback; cbn [callback_dequeue]; try exact Hfifo; try exact Hreport.
  intros Hdeq.
  apply push_dequeue_frame in Hdeq as (_ & Hs & Hk & _ & Hjob & _).
  split; [exact Hs|]. split; [exact Hk|].
  destruct Hjob as [(-> & ->)|(j & task & user & -> & Hlook & ->)].
  - reflexivity.
  - cbn [job_tasks app]. apply delete_Permutation. exact Hlook.
Qed.

Lemma task_of_job_tasks callback job t user :
  task_of_job callback job = Some (t, user) -> job_tasks job = [t].
Proof.
  destruct callback, job; cbn; intros [= <- <-] || discriminate; reflexivity.
Qed.

(** Every action keeps the registry consistent with the tasks in the
    system. *)
Lemma apply_action_consistent cfg a s s' :
  apply_action cfg a s = Some s' ->
  consistent (sys_registry s) (in_system s) ->
  consistent (sys_registry s') (in_system s').
Proof.
  destruct a as [pool task|pool prio|n env]; cbn [apply_action].
  - intros [= <-] Hcons.
    apply (consistent_perm _ _ _ (in_system_split s pool)) in Hcons.
    eapply consistent_perm; [symmetry; apply in_system_with_world|].
    cbn [with_world sys_registry]. rewrite submit_task_run. cbn zeta.
    cbn [world_of registry _tasks].
    set (user := match resource_info task with Some u => u | None => ""%string end).
    destruct (decide (signature task ∈ live (sys_registry s) (task_type task)))
      as [Hdup|Hfresh].
    + rewrite (record_duplicate _ _ user _ Hdup). cbn [fst snd world_of _tasks]. exact Hcons.
    + rewrite record_result. cbn [world_of registry _tasks].
      rewrite (bool_decide_eq_false_2 _ Hfresh). cbn [negb].
      eapply consistent_perm;
        [|apply (consistent_record _ _ task user Hcons Hfresh)].
      rewrite <- !app_assoc. cbn [app]. apply Permutation_middle.
  - destruct (callback_dequeue _ _ _ _) as [[job w]|] eqn:Hdeq; [|discriminate].
    intros [= <-] Hcons.
    apply dequeue_frame in Hdeq as (Hs & Hk & Hperm). cbn [world_of registry _tasks] in *.
    apply (consistent_perm _ _ _ (in_system_split s pool)) in Hcons.
    eapply consistent_perm; [symmetry; apply in_system_with_world|].
    cbn [with_world sys_registry].
    apply (consistent_same (sys_registry s)); [exact Hs | exact Hk |].
    eapply consistent_perm; [|exact Hcons].
    rewrite Hperm. unfold busy_tasks. rewrite flat_map_app. cbn [flat_map snd].
    rewrite app_nil_r, <- !app_assoc.
    rewrite (Permutation_app_comm (job_tasks job)). rewrite <- !app_assoc.
    apply Permutation_app_head, Permutation_app_head. reflexivity.
  - destruct (sys_busy s !! n) as [[pool job]|] eqn:Hbusy; [|discriminate].
    intros [= <-] Hcons.
    apply (consistent_perm _ _ _ (in_system_split s pool)) in Hcons.
    eapply consistent_perm; [symmetry; apply in_system_with_world|].
    cbn [with_world sys_registry]. rewrite body_tasks, body_registry.
    cbn [world_of registry _tasks].
    assert (Hperm : busy_tasks (sys_busy s)
                    ≡ₚ job_tasks job ++ busy_tasks (delete n (sys_busy s))).
    { unfold busy_tasks. rewrite (delete_Permutation _ _ _ Hbusy) at 1. reflexivity. }
    set (rest := sys_tasks s pool
                 ++ flat_map (sys_tasks s) (filter (fun p => p <> pool) all_pools)
                 ++ busy_tasks (delete n (sys_busy s))).
    assert (Hcons' : consistent (sys_registry s) (job_tasks job ++ rest)).
    { eapply consistent_perm; [|exact Hcons]. unfold rest. rewrite Hperm.
      set (queued := sys_tasks s pool).
      set (others := flat_map (sys_tasks s) (filter (fun p => p <> pool) all_pools)).
      rewrite !app_assoc. apply Permutation_app_tail.
      rewrite (Permutation_app_comm (queued ++ others) (job_tasks job)).
      rewrite app_assoc. reflexivity. }
    unfold release_job.
    destruct (task_of_job _ job) as [[t user]|] eqn:Hjob.
    + rewrite (task_of_job_tasks _ _ _ _ Hjob) in Hcons'. cbn [app] in Hcons'.
      apply consistent_remove. apply consistent_bump. exact Hcons'.
    + apply consistent_bump. eapply consistent_drop. exact Hcons'.
Qed.

Lemma reachable_consistent cfg now s :
  reachable cfg now s -> consistent (sys_registry s) (in_system s).
Proof.
  unfold reachable. intros Hreach.
  apply rtc_nsteps in Hreach as [n Hsteps].
  revert s Hsteps. induction n as [|n IH]; intros s Hsteps.
  - inversion Hsteps; subst. apply consistent_init.
  - apply nsteps_inv_r in Hsteps as (s1 & Hsteps & [a Ha]).
    eapply apply_action_consistent; [exact Ha|]. apply IH. exact Hsteps.
Qed.

Lemma run_rtc cfg actions s s' : run cfg actions s = Some s' -> rtc (step cfg) s s'.
Proof.
  revert s. induction actions as [|a actions IH]; intros s; cbn [run].
  - intros [= <-]. apply rtc_refl.
  - destruct (apply_action cfg a s) as [s1|] eqn:Ha; [|discriminate].
    intros Hrun. eapply rtc_l; [exists a; exact Ha | apply IH; exact Hrun].
Qed.

Lemma run_reachable cfg now actions s :
  run cfg actions (system_init now) = Some s -> reachable cfg now s.
Proof. apply run_rtc. Qed.

Lemma after_reachable actions :
  match run Sample.cfg actions (system_init 0) with Some _ => True | None => False end ->
  reachable Sample.cfg 0 (Sample.after actions).
Proof.
  unfold Sample.after.
  destruct (run Sample.cfg actions (system_init 0)) as [s|] eqn:Hrun; [|contradiction].
  intros _. apply (run_reachable _ _ actions). exact Hrun.
Qed.

Lemma filter_key_absent (tasks : list TAgentTaskRequest) (key : TTaskType.type * Z) :
  key ∉ task_key <$> tasks -> filter (fun t => task_key t = key) tasks = [].
Proof.
  induction tasks as [|t tasks IH]; intros Habsent; [reflexivity|].
  rewrite fmap_cons in Habsent. apply not_elem_of_cons in Habsent as [Hne Habsent].
  rewrite filter_cons_False by congruence. apply IH. exact Habsent.
Qed.

Lemma filter_key_NoDup (tasks : list TAgentTaskRequest) (key : TTaskType.type * Z) :
  NoDup (task_key <$> tasks) ->
  (length (filter (fun t => task_key t = key) tasks) <= 1)%nat.
Proof.
  induction tasks as [|t tasks IH]; intros Hnodup; [cbn; lia|].
  rewrite fmap_cons in Hnodup. apply NoDup_cons in Hnodup as [Hfresh Hnodup].
  destruct (decide (task_key t = key)) as [Hkey|Hkey].
  - rewrite filter_cons_True by exact Hkey. cbn [length].
    rewrite filter_key_absent by (rewrite <- Hkey; exact Hfresh). cbn. lia.
  - rewrite filter_cons_False by exact Hkey. apply IH. exact Hnodup.
Qed.

(** C2. For every task kind and signature, if [submit_task] is called for
    a (kind, signature) pair that is still live, the submission is rejected
    with no side effects: the registry (live sets, total_by_user,
    total_by_kind, running_by_user, report version), the queue of every pool
    and the busy workers are unchanged, nothing is notified, and only the
    log line of [_record_task_info] is written.  At most one task with that
    pair is queued or being executed, so it is executed and finished at
    most once. *)
Theorem duplicate_submission_rejected (cfg : Config) (now : Z) (s : System)
    (pool : TaskWorkerType.type) (task : TAgentTaskRequest) :
  reachable cfg now s ->
  signature task ∈ live (sys_registry s) (task_type task) ->
  exists s',
    apply_action cfg (Submit pool task) s = Some s'
    /\ sys_registry s' = sys_registry s
    /\ (forall pool', sys_tasks s' pool' = sys_tasks s pool')
    /\ sys_busy s' = sys_busy s
    /\ sys_trace s'
       = sys_trace s
         ++ [EvRecordTaskInfo (task_type task) (signature task)
               (match resource_info task with Some u => u | None => ""%string end) false]
    /\ (length (filter (fun t => task_key t = task_key task) (in_system s')) <= 1)%nat.
Proof.
  intros Hreach Hlive. eexists. split; [reflexivity|].
  assert (Hs' : reachable cfg now
                  (with_world s pool (exec (submit_task task) (world_of s pool))
                     (sys_busy s))).
  { eapply rtc_r; [exact Hreach|]. exists (Submit pool task). reflexivity. }
  apply reachable_consistent in Hs' as (Hnodup & _).
  split; [|split; [|split; [|split]]].
  - cbn [with_world sys_registry]. rewrite submit_task_run. cbn zeta.
    cbn [world_of registry]. rewrite record_duplicate by exact Hlive. reflexivity.
  - intros pool'. cbn [with_world sys_tasks]. rewrite submit_task_run. cbn zeta.
    cbn [world_of registry _tasks]. rewrite record_duplicate by exact Hlive.
    cbn [fst]. destruct (decide (pool' = pool)) as [->|]; reflexivity.
  - reflexivity.
  - cbn [with_world sys_trace]. rewrite submit_task_run. cbn zeta.
    cbn [world_of registry trace]. rewrite record_duplicate by exact Hlive.
    cbn [fst]. rewrite app_nil_r. reflexivity.
  - apply filter_key_NoDup. exact Hnodup.
Qed.

Lemma duplicate_submission_rejected_witness :
  let t := Sample.task TTaskType.CREATE 1 None None in
  let s := Sample.after [Submit TaskWorkerType.CREATE_TABLE t] in
  reachable Sample.cfg 0 s
  /\ signature t ∈ live (sys_registry s) (task_type t)
  /\ exists s',
       apply_action Sample.cfg (Submit TaskWorkerType.CREATE_TABLE t) s = Some s'
       /\ sys_registry s' = sys_registry s
       /\ sys_tasks s' TaskWorkerType.CREATE_TABLE = [t].
Proof.
  intros t s.
  assert (Hreach : reachable Sample.cfg 0 s)
    by (apply after_reachable; vm_compute; exact I).
  assert (Hlive : signature t ∈ live (sys_registry s) (task_type t))
    by (apply (bool_decide_unpack _); vm_compute; exact I).
  split; [exact Hreach|]. split; [exact Hlive|].
  destruct (duplicate_submission_rejected Sample.cfg 0 s TaskWorkerType.CREATE_TABLE t
              Hreach Hlive) as (s' & Hstep & Hreg & Htasks & _).
  exists s'. split; [exact Hstep|]. split; [exact Hreg|].
  rewrite Htasks. reflexivity.
Defined.

(** C7: a run of the node in which the selector divides by zero.  A
    REALTIME_PUSH task is admitted to the REALTIME_PUSH pool, whose workers
    run the push callback: admission counts totals only for the PUSH kind,
    so the selector computes the total rate of the queued task with
    divisor 0 (the rate is 0.0 / 0 = NaN).  The DELETE pool does the same.
    The same submission of a PUSH task to the PUSH pool gives divisor 1. *)
Theorem realtime_push_rate_divides_by_zero :
  let t := Sample.task TTaskType.REALTIME_PUSH 1 None None in
  let s := Sample.after [Submit TaskWorkerType.REALTIME_PUSH t] in
  let divisors pool kind :=
    let s' := Sample.after [Submit pool (Sample.task kind 1 None None)] in
    rate_divisors
      (selector_log (push_thread_count Sample.cfg) (sys_tasks s' pool) TPriority.NORMAL
         (sys_registry s')) in
  reachable Sample.cfg 0 s
  /\ sys_tasks s TaskWorkerType.REALTIME_PUSH = [t]
  /\ snd (start Sample.cfg TaskWorkerType.REALTIME_PUSH) = _push_worker_thread_callback
  /\ selector_log (push_thread_count Sample.cfg) (sys_tasks s TaskWorkerType.REALTIME_PUSH)
       TPriority.NORMAL (sys_registry s)
     = [EvGetNextTask TTaskType.REALTIME_PUSH 1 "" 0 0 1 3 S754_nan
          (user_running_rate 0 3)]
  /\ divisors TaskWorkerType.REALTIME_PUSH TTaskType.REALTIME_PUSH
     = [(TTaskType.REALTIME_PUSH, 1, 0)]
  /\ snd (start Sample.cfg TaskWorkerType.DELETE) = _push_worker_thread_callback
  /\ divisors TaskWorkerType.DELETE TTaskType.DELETE = [(TTaskType.DELETE, 1, 0)]
  /\ divisors TaskWorkerType.PUSH TTaskType.PUSH = [(TTaskType.PUSH, 1, 1)].
Proof.
  cbn zeta. split; [apply after_reachable; vm_compute; exact I|].
  split; [reflexivity|]. split; [reflexivity|].
  split; [vm_compute; reflexivity|]. split; [vm_compute; reflexivity|].
  split; [reflexivity|]. split; vm_compute; reflexivity.
Qed.

(** ** The selector against the rule of the specification *)

Lemma eligible_same_counters thread_count reg reg' kind user :
  same_counters reg reg' ->
  eligible thread_count reg' kind user = eligible thread_count reg kind user.
Proof.
  intros (_ & _ & Hk & Hu & Hr). unfold eligible. rewrite Hk, Hu, Hr. reflexivity.
Qed.

(** When every task of the queue carries [resource_info], the scan of a
    NORMAL worker follows the rule. *)
Lemma scan_tasks_normal_rule thread_count reg rest :
  forall i user improper_users reg1 log,
    same_counters reg reg1 ->
    (forall task, task ∈ rest -> is_Some (resource_info task)) ->
    0 <= i -> i + Z.of_nat (length rest) < 2 ^ 31 ->
    match first_eligible thread_count reg rest improper_users with
    | Some j =>
        exists task,
          rest !! j = Some task
          /\ (scan_tasks thread_count TPriority.NORMAL rest i user improper_users reg1
                log).1.1
             = (i + Z.of_nat j, task_user task)
    | None =>
        (scan_tasks thread_count TPriority.NORMAL rest i user improper_users reg1
           log).1.1.1 = -1
    end.
Proof.
  induction rest as [|task rest IH];
    intros i user improper_users reg1 log Hsame Hinfo Hi Hlen.
  - reflexivity.
  - cbn [scan_tasks first_eligible]. cbn [length] in Hlen.
    destruct (Hinfo task) as [u Hu]; [apply elem_of_cons; left; reflexivity|].
    assert (Huser : task_user task = u) by (unfold task_user; rewrite Hu; reflexivity).
    rewrite Hu, Huser.
    rewrite (bool_decide_eq_false_2 (TPriority.NORMAL = TPriority.HIGH)) by discriminate.
    assert (Hrest : forall task', task' ∈ rest -> is_Some (resource_info task'))
      by (intros task' Hin; apply Hinfo, elem_of_cons; right; exact Hin).
    assert (Hnext : forall imp reg2 log2,
               same_counters reg reg2 ->
               match S <$> first_eligible thread_count reg rest imp with
               | Some j =>
                   exists task',
                     (task :: rest) !! j = Some task'
                     /\ (scan_tasks thread_count TPriority.NORMAL rest
                           (wrap_uint32 (i + 1)) u imp reg2 log2).1.1
                        = (i + Z.of_nat j, task_user task')
               | None =>
                   (scan_tasks thread_count TPriority.NORMAL rest
                      (wrap_uint32 (i + 1)) u imp reg2 log2).1.1.1 = -1
               end).
    { intros imp reg2 log2 Hsame2. rewrite wrap_uint32_small by lia.
      specialize (IH (i + 1) u imp reg2 log2 Hsame2 Hrest).
      destruct (first_eligible thread_count reg rest imp) as [j|]; cbn [fmap option_fmap option_map].
      - destruct IH as (task' & Hlook & Hscan); [lia | lia |].
        exists task'. split; [exact Hlook|]. rewrite Hscan. f_equal. lia.
      - apply IH; lia. }
    case_bool_decide.
    + apply Hnext. exact Hsame.
    + pose proof (eligible_same_counters thread_count reg reg1 (task_type task) u Hsame)
        as Helig.
      unfold eligible in Helig at 1. rewrite Helig.
      destruct (eligible thread_count reg (task_type task) u).
      * exists task. split; [reflexivity|]. cbn [fst]. rewrite Huser.
        rewrite to_int32_small by lia. f_equal. lia.
      * apply Hnext. eapply same_counters_trans; [exact Hsame|].
        apply same_counters_touch.
Qed.

(** On a queue whose tasks all carry [resource_info], a NORMAL worker gets
    the index the rule chooses, and the running count of the user of the
    chosen task is incremented. *)
Lemma normal_selector_follows_rule thread_count tasks reg :
  tasks <> [] ->
  Z.of_nat (length tasks) < 2 ^ 31 ->
  (forall task, task ∈ tasks -> is_Some (resource_info task)) ->
  exists reg' log task,
    _get_next_task_index thread_count tasks TPriority.NORMAL reg
    = Some (Z.of_nat (fair_share_choice thread_count reg tasks), reg', log)
    /\ tasks !! fair_share_choice thread_count reg tasks = Some task
    /\ running_by_user reg' (task_type task) (task_user task)
       = wrap_uint32 (running_by_user reg (task_type task) (task_user task) + 1).
Proof.
  intros Hne Hlen Hinfo. rewrite get_next_task_index_unfold. cbn zeta.
  pose proof (scan_tasks_normal_rule thread_count reg tasks 0 "" ∅ reg []
                (same_counters_refl reg) Hinfo) as Hrule.
  destruct (scan_tasks_frame thread_count TPriority.NORMAL tasks 0 "" ∅ reg [])
    as (Hsame & _).
  unfold fair_share_choice.
  destruct (scan_tasks thread_count TPriority.NORMAL tasks 0 "" ∅ reg [])
    as [[[index user] reg1] log].
  cbn [fst snd] in *.
  assert (Hrun : forall kind u,
             running_by_user (incr_running kind u reg1) kind u
             = wrap_uint32 (running_by_user reg kind u + 1)).
  { intros kind u. destruct (incr_running_frame kind u reg1) as (_ & _ & _ & _ & ->).
    destruct Hsame as (_ & _ & _ & _ & Hr). rewrite Hr. reflexivity. }
  destruct (first_eligible thread_count reg tasks ∅) as [j|].
  - destruct Hrule as (task & Hlook & Hscan); [lia | lia |].
    injection Hscan as -> ->. rewrite Z.add_0_l.
    rewrite bool_decide_eq_false_2 by lia.
    rewrite task_at_lookup, Hlook.
    rewrite wrap_uint32_small by (apply lookup_lt_Some in Hlook; lia).
    eexists _, _, task. split; [reflexivity|]. split; [reflexivity | apply Hrun].
  - rewrite Hrule by lia.
    rewrite bool_decide_eq_true_2 by reflexivity.
    rewrite (bool_decide_eq_false_2 (TPriority.NORMAL = TPriority.HIGH)) by discriminate.
    destruct tasks as [|task0 tasks']; [contradiction|].
    change (task_at (task0 :: tasks') 0) with (Some task0).
    eexists _, _, task0. split; [reflexivity|]. split; [reflexivity | apply Hrun].
Qed.

(** C4: the selector run by a NORMAL worker on a reachable state of the
    PUSH pool.  The queue holds two tasks of user "alice", who already runs
    two tasks and is over her share (3/3 > 4/5), then a task without
    [resource_info], whose user is the anonymous one, "", and runs nothing.
    The rule of the claim chooses index 2; the code evaluates the third
    task with the user left over from the second one, skips it, and falls
    back to index 0. *)
Theorem normal_worker_passes_over_task_without_resource_info :
  let alice n := Sample.task TTaskType.PUSH n None (Some "alice"%string) in
  let anonymous := Sample.task TTaskType.PUSH 5 None None in
  let s := Sample.after
             [Submit TaskWorkerType.PUSH (alice 1); Submit TaskWorkerType.PUSH (alice 2);
              Submit TaskWorkerType.PUSH (alice 3); Submit TaskWorkerType.PUSH (alice 4);
              Submit TaskWorkerType.PUSH anonymous;
              Dequeue TaskWorkerType.PUSH TPriority.NORMAL;
              Dequeue TaskWorkerType.PUSH TPriority.NORMAL] in
  let reg := sys_registry s in
  let thread_count := push_thread_count Sample.cfg in
  reachable Sample.cfg 0 s
  /\ sys_tasks s TaskWorkerType.PUSH = [alice 3; alice 4; anonymous]
  /\ thread_count = 3
  /\ running_by_user reg TTaskType.PUSH "alice" = 2
  /\ total_by_user reg TTaskType.PUSH "alice" = 4
  /\ total_by_kind reg TTaskType.PUSH = 5
  /\ float_le (user_running_rate 2 3) (user_total_rate 4 5) = false
  /\ resource_info anonymous = None
  /\ running_by_user reg TTaskType.PUSH "" = 0
  /\ fair_share_choice thread_count reg (sys_tasks s TaskWorkerType.PUSH) = 2%nat
  /\ selector_index thread_count (sys_tasks s TaskWorkerType.PUSH) TPriority.NORMAL reg
     = Some 0.
Proof.
  cbn zeta. split; [apply after_reachable; vm_compute; exact I|].
  repeat split; vm_compute; reflexivity.
Qed.

(** ** Accounting after a drain *)

(** C8: two runs of the node that end with every pool drained and every
    live set empty, but with running counts that are not zero.  In the first
    a DELETE task goes through the DELETE pool, whose workers run the push
    callback: the selector increments [running_by_user[DELETE][""]] and the
    release, which only counts for PUSH, never decrements it.  In the second
    a HIGH worker of the PUSH pool takes a task without [resource_info]
    that is queued behind a task of user "alice": the selector increments
    the count of "alice", the release decrements the count of "". *)
Theorem running_counts_not_zero_after_drain :
  let deletion := Sample.task TTaskType.DELETE 1 None None in
  let s1 := Sample.after
              [Submit TaskWorkerType.DELETE deletion;
               Dequeue TaskWorkerType.DELETE TPriority.NORMAL;
               Execute 0 Sample.env] in
  let first := Sample.task TTaskType.PUSH 1 None (Some "alice"%string) in
  let urgent := Sample.task TTaskType.PUSH 2 (Some TPriority.HIGH) None in
  let s2 := Sample.after
              [Submit TaskWorkerType.PUSH first; Submit TaskWorkerType.PUSH urgent;
               Dequeue TaskWorkerType.PUSH TPriority.HIGH; Execute 0 Sample.env;
               Dequeue TaskWorkerType.PUSH TPriority.NORMAL; Execute 0 Sample.env] in
  (reachable Sample.cfg 0 s1 /\ drained s1
   /\ snd (start Sample.cfg TaskWorkerType.DELETE) = _push_worker_thread_callback
   /\ (forall kind, live (sys_registry s1) kind = ∅)
   /\ removals (sys_trace s1) = [(TTaskType.DELETE, 1, ""%string)]
   /\ running_by_user (sys_registry s1) TTaskType.DELETE "" = 1)
  /\ (reachable Sample.cfg 0 s2 /\ drained s2
      /\ (forall kind, live (sys_registry s2) kind = ∅)
      /\ removals (sys_trace s2)
         = [(TTaskType.PUSH, 2, ""%string); (TTaskType.PUSH, 1, "alice"%string)]
      /\ total_by_kind (sys_registry s2) TTaskType.PUSH = 0
      /\ running_by_user (sys_registry s2) TTaskType.PUSH "alice" = 1
      /\ running_by_user (sys_registry s2) TTaskType.PUSH "" = 2 ^ 32 - 1).
Proof.
  cbn zeta. split.
  - split; [apply after_reachable; vm_compute; exact I|].
    split; [split; [intros []|]; vm_compute; reflexivity|].
    split; [reflexivity|].
    split; [intros []; vm_compute; reflexivity|].
    split; vm_compute; reflexivity.
  - split; [apply after_reachable; vm_compute; exact I|].
    split; [split; [intros []|]; vm_compute; reflexivity|].
    split; [intros []; vm_compute; reflexivity|].
    repeat split; vm_compute; reflexivity.
Qed.

(** * Further properties of the dispatcher *)

(** ** Admission and release, counter by counter *)

Lemma total_by_user_record kind sig user reg kind' user' :
  total_by_user (snd (_record_task_info kind sig user reg)) kind' user' =
  if decide (kind = TTaskType.PUSH /\ (sig ∉ live reg kind) /\ kind' = kind /\ user' = user)
  then wrap_uint32 (total_by_user reg kind' user' + 1) else total_by_user reg kind' user'.
Proof.
  unfold _record_task_info, live, total_by_user.
  destruct (bool_decide (sig ∈ _)) eqn:Hdup.
  - apply bool_decide_eq_true in Hdup. cbn.
    destruct (decide _) as [(_ & Hn & _)|]; [contradiction | reflexivity].
  - apply bool_decide_eq_false in Hdup.
    destruct (bool_decide (kind = TTaskType.PUSH)) eqn:Hk; cbn.
    + apply bool_decide_eq_true in Hk. rewrite at2_set2.
      destruct (decide (kind = kind' /\ user = user')) as [[<- <-]|Hne];
        destruct (decide _) as [(_ & _ & Hk' & Hu')|Hn]; try reflexivity.
      * exfalso. apply Hn. auto.
      * exfalso. apply Hne. auto.
    + apply bool_decide_eq_false in Hk.
      destruct (decide _) as [(? & _)|]; [contradiction | reflexivity].
Qed.

Lemma running_by_user_record kind sig user reg :
  _s_running_task_user_count (snd (_record_task_info kind sig user reg))
  = _s_running_task_user_count reg.
Proof.
  unfold _record_task_info.
  destruct (bool_decide (sig ∈ _)); [reflexivity|].
  destruct (bool_decide (kind = _)); reflexivity.
Qed.

Lemma total_by_user_remove kind sig user reg kind' user' :
  total_by_user (_remove_task_info kind sig user reg) kind' user' =
  if decide (kind = TTaskType.PUSH /\ kind' = kind /\ user' = user)
  then wrap_uint32 (total_by_user reg kind' user' - 1) else total_by_user reg kind' user'.
Proof.
  unfold _remove_task_info, total_by_user.
  destruct (bool_decide (kind = TTaskType.PUSH)) eqn:Hk; cbn.
  - apply bool_decide_eq_true in Hk. rewrite at2_set2.
    destruct (decide (kind = kind' /\ user = user')) as [[<- <-]|Hne];
      destruct (decide _) as [(_ & Hk' & Hu')|Hn]; try reflexivity.
    + exfalso. apply Hn. auto.
    + exfalso. apply Hne. auto.
  - apply bool_decide_eq_false in Hk.
    destruct (decide _) as [(? & _)|]; [contradiction | reflexivity].
Qed.

Lemma running_by_user_remove kind sig user reg kind' user' :
  running_by_user (_remove_task_info kind sig user reg) kind' user' =
  if decide (kind = TTaskType.PUSH /\ kind' = kind /\ user' = user)
  then wrap_uint32 (running_by_user reg kind' user' - 1) else running_by_user reg kind' user'.
Proof.
  unfold _remove_task_info, running_by_user.
  destruct (bool_decide (kind = TTaskType.PUSH)) eqn:Hk; cbn.
  - apply bool_decide_eq_true in Hk. rewrite at2_set2.
    destruct (decide (kind = kind' /\ user = user')) as [[<- <-]|Hne];
      destruct (decide _) as [(_ & Hk' & Hu')|Hn]; try reflexivity.
    + exfalso. apply Hn. auto.
    + exfalso. apply Hne. auto.
  - apply bool_decide_eq_false in Hk.
    destruct (decide _) as [(? & _)|]; [contradiction | reflexivity].
Qed.

Lemma running_by_user_incr kind user reg kind' user' :
  running_by_user (incr_running kind user reg) kind' user' =
  if decide (kind' = kind /\ user' = user)
  then wrap_uint32 (running_by_user reg kind' user' + 1) else running_by_user reg kind' user'.
Proof.
  unfold incr_running, running_by_user. cbn. rewrite at2_set2.
  destruct (decide (kind = kind' /\ user = user')) as [[<- <-]|Hne];
    destruct (decide _) as [(Hk' & Hu')|Hn]; try reflexivity.
  - exfalso. apply Hn. auto.
  - exfalso. apply Hne. auto.
Qed.

Lemma wrap_uint32_succ_pred (n : Z) : 0 <= n < 2 ^ 32 -> wrap_uint32 (wrap_uint32 (n + 1) - 1) = n.
Proof.
  intros Hn. rewrite wrap_uint32_pred. replace (n + 1 - 1) with n by lia.
  apply wrap_uint32_small. exact Hn.
Qed.

(** X1. Releasing a signature that is not live: [_remove_task_info] has no
    guard.  The live sets stay as they are, but for kind PUSH the three
    counters of the (kind, user) pair are decremented all the same, modulo
    2^32: a counter that was 0 becomes 2^32 - 1. *)
Theorem remove_task_info_of_absent_signature (kind : TTaskType.type) (sig : Z)
    (user : string) (reg : Registry) :
  sig ∉ live reg kind ->
  let reg' := _remove_task_info kind sig user reg in
  (forall kind', live reg' kind' = live reg kind')
  /\ (kind = TTaskType.PUSH ->
      total_by_kind reg' kind = wrap_uint32 (total_by_kind reg kind - 1)
      /\ total_by_user reg' kind user = wrap_uint32 (total_by_user reg kind user - 1)
      /\ running_by_user reg' kind user = wrap_uint32 (running_by_user reg kind user - 1))
  /\ (kind = TTaskType.PUSH -> total_by_kind reg kind = 0 ->
      total_by_kind reg' kind = 2 ^ 32 - 1).
Proof.
  intros Habsent reg'. unfold reg'. split; [|split].
  - intros kind'. rewrite live_remove.
    destruct (decide (kind = kind')) as [<-|]; [|reflexivity].
    apply set_eq. intros x. rewrite elem_of_difference, elem_of_singleton.
    split; [tauto|]. intros Hx. split; [exact Hx|]. intros ->. contradiction.
  - intros ->. rewrite total_by_kind_remove, total_by_user_remove, running_by_user_remove.
    repeat (destruct (decide _) as [_|Hn]; [|exfalso; apply Hn; auto]). auto.
  - intros -> Hzero. rewrite total_by_kind_remove.
    destruct (decide _) as [_|Hn]; [|exfalso; apply Hn; auto].
    rewrite Hzero. reflexivity.
Qed.

Lemma remove_task_info_of_absent_signature_witness :
  let reg' := _remove_task_info TTaskType.PUSH 7 "alice" (registry_init 0) in
  (7 ∉ live (registry_init 0) TTaskType.PUSH)
  /\ live reg' TTaskType.PUSH = live (registry_init 0) TTaskType.PUSH
  /\ total_by_kind reg' TTaskType.PUSH = 2 ^ 32 - 1.
Proof.
  intros reg'.
  assert (Habsent : 7 ∉ live (registry_init 0) TTaskType.PUSH)
    by (apply (bool_decide_unpack _); vm_compute; exact I).
  split; [exact Habsent|].
  destruct (remove_task_info_of_absent_signature TTaskType.PUSH 7 "alice" (registry_init 0)
              Habsent) as (Hlive & _ & Hzero).
  split; [apply Hlive | apply Hzero; reflexivity].
Defined.

(** X2. Admission followed by release of the same (kind, signature, user),
    for a signature that was not live and counters that are [uint32_t]
    values: the live sets, both totals and the report version are as before.
    The running count is not: for kind PUSH the release decrements it
    although admission never incremented it (only the selector does). *)
Theorem record_then_remove_restores_totals (kind : TTaskType.type) (sig : Z)
    (user : string) (reg : Registry) :
  sig ∉ live reg kind ->
  0 <= total_by_kind reg kind < 2 ^ 32 ->
  0 <= total_by_user reg kind user < 2 ^ 32 ->
  let reg' := _remove_task_info kind sig user (snd (_record_task_info kind sig user reg)) in
  fst (_record_task_info kind sig user reg) = true
  /\ (forall kind', live reg' kind' = live reg kind')
  /\ (forall kind', total_by_kind reg' kind' = total_by_kind reg kind')
  /\ (forall kind' user', total_by_user reg' kind' user' = total_by_user reg kind' user')
  /\ _s_report_version reg' = _s_report_version reg
  /\ (forall kind' user',
        running_by_user reg' kind' user' =
        if decide (kind = TTaskType.PUSH /\ kind' = kind /\ user' = user)
        then wrap_uint32 (running_by_user reg kind' user' - 1)
        else running_by_user reg kind' user').
Proof.
  intros Hfresh Hkind Huser reg'. unfold reg'.
  split; [|split; [|split; [|split; [|split]]]].
  - rewrite record_result. rewrite bool_decide_eq_false_2 by exact Hfresh. reflexivity.
  - intros kind'. rewrite live_remove, !live_record.
    destruct (decide (kind = kind')) as [<-|]; [|reflexivity].
    destruct (decide (kind = kind)); [|congruence].
    apply set_eq. intros x. rewrite elem_of_difference, elem_of_union, elem_of_singleton.
    split; [tauto|]. intros Hx. split; [auto|]. intros ->. contradiction.
  - intros kind'. rewrite total_by_kind_remove, total_by_kind_record.
    destruct (decide (kind = TTaskType.PUSH /\ kind' = TTaskType.PUSH)) as [[-> ->]|Hn].
    + destruct (decide _) as [_|Hn]; [|exfalso; apply Hn; auto].
      apply wrap_uint32_succ_pred. exact Hkind.
    + destruct (decide _) as [(? & ? & _)|_]; [exfalso; apply Hn; auto | reflexivity].
  - intros kind' user'. rewrite total_by_user_remove, total_by_user_record.
    destruct (decide (kind = TTaskType.PUSH /\ kind' = kind /\ user' = user))
      as [(Hk & -> & ->)|Hn].
    + destruct (decide _) as [_|Hn]; [|exfalso; apply Hn; auto].
      apply wrap_uint32_succ_pred. exact Huser.
    + destruct (decide _) as [(? & _ & ? & ?)|_]; [exfalso; apply Hn; auto | reflexivity].
  - rewrite report_version_remove. apply report_version_record.
  - intros kind' user'. rewrite running_by_user_remove.
    unfold running_by_user. rewrite running_by_user_record. reflexivity.
Qed.

Lemma record_then_remove_restores_totals_witness :
  let reg := snd (_record_task_info TTaskType.PUSH 1 "bob" (registry_init 0)) in
  let reg' := _remove_task_info TTaskType.PUSH 2 "bob"
                (snd (_record_task_info TTaskType.PUSH 2 "bob" reg)) in
  (2 ∉ live reg TTaskType.PUSH)
  /\ 0 <= total_by_kind reg TTaskType.PUSH < 2 ^ 32
  /\ 0 <= total_by_user reg TTaskType.PUSH "bob" < 2 ^ 32
  /\ total_by_kind reg' TTaskType.PUSH = total_by_kind reg TTaskType.PUSH
  /\ total_by_user reg' TTaskType.PUSH "bob" = total_by_user reg TTaskType.PUSH "bob"
  /\ live reg' TTaskType.PUSH = live reg TTaskType.PUSH.
Proof.
  intros reg reg'.
  assert (Hfresh : 2 ∉ live reg TTaskType.PUSH)
    by (apply (bool_decide_unpack _); vm_compute; exact I).
  assert (Hkind : 0 <= total_by_kind reg TTaskType.PUSH < 2 ^ 32)
    by (vm_compute; split; discriminate || reflexivity).
  assert (Huser : 0 <= total_by_user reg TTaskType.PUSH "bob" < 2 ^ 32)
    by (vm_compute; split; discriminate || reflexivity).
  split; [exact Hfresh|]. split; [exact Hkind|]. split; [exact Huser|].
  destruct (record_then_remove_restores_totals TTaskType.PUSH 2 "bob" reg Hfresh Hkind Huser)
    as (_ & Hlive & Htotal & Hby_user & _).
  split; [apply Htotal|]. split; [apply Hby_user | apply Hlive].
Defined.

(** ** The selector, task by task *)

(** Where the scan stops: at a task of the queue, with [user] being the
    user of that task when it carries [resource_info]. *)
Lemma scan_tasks_stop thread_count prio rest :
  forall i user improper_users reg log,
    0 <= i -> i + Z.of_nat (length rest) < 2 ^ 31 ->
    let scanned := scan_tasks thread_count prio rest i user improper_users reg log in
    scanned.1.1.1 = -1
    \/ exists (j : nat) task,
         scanned.1.1.1 = i + Z.of_nat j /\ rest !! j = Some task
         /\ (forall u, resource_info task = Some u -> scanned.1.1.2 = u)
         /\ (prio = TPriority.HIGH -> priority task = Some TPriority.HIGH).
Proof.
  induction rest as [|task rest IH]; intros i user improper_users reg log Hi Hlen; cbn zeta.
  - left. reflexivity.
  - cbn [scan_tasks]. cbn [length] in Hlen.
    set (user' := match resource_info task with Some u => u | None => user end).
    assert (Hwrap : wrap_uint32 (i + 1) = i + 1) by (apply wrap_uint32_small; lia).
    assert (Hnext : forall imp reg1 log1,
               let scanned :=
                 scan_tasks thread_count prio rest (wrap_uint32 (i + 1)) user' imp reg1 log1 in
               scanned.1.1.1 = -1
               \/ exists (j : nat) task',
                    scanned.1.1.1 = i + Z.of_nat j /\ (task :: rest) !! j = Some task'
                    /\ (forall u, resource_info task' = Some u -> scanned.1.1.2 = u)
                    /\ (prio = TPriority.HIGH -> priority task' = Some TPriority.HIGH)).
    { intros imp reg1 log1. cbn zeta. rewrite Hwrap.
      destruct (IH (i + 1) user' imp reg1 log1)
        as [Hm|(j & task' & Hj & Hlook & Huser & Hhigh)];
        [lia | lia | left; exact Hm |].
      right. exists (S j), task'. split; [lia|]. auto. }
    assert (Hhere : (prio = TPriority.HIGH -> priority task = Some TPriority.HIGH) ->
               exists (j : nat) task',
                 to_int32 i = i + Z.of_nat j
                 /\ (task :: rest) !! j = Some task'
                 /\ (forall u, resource_info task' = Some u -> user' = u)
                 /\ (prio = TPriority.HIGH -> priority task' = Some TPriority.HIGH)).
    { intros Hprio. exists 0%nat, task.
      rewrite to_int32_small by lia.
      split; [lia|]. split; [reflexivity|]. split; [|exact Hprio].
      intros u Hu. unfold user'. rewrite Hu. reflexivity. }
    case_bool_decide as Hp.
    + unfold is_high_priority. case_bool_decide as Hhigh.
      * right. cbn [fst snd]. apply Hhere. intros _. exact Hhigh.
      * apply Hnext.
    + case_bool_decide.
      * apply Hnext.
      * destruct (_ || _).
        -- right. cbn [fst snd]. apply Hhere. intros Hprio. contradiction.
        -- apply Hnext.
Qed.

(** What a call of the selector leaves: nothing changed when a HIGH worker
    finds no task; otherwise the index of a task of the queue, and one
    running count incremented, that of the kind of the task and of [user],
    which is the user of the task when it carries [resource_info]. *)
Lemma get_next_task_index_selected thread_count tasks prio reg returned reg' log :
  Z.of_nat (length tasks) < 2 ^ 31 ->
  _get_next_task_index thread_count tasks prio reg = Some (returned, reg', log) ->
  (prio = TPriority.HIGH /\ returned = wrap_uint32 (-1) /\ reg' = reg /\ log = [])
  \/ exists (j : nat) task user reg1,
       returned = Z.of_nat j /\ tasks !! j = Some task
       /\ same_counters reg reg1
       /\ reg' = incr_running (task_type task) user reg1
       /\ (forall u, resource_info task = Some u -> user = u)
       /\ (prio = TPriority.HIGH -> priority task = Some TPriority.HIGH).
Proof.
  intros Hlen. rewrite get_next_task_index_unfold. cbn zeta.
  pose proof (scan_tasks_stop thread_count prio tasks 0 "" ∅ reg []) as Hstop.
  cbn zeta in Hstop.
  destruct (scan_tasks_frame thread_count prio tasks 0 "" ∅ reg []) as (Hsame & _).
  assert (Hpure : prio = TPriority.HIGH ->
                  (scan_tasks thread_count prio tasks 0 "" ∅ reg []).1.2 = reg
                  /\ (scan_tasks thread_count prio tasks 0 "" ∅ reg []).2 = [])
    by (intros ->; apply scan_tasks_high_pure).
  destruct (scan_tasks thread_count prio tasks 0 "" ∅ reg []) as [[[index user] reg1] log1].
  cbn [fst snd] in *.
  case_bool_decide as Hminus; [case_bool_decide as Hprio|].
  - intros [= <- <- <-]. left. destruct (Hpure Hprio) as [-> ->]. subst index. auto.
  - destruct tasks as [|task0 tasks']; [discriminate|].
    change (task_at (task0 :: tasks') 0) with (Some task0).
    intros [= <- <- <-]. right.
    exists 0%nat, task0,
      (match resource_info task0 with Some u => u | None => ""%string end), reg1.
    split; [reflexivity|]. split; [reflexivity|]. split; [exact Hsame|].
    split; [reflexivity|]. split; [|intros; contradiction].
    intros u ->. reflexivity.
  - destruct Hstop as [Hm|(j & task & Hj & Hlook & Huser & Hhigh)];
      [lia | lia | contradiction |].
    rewrite Z.add_0_l in Hj. subst index. rewrite task_at_lookup, Hlook.
    intros [= <- <- <-]. right. exists j, task, user, reg1.
    split; [apply wrap_uint32_small; apply lookup_lt_Some in Hlook; lia|].
    auto.
Qed.

(** X3. On a queue that is not empty (and short enough to be indexed by an
    [int32_t]) a NORMAL worker always gets the index of a queued task, which
    it reads back as a non-negative [int32_t]; the call increments exactly
    one running count, that of the kind of the chosen task (and of the user of
    the task, when the task carries [resource_info]), and leaves every other
    running count, the live sets, the totals and the report version as they
    are. *)
Theorem normal_selector_returns_queued_task (thread_count : Z)
    (tasks : list TAgentTaskRequest) (reg : Registry) :
  tasks <> [] ->
  Z.of_nat (length tasks) < 2 ^ 31 ->
  exists (j : nat) task user reg' log,
    _get_next_task_index thread_count tasks TPriority.NORMAL reg
    = Some (Z.of_nat j, reg', log)
    /\ tasks !! j = Some task
    /\ to_int32 (Z.of_nat j) = Z.of_nat j
    /\ (forall u, resource_info task = Some u -> user = u)
    /\ (forall kind' user',
          running_by_user reg' kind' user' =
          if decide (kind' = task_type task /\ user' = user)
          then wrap_uint32 (running_by_user reg kind' user' + 1)
          else running_by_user reg kind' user')
    /\ (forall kind', live reg' kind' = live reg kind')
    /\ (forall kind', total_by_kind reg' kind' = total_by_kind reg kind')
    /\ (forall kind' user', total_by_user reg' kind' user' = total_by_user reg kind' user')
    /\ _s_report_version reg' = _s_report_version reg.
Proof.
  intros Hne Hlen.
  destruct (get_next_task_index_defined thread_count tasks TPriority.NORMAL reg Hlen)
    as (returned & reg' & log & Hnext & _); [left; exact Hne|].
  pose proof (get_next_task_index_frame _ _ _ _ _ _ _ Hnext) as (Hv & Hs & Hk & Hu & _).
  destruct (get_next_task_index_selected _ _ _ _ _ _ _ Hlen Hnext)
    as [(Hhigh & _)|(j & task & user & reg1 & -> & Hlook & Hsame & -> & Huser & _)];
    [discriminate|].
  exists j, task, user, (incr_running (task_type task) user reg1), log.
  split; [exact Hnext|]. split; [exact Hlook|].
  split; [apply to_int32_small; apply lookup_lt_Some in Hlook; lia|].
  split; [exact Huser|]. split; [|split; [|split; [|split]]].
  - intros kind' user'. rewrite running_by_user_incr.
    destruct Hsame as (_ & _ & _ & _ & Hr). rewrite Hr. reflexivity.
  - intros kind'. unfold live. rewrite Hs. reflexivity.
  - exact Hk.
  - exact Hu.
  - exact Hv.
Qed.

Lemma normal_selector_returns_queued_task_witness :
  let tasks := [Sample.task TTaskType.PUSH 1 None (Some "alice"%string);
                Sample.task TTaskType.PUSH 2 None (Some "bob"%string)] in
  tasks <> []
  /\ Z.of_nat (length tasks) < 2 ^ 31
  /\ exists (j : nat) task reg' log,
       _get_next_task_index 3 tasks TPriority.NORMAL (registry_init 0)
       = Some (Z.of_nat j, reg', log)
       /\ tasks !! j = Some task.
Proof.
  intros tasks.
  assert (Hne : tasks <> []) by discriminate.
  assert (Hlen : Z.of_nat (length tasks) < 2 ^ 31) by (cbn; lia).
  split; [exact Hne|]. split; [exact Hlen|].
  destruct (normal_selector_returns_queued_task 3 tasks (registry_init 0) Hne Hlen)
    as (j & task & user & reg' & log & Hnext & Hlook & _).
  exists j, task, reg', log. split; [exact Hnext | exact Hlook].
Defined.

(** Once the user is improper, a NORMAL worker's scan passes over every
    task of that user and over every task without [resource_info]. *)
Lemma scan_tasks_all_improper thread_count rest :
  forall i user improper_users reg log,
    user ∈ improper_users ->
    (forall task, task ∈ rest ->
       resource_info task = None \/ resource_info task = Some user) ->
    scan_tasks thread_count TPriority.NORMAL rest i user improper_users reg log
    = (-1, user, reg, log).
Proof.
  induction rest as [|task rest IH]; intros i user improper_users reg log Himp Hsame.
  - reflexivity.
  - cbn [scan_tasks].
    assert (Huser : match resource_info task with Some u => u | None => user end = user).
    { destruct (Hsame task) as [->| ->]; [apply elem_of_cons; left| |]; reflexivity. }
    rewrite Huser.
    rewrite (bool_decide_eq_false_2 (TPriority.NORMAL = TPriority.HIGH)) by discriminate.
    rewrite bool_decide_eq_true_2 by exact Himp.
    apply IH; [exact Himp|].
    intros task' Hin. apply Hsame, elem_of_cons. right. exact Hin.
Qed.

(** X4. When every task behind the head of the queue is a task of the
    head's user or carries no [resource_info], a NORMAL worker takes the head
    of the queue: either the head's user passes the test, or that user
    becomes improper, every other task is passed over and the fallback picks
    index 0.  The running count of the head's user is incremented. *)
Theorem single_user_queue_served_from_head (thread_count : Z)
    (task0 : TAgentTaskRequest) (rest : list TAgentTaskRequest) (reg : Registry) :
  (forall task, task ∈ rest ->
     resource_info task = None \/ resource_info task = Some (task_user task0)) ->
  exists reg' log,
    _get_next_task_index thread_count (task0 :: rest) TPriority.NORMAL reg
    = Some (0, reg', log)
    /\ running_by_user reg' (task_type task0) (task_user task0)
       = wrap_uint32 (running_by_user reg (task_type task0) (task_user task0) + 1).
Proof.
  intros Hsame. unfold _get_next_task_index. cbn [scan_tasks].
  change (match resource_info task0 with Some u => u | None => ""%string end)
    with (task_user task0).
  rewrite (bool_decide_eq_false_2 (TPriority.NORMAL = TPriority.HIGH)) by discriminate.
  rewrite (bool_decide_eq_false_2 (task_user task0 ∈ (∅ : gset string)))
    by apply not_elem_of_empty.
  assert (Hrun : running_by_user
                   (incr_running (task_type task0) (task_user task0)
                      (touch_counters (task_type task0) (task_user task0) reg))
                   (task_type task0) (task_user task0)
                 = wrap_uint32 (running_by_user reg (task_type task0) (task_user task0) + 1)).
  { rewrite running_by_user_incr.
    destruct (decide _) as [_|Hn]; [|exfalso; apply Hn; auto].
    destruct (same_counters_touch (task_type task0) (task_user task0) reg)
      as (_ & _ & _ & _ & Hr).
    rewrite Hr. reflexivity. }
  destruct (_ || _).
  - change (to_int32 0) with 0.
    rewrite bool_decide_eq_false_2 by discriminate.
    change (task_at (task0 :: rest) 0) with (Some task0).
    eexists _, _. split; [reflexivity | exact Hrun].
  - rewrite scan_tasks_all_improper;
      [|apply elem_of_union; left; apply elem_of_singleton; reflexivity | exact Hsame].
    rewrite bool_decide_eq_true_2 by reflexivity.
    change (task_at (task0 :: rest) 0) with (Some task0).
    change (match resource_info task0 with Some u => u | None => ""%string end)
      with (task_user task0).
    eexists _, _. split; [reflexivity | exact Hrun].
Qed.

Lemma single_user_queue_served_from_head_witness :
  let alice n := Sample.task TTaskType.PUSH n None (Some "alice"%string) in
  let anonymous := Sample.task TTaskType.PUSH 9 None None in
  (forall task, task ∈ [alice 2; anonymous; alice 3] ->
     resource_info task = None \/ resource_info task = Some (task_user (alice 1)))
  /\ exists reg' log,
       _get_next_task_index 3 [alice 1; alice 2; anonymous; alice 3] TPriority.NORMAL
         (registry_init 0)
       = Some (0, reg', log).
Proof.
  intros alice anonymous.
  assert (Hsame : forall task, task ∈ [alice 2; anonymous; alice 3] ->
            resource_info task = None \/ resource_info task = Some (task_user (alice 1))).
  { intros task Hin. repeat (apply elem_of_cons in Hin as [->|Hin]; [cbn; auto|]).
    apply elem_of_nil in Hin. contradiction. }
  split; [exact Hsame|].
  destruct (single_user_queue_served_from_head 3 (alice 1) [alice 2; anonymous; alice 3]
              (registry_init 0) Hsame) as (reg' & log & Hnext & _).
  exists reg', log. exact Hnext.
Defined.

Lemma scan_tasks_same_for_normal_worker thread_count rest rest' :
  Forall2 same_for_normal_worker rest rest' ->
  forall i user improper_users reg log,
    scan_tasks thread_count TPriority.NORMAL rest i user improper_users reg log
    = scan_tasks thread_count TPriority.NORMAL rest' i user improper_users reg log.
Proof.
  induction 1 as [|task task' rest rest' (Hkind & Hsig & Hinfo) _ IH];
    intros i user improper_users reg log.
  - reflexivity.
  - cbn [scan_tasks]. rewrite Hkind, Hsig, Hinfo.
    rewrite (bool_decide_eq_false_2 (TPriority.NORMAL = TPriority.HIGH)) by discriminate.
    rewrite !IH. reflexivity.
Qed.

(** X5. A NORMAL worker's selector does not read the priority of the tasks
    (nor their payloads): on two queues whose tasks agree, position by
    position, on kind, signature and [resource_info], it returns the same
    index, the same registry and the same log lines.  A NORMAL worker
    therefore takes tasks of priority HIGH like any other task. *)
Theorem normal_selector_ignores_priority (thread_count : Z)
    (tasks tasks' : list TAgentTaskRequest) (reg : Registry) :
  Forall2 same_for_normal_worker tasks tasks' ->
  _get_next_task_index thread_count tasks TPriority.NORMAL reg
  = _get_next_task_index thread_count tasks' TPriority.NORMAL reg.
Proof.
  intros Hsame. unfold _get_next_task_index.
  rewrite (scan_tasks_same_for_normal_worker thread_count tasks tasks' Hsame).
  destruct (scan_tasks thread_count TPriority.NORMAL tasks' 0 "" ∅ reg [])
    as [[[index user] reg1] log].
  assert (Hat : forall z,
             match task_at tasks z, task_at tasks' z with
             | Some t, Some t' => same_for_normal_worker t t'
             | None, None => True
             | _, _ => False
             end).
  { intros z. unfold task_at. destruct (z <? 0); [exact I|].
    pose proof (proj1 (Forall2_lookup _ _ _) Hsame (Z.to_nat z)) as Hrel.
    destruct Hrel; [assumption | exact I]. }
  rewrite (bool_decide_eq_false_2 (TPriority.NORMAL = TPriority.HIGH)) by discriminate.
  case_bool_decide.
  - specialize (Hat 0).
    destruct (task_at tasks 0) as [t|], (task_at tasks' 0) as [t'|];
      try contradiction; [|reflexivity].
    destruct Hat as (-> & _ & ->). reflexivity.
  - specialize (Hat index).
    destruct (task_at tasks index) as [t|], (task_at tasks' index) as [t'|];
      try contradiction; [|reflexivity].
    destruct Hat as (-> & _ & _). reflexivity.
Qed.

Lemma normal_selector_ignores_priority_witness :
  let plain := Sample.task TTaskType.PUSH 1 None (Some "alice"%string) in
  let urgent := Sample.task TTaskType.PUSH 1 (Some TPriority.HIGH) (Some "alice"%string) in
  Forall2 same_for_normal_worker [plain] [urgent]
  /\ _get_next_task_index 3 [plain] TPriority.NORMAL (registry_init 0)
     = _get_next_task_index 3 [urgent] TPriority.NORMAL (registry_init 0).
Proof.
  intros plain urgent.
  assert (Hsame : Forall2 same_for_normal_worker [plain] [urgent]).
  { constructor; [|constructor].
    unfold same_for_normal_worker. cbn. auto. }
  split; [exact Hsame|].
  apply (normal_selector_ignores_priority 3 [plain] [urgent] (registry_init 0) Hsame).
Defined.

(** What the critical section of a push worker does with what the selector
    returned. *)
Lemma push_dequeue_selected cfg prio w job w' :
  Z.of_nat (length (_tasks w)) < 2 ^ 31 ->
  _push_dequeue cfg prio w = Some (job, w') ->
  (prio = TPriority.HIGH /\ job = PushNone /\ registry w' = registry w
   /\ _tasks w' = _tasks w /\ trace w' = trace w ++ [EvNotify])
  \/ exists (j : nat) task user reg1 log,
       job = PushSelected task (task_user task)
       /\ _tasks w !! j = Some task
       /\ _tasks w' = delete j (_tasks w)
       /\ trace w' = trace w ++ log
       /\ same_counters (registry w) reg1
       /\ registry w' = incr_running (task_type task) user reg1
       /\ (forall u, resource_info task = Some u -> user = u)
       /\ (prio = TPriority.HIGH -> priority task = Some TPriority.HIGH).
Proof.
  intros Hlen. unfold _push_dequeue.
  destruct (_tasks w) as [|task0 rest] eqn:Htasks; [discriminate|].
  destruct (_get_next_task_index _ _ _ _) as [[[returned reg] log]|] eqn:Hnext;
    [|discriminate].
  apply get_next_task_index_selected in Hnext
    as [(Hhigh & -> & -> & ->)|(j & task & user & reg1 & -> & Hlook & Hsame & -> & Huser & Hprio)];
    [| |exact Hlen].
  - change (to_int32 (wrap_uint32 (-1)) <? 0) with true. cbn iota.
    intros [= <- <-]. left. cbn [registry _tasks trace]. auto.
  - assert (Hj : to_int32 (Z.of_nat j) = Z.of_nat j)
      by (apply to_int32_small; apply lookup_lt_Some in Hlook; lia).
    rewrite Hj. destruct (Z.ltb_spec (Z.of_nat j) 0); [lia|].
    rewrite task_at_lookup, Hlook, Nat2Z.id.
    intros [= <- <-]. right. exists j, task, user, reg1, log.
    cbn [registry _tasks trace]. split; [reflexivity|]. auto 10.
Qed.

(** X6. The critical section of a push worker is safe on every queue that an
    [int32_t] can index: on an empty queue the worker waits; on any other
    queue the selector's result indexes the deque, the task at that index is
    taken out and the other tasks keep their order; the user string the
    worker keeps for the release is the task's own (the empty string when the
    task has no [resource_info]).  Only a HIGH worker can come back
    empty-handed, and then it changes nothing and notifies. *)
Theorem push_critical_section_takes_queued_task (cfg : Config)
    (prio : TPriority.type) (w : World) :
  (_tasks w = [] -> _push_dequeue cfg prio w = None)
  /\ (_tasks w <> [] -> Z.of_nat (length (_tasks w)) < 2 ^ 31 ->
      exists job w',
        _push_dequeue cfg prio w = Some (job, w')
        /\ ((prio = TPriority.HIGH /\ job = PushNone /\ registry w' = registry w
             /\ _tasks w' = _tasks w /\ trace w' = trace w ++ [EvNotify])
            \/ exists (j : nat) task,
                 job = PushSelected task (task_user task)
                 /\ _tasks w !! j = Some task
                 /\ _tasks w' = delete j (_tasks w)
                 /\ (prio = TPriority.HIGH -> priority task = Some TPriority.HIGH))).
Proof.
  split.
  - intros Hempty. unfold _push_dequeue. rewrite Hempty. reflexivity.
  - intros Hne Hlen.
    assert (Hdefined : exists job w', _push_dequeue cfg prio w = Some (job, w')).
    { unfold _push_dequeue. destruct (_tasks w) as [|task0 rest] eqn:Htasks; [contradiction|].
      destruct (get_next_task_index_defined (push_thread_count cfg) (task0 :: rest) prio
                  (registry w) Hlen)
        as (returned & reg' & log & Hnext & Hcases); [left; discriminate|].
      rewrite Hnext.
      destruct Hcases as [(_ & -> & _)|(j & task & -> & Hlook & _)].
      - change (to_int32 (wrap_uint32 (-1)) <? 0) with true. cbn iota. eauto.
      - assert (Hj : to_int32 (Z.of_nat j) = Z.of_nat j)
          by (apply to_int32_small; apply lookup_lt_Some in Hlook; lia).
        rewrite Hj. destruct (Z.ltb_spec (Z.of_nat j) 0); [lia|].
        rewrite task_at_lookup, Hlook. eauto. }
    destruct Hdefined as (job & w' & Hdeq). exists job, w'. split; [exact Hdeq|].
    destruct (push_dequeue_selected cfg prio w job w' Hlen Hdeq)
      as [Hnone|(j & task & user & reg1 & log & -> & Hlook & Hq & _ & _ & _ & _ & Hprio)].
    + left. exact Hnone.
    + right. exists j, task. auto.
Qed.

(** X7. The running count over the life of a task in a push worker.  The
    selector increments the count of (kind of the task, user), the release at
    the end of the callback decrements it only for kind PUSH.  For a task
    that carries [resource_info], taking it out of the queue and executing
    it therefore leaves every running count as it was when the kind is PUSH,
    and leaves the count of (kind, user) one higher for any other kind that
    goes through the push callback. *)
Theorem push_task_running_count (cfg : Config) (env : Env) (prio : TPriority.type)
    (w w1 : World) (t : TAgentTaskRequest) (user : string) :
  Z.of_nat (length (_tasks w)) < 2 ^ 31 ->
  (forall kind' user', 0 <= running_by_user (registry w) kind' user' < 2 ^ 32) ->
  _push_dequeue cfg prio w = Some (PushSelected t user, w1) ->
  is_Some (resource_info t) ->
  let w2 := exec (_push_body cfg env t user) w1 in
  forall kind' user',
    running_by_user (registry w2) kind' user' =
    if decide (task_type t <> TTaskType.PUSH /\ kind' = task_type t /\ user' = user)
    then wrap_uint32 (running_by_user (registry w) kind' user' + 1)
    else running_by_user (registry w) kind' user'.
Proof.
  intros Hlen Hrange Hdeq [u Hu]. cbn zeta. intros kind' user'.
  destruct (push_dequeue_selected cfg prio w _ w1 Hlen Hdeq)
    as [(_ & Hnone & _)|(j & task & user0 & reg1 & log & Hjob & _ & _ & _ & Hsame & Hreg
                         & Huser & _)];
    [discriminate|].
  injection Hjob as -> ->.
  rewrite (Huser u Hu) in Hreg.
  assert (Htask_user : task_user task = u) by (unfold task_user; rewrite Hu; reflexivity).
  rewrite Htask_user in *.
  pose proof (body_registry cfg env _push_worker_thread_callback (PushSelected task u) w1)
    as Hbody.
  cbn [callback_body] in Hbody. rewrite Hbody.
  unfold release_job. cbn [task_of_job].
  rewrite running_by_user_remove.
  assert (Hbump : running_by_user
                    (if successful_create_alter_push env _push_worker_thread_callback
                          (PushSelected task u)
                     then bump_report_version (registry w1) else registry w1) kind' user'
                  = running_by_user (registry w1) kind' user')
    by (destruct (successful_create_alter_push _ _ _); reflexivity).
  rewrite Hbump, Hreg, running_by_user_incr.
  destruct Hsame as (_ & _ & _ & _ & Hr). rewrite Hr.
  destruct (decide (task_type task = TTaskType.PUSH /\ kind' = task_type task /\ user' = u))
    as [(Hpush & -> & ->)|Hn1].
  - destruct (decide (task_type task = task_type task /\ u = u)) as [_|Hn];
      [|exfalso; apply Hn; auto].
    destruct (decide _) as [(? & _)|_]; [contradiction|].
    apply wrap_uint32_succ_pred. apply Hrange.
  - destruct (decide (kind' = task_type task /\ user' = u)) as [[-> ->]|Hn2].
    + destruct (decide _) as [_|Hn]; [reflexivity|].
      exfalso. apply Hn. split; [|auto]. intros Hpush. apply Hn1. auto.
    + destruct (decide _) as [(_ & ? & ?)|_]; [exfalso; apply Hn2; auto | reflexivity].
Qed.

Lemma push_task_running_count_witness :
  let t := Sample.task TTaskType.PUSH 1 None (Some "alice"%string) in
  let w := exec (submit_task t) (Sample.world 0 []) in
  let w1 := {| registry := incr_running TTaskType.PUSH "alice"
                             (touch_counters TTaskType.PUSH "alice" (registry w));
               _tasks := [];
               trace := trace w ++ [EvGetNextTask TTaskType.PUSH 1 "alice" 1 1 1 3
                                      (user_total_rate 1 1) (user_running_rate 0 3)] |} in
  let w2 := exec (_push_body Sample.cfg Sample.env t "alice") w1 in
  Z.of_nat (length (_tasks w)) < 2 ^ 31
  /\ (forall kind' user', 0 <= running_by_user (registry w) kind' user' < 2 ^ 32)
  /\ _push_dequeue Sample.cfg TPriority.NORMAL w = Some (PushSelected t "alice", w1)
  /\ is_Some (resource_info t)
  /\ running_by_user (registry w2) TTaskType.PUSH "alice"
     = running_by_user (registry w) TTaskType.PUSH "alice".
Proof.
  intros t w w1 w2.
  assert (Hlen : Z.of_nat (length (_tasks w)) < 2 ^ 31) by (vm_compute; reflexivity).
  assert (Hrange : forall kind' user',
             0 <= running_by_user (registry w) kind' user' < 2 ^ 32).
  { intros kind' user'.
    assert (Hzero : running_by_user (registry w) kind' user' = 0).
    { unfold w. rewrite submit_task_run. cbn zeta. cbn [registry].
      unfold running_by_user. rewrite running_by_user_record. apply at2_empty. }
    rewrite Hzero. lia. }
  assert (Hdeq : _push_dequeue Sample.cfg TPriority.NORMAL w
                 = Some (PushSelected t "alice", w1)) by (vm_compute; reflexivity).
  assert (Hinfo : is_Some (resource_info t)) by (eexists; reflexivity).
  split; [exact Hlen|]. split; [exact Hrange|]. split; [exact Hdeq|]. split; [exact Hinfo|].
  unfold w2.
  rewrite (push_task_running_count Sample.cfg Sample.env TPriority.NORMAL w w1 t "alice"
             Hlen Hrange Hdeq Hinfo TTaskType.PUSH "alice").
  destruct (decide _) as [(Hne & _)|_]; [exfalso; apply Hne; reflexivity | reflexivity].
Defined.

(** ** The user a selection is counted for *)

(** Where the scan stops, [user] is what the tasks up to that position
    left in it. *)
Lemma scan_tasks_stop_user thread_count prio rest :
  forall i user improper_users reg log,
    0 <= i -> i + Z.of_nat (length rest) < 2 ^ 31 ->
    let scanned := scan_tasks thread_count prio rest i user improper_users reg log in
    scanned.1.1.1 = -1
    \/ exists (j : nat) task,
         scanned.1.1.1 = i + Z.of_nat j /\ rest !! j = Some task
         /\ scanned.1.1.2 = user_after user (take (S j) rest).
Proof.
  induction rest as [|task rest IH]; intros i user improper_users reg log Hi Hlen; cbn zeta.
  - left. reflexivity.
  - cbn [scan_tasks]. cbn [length] in Hlen.
    set (user' := match resource_info task with Some u => u | None => user end).
    assert (Hwrap : wrap_uint32 (i + 1) = i + 1) by (apply wrap_uint32_small; lia).
    assert (Hnext : forall imp reg1 log1,
               let scanned :=
                 scan_tasks thread_count prio rest (wrap_uint32 (i + 1)) user' imp reg1 log1 in
               scanned.1.1.1 = -1
               \/ exists (j : nat) task',
                    scanned.1.1.1 = i + Z.of_nat j /\ (task :: rest) !! j = Some task'
                    /\ scanned.1.1.2 = user_after user (take (S j) (task :: rest))).
    { intros imp reg1 log1. cbn zeta. rewrite Hwrap.
      destruct (IH (i + 1) user' imp reg1 log1) as [Hm|(j & task' & Hj & Hlook & Huser)];
        [lia | lia | left; exact Hm |].
      right. exists (S j), task'. split; [lia|]. split; [exact Hlook|].
      rewrite Huser. reflexivity. }
    assert (Hhere : exists (j : nat) task',
               to_int32 i = i + Z.of_nat j /\ (task :: rest) !! j = Some task'
               /\ user' = user_after user (take (S j) (task :: rest))).
    { exists 0%nat, task. rewrite to_int32_small by lia.
      split; [lia|]. split; reflexivity. }
    case_bool_decide as Hp.
    + destruct (is_high_priority task).
      * right. cbn [fst snd]. exact Hhere.
      * apply Hnext.
    + case_bool_decide.
      * apply Hnext.
      * destruct (_ || _).
        -- right. cbn [fst snd]. exact Hhere.
        -- apply Hnext.
Qed.

(** X8. Which running count a selection increments.  When the selector
    returns the index of a task, the count it increments is that of the kind
    of that task and of the user its local [user] holds at that point: the
    user of the last task, at or before the chosen index, that carries
    [resource_info] (the empty string if there is none).  For a chosen task
    without [resource_info] this is the user of an earlier task, not the
    empty string under which the task was admitted and will be released.
    Every other running count is left as it is. *)
Theorem selection_counts_for_last_named_user (thread_count : Z)
    (tasks : list TAgentTaskRequest) (prio : TPriority.type) (reg reg' : Registry)
    (log : list Event) (j : nat) :
  Z.of_nat (length tasks) < 2 ^ 31 ->
  (j < length tasks)%nat ->
  _get_next_task_index thread_count tasks prio reg = Some (Z.of_nat j, reg', log) ->
  exists task,
    tasks !! j = Some task
    /\ forall kind' user',
         running_by_user reg' kind' user' =
         if decide (kind' = task_type task
                    /\ user' = last_named_user (take (S j) tasks))
         then wrap_uint32 (running_by_user reg kind' user' + 1)
         else running_by_user reg kind' user'.
Proof.
  intros Hlen Hj. rewrite get_next_task_index_unfold. cbn zeta.
  pose proof (scan_tasks_stop_user thread_count prio tasks 0 "" ∅ reg []) as Hstop.
  cbn zeta in Hstop.
  destruct (scan_tasks_frame thread_count prio tasks 0 "" ∅ reg []) as (Hsame & _).
  destruct (scan_tasks thread_count prio tasks 0 "" ∅ reg []) as [[[index user] reg1] log1].
  cbn [fst snd] in *.
  assert (Hcount : forall task user0,
             forall kind' user',
               running_by_user (incr_running (task_type task) user0 reg1) kind' user' =
               if decide (kind' = task_type task /\ user' = user0)
               then wrap_uint32 (running_by_user reg kind' user' + 1)
               else running_by_user reg kind' user').
  { intros task user0 kind' user'. rewrite running_by_user_incr.
    destruct Hsame as (_ & _ & _ & _ & Hr). rewrite Hr. reflexivity. }
  case_bool_decide as Hminus; [case_bool_decide as Hprio|].
  - intros [= Hreturned _ _]. subst index.
    change (wrap_uint32 (-1)) with (2 ^ 32 - 1) in Hreturned. lia.
  - destruct tasks as [|task0 tasks']; [discriminate|].
    change (task_at (task0 :: tasks') 0) with (Some task0).
    intros [= Hreturned <- _].
    assert (j = 0%nat) by (change (wrap_uint32 0) with 0 in Hreturned; lia). subst j.
    exists task0. split; [reflexivity|]. apply Hcount.
  - destruct Hstop as [Hm|(j' & task & Hindex & Hlook & Huser)];
      [lia | lia | contradiction |].
    rewrite Z.add_0_l in Hindex. subst index. rewrite task_at_lookup, Hlook.
    intros [= Hreturned <- _].
    rewrite wrap_uint32_small in Hreturned by (apply lookup_lt_Some in Hlook; lia).
    apply Nat2Z.inj in Hreturned. subst j'.
    exists task. split; [exact Hlook|]. rewrite Huser. apply Hcount.
Qed.

Lemma selection_counts_for_last_named_user_witness :
  let first := Sample.task TTaskType.PUSH 1 None (Some "alice"%string) in
  let urgent := Sample.task TTaskType.PUSH 2 (Some TPriority.HIGH) None in
  let reg := registry_init 0 in
  let reg' := incr_running TTaskType.PUSH "alice" reg in
  Z.of_nat (length [first; urgent]) < 2 ^ 31
  /\ (1 < length [first; urgent])%nat
  /\ _get_next_task_index 3 [first; urgent] TPriority.HIGH reg = Some (1, reg', [])
  /\ resource_info urgent = None
  /\ running_by_user reg' TTaskType.PUSH "alice" = 1
  /\ running_by_user reg' TTaskType.PUSH "" = 0.
Proof.
  intros first urgent reg reg'.
  assert (Hlen : Z.of_nat (length [first; urgent]) < 2 ^ 31) by (cbn; lia).
  assert (Hj : (1 < length [first; urgent])%nat) by (cbn; lia).
  assert (Hnext : _get_next_task_index 3 [first; urgent] TPriority.HIGH reg
                  = Some (Z.of_nat 1, reg', [])) by (vm_compute; reflexivity).
  split; [exact Hlen|]. split; [exact Hj|]. split; [exact Hnext|]. split; [reflexivity|].
  destruct (selection_counts_for_last_named_user 3 [first; urgent] TPriority.HIGH reg reg'
              [] 1 Hlen Hj Hnext) as (task & Hlook & Hcount).
  injection Hlook as <-.
  rewrite (Hcount TTaskType.PUSH "alice"%string), (Hcount TTaskType.PUSH ""%string).
  split; vm_compute; reflexivity.
Defined.

(** ** The registry and the tasks in the system, exactly *)

Lemma tracked_perm reg tasks tasks' :
  tasks ≡ₚ tasks' -> tracked reg tasks -> tracked reg tasks'.
Proof.
  intros Hperm Htracked kind sig Hlive. rewrite <- Hperm. apply Htracked. exact Hlive.
Qed.

Lemma tracked_same reg reg' tasks :
  _s_task_signatures reg' = _s_task_signatures reg -> tracked reg tasks -> tracked reg' tasks.
Proof.
  intros Hs Htracked kind sig Hlive. apply Htracked. unfold live in *.
  rewrite <- Hs. exact Hlive.
Qed.

Lemma tracked_bump reg tasks (bumped : bool) :
  tracked reg tasks -> tracked (if bumped then bump_report_version reg else reg) tasks.
Proof. destruct bumped; [|auto]. apply tracked_same. reflexivity. Qed.

Lemma tracked_record reg tasks t user :
  tracked reg tasks ->
  tracked (_record_task_info (task_type t) (signature t) user reg).2 (t :: tasks).
Proof.
  intros Htracked kind sig. rewrite live_record, fmap_cons.
  destruct (decide (task_type t = kind)) as [<-|Hne].
  - rewrite elem_of_union, elem_of_singleton. intros [->|Hlive].
    + apply elem_of_cons. left. reflexivity.
    + apply elem_of_cons. right. apply Htracked. exact Hlive.
  - intros Hlive. apply elem_of_cons. right. apply Htracked. exact Hlive.
Qed.

Lemma tracked_remove reg tasks t user :
  tracked reg (t :: tasks) ->
  tracked (_remove_task_info (task_type t) (signature t) user reg) tasks.
Proof.
  intros Htracked kind sig. rewrite live_remove.
  destruct (decide (task_type t = kind)) as [<-|Hne].
  - rewrite elem_of_difference, elem_of_singleton. intros [Hlive Hsig].
    apply Htracked in Hlive. rewrite fmap_cons in Hlive.
    apply elem_of_cons in Hlive as [Hkey|Hin]; [|exact Hin].
    unfold task_key in Hkey. congruence.
  - intros Hlive. apply Htracked in Hlive. rewrite fmap_cons in Hlive.
    apply elem_of_cons in Hlive as [Hkey|Hin]; [|exact Hin].
    unfold task_key in Hkey. congruence.
Qed.

(** What a critical section hands out is a job of its callback. *)
Lemma dequeue_holds_own_job cfg pool prio w job w' :
  callback_dequeue cfg (snd (start cfg pool)) prio w = Some (job, w') ->
  holds_own_job cfg (pool, job).
Proof.
  unfold holds_own_job. cbn [fst snd].
  destruct (snd (start cfg pool)); cbn [callback_dequeue]; unfold pop_front, _push_dequeue;
    try (destruct (_tasks w); [discriminate|]; intros [= <- <-]; exact I);
    try (intros [= <- <-]; reflexivity).
  destruct (_tasks w); [discriminate|].
  destruct (_get_next_task_index _ _ _ _) as [[[returned reg] log]|]; [|discriminate].
  destruct (_ <? 0); [intros [= <- <-]; reflexivity|].
  destruct (task_at _ _); [|discriminate]. intros [= <- <-]. exact I.
Qed.

(** [submit_task] is its first critical section followed, when the
    signature was new, by its second. *)
Lemma submit_task_two_sections task :
  submit_task task
  = (let* inserted := submit_task_record task in
     if inserted then submit_task_push task else ret tt).
Proof. reflexivity. Qed.

(** What a worker's critical section does to the node. *)
Lemma dequeue_effect cfg pool prio s s' :
  apply_action cfg (Dequeue pool prio) s = Some s' ->
  _s_task_signatures (sys_registry s') = _s_task_signatures (sys_registry s)
  /\ (forall kind, total_by_kind (sys_registry s') kind = total_by_kind (sys_registry s) kind)
  /\ in_system s' ≡ₚ in_system s
  /\ exists job, sys_busy s' = sys_busy s ++ [(pool, job)] /\ holds_own_job cfg (pool, job).
Proof.
  cbn [apply_action].
  destruct (callback_dequeue _ _ _ _) as [[job w]|] eqn:Hdeq; [|discriminate].
  intros [= <-].
  pose proof (dequeue_holds_own_job _ _ _ _ _ _ Hdeq) as Hown.
  apply dequeue_frame in Hdeq as (Hs & Hk & Hperm). cbn [world_of registry _tasks] in *.
  split; [exact Hs|]. split; [exact Hk|]. split; [|exists job; split; [reflexivity|exact Hown]].
  rewrite in_system_with_world, (in_system_split s pool), Hperm.
  unfold busy_tasks. rewrite flat_map_app. cbn [flat_map snd].
  rewrite app_nil_r, <- !app_assoc.
  rewrite (Permutation_app_comm (job_tasks job)). rewrite <- !app_assoc.
  apply Permutation_app_head, Permutation_app_head. reflexivity.
Qed.

(** What the rest of a worker's loop body does to the node. *)
Lemma execute_effect cfg n env s s' :
  apply_action cfg (Execute n env) s = Some s' ->
  exists pool job,
    sys_busy s !! n = Some (pool, job)
    /\ sys_busy s' = delete n (sys_busy s)
    /\ in_system s ≡ₚ job_tasks job ++ in_system s'
    /\ sys_registry s'
       = release_job (snd (start cfg pool)) job
           (if successful_create_alter_push env (snd (start cfg pool)) job
            then bump_report_version (sys_registry s) else sys_registry s).
Proof.
  cbn [apply_action].
  destruct (sys_busy s !! n) as [[pool job]|] eqn:Hbusy; [|discriminate].
  intros [= <-]. exists pool, job.
  split; [reflexivity|]. split; [reflexivity|]. split.
  - rewrite in_system_with_world, (in_system_split s pool), body_tasks.
    cbn [world_of _tasks].
    assert (Hperm : busy_tasks (sys_busy s)
                    ≡ₚ job_tasks job ++ busy_tasks (delete n (sys_busy s))).
    { unfold busy_tasks. rewrite (delete_Permutation _ _ _ Hbusy) at 1. reflexivity. }
    rewrite Hperm.
    set (queued := sys_tasks s pool).
    set (others := flat_map (sys_tasks s) (filter (fun p => p <> pool) all_pools)).
    rewrite !app_assoc. apply Permutation_app_tail.
    rewrite (Permutation_app_comm (queued ++ others) (job_tasks job)).
    rewrite app_assoc. reflexivity.
  - cbn [with_world sys_registry]. rewrite body_registry. reflexivity.
Qed.

Lemma apply_move_invariant cfg m node node' :
  apply_move cfg m node = Some node' ->
  node_invariant cfg node -> node_invariant cfg node'.
Proof.
  unfold node_invariant, submitting_tasks. cbn zeta.
  destruct node as [s submitting]. cbn [node_system node_submitting].
  destruct m as [pool task|n|pool prio|n env]; cbn [apply_move node_system node_submitting].
  - unfold submit_task_record, record_task_info, bind, get_registry, put_registry, emit, ret.
    cbn [world_of registry _tasks trace fst snd].
    set (user := match resource_info task with Some u => u | None => ""%string end).
    destruct (decide (signature task ∈ live (sys_registry s) (task_type task)))
      as [Hdup|Hfresh].
    + rewrite (record_duplicate _ _ user _ Hdup). cbn [fst snd].
      intros [= <-]. cbn [node_system node_submitting with_world sys_registry sys_busy].
      intros (Hcons & Htracked & Hbusy).
      assert (Hperm : in_system s ++ submitting.*2
                      ≡ₚ in_system
                           (with_world s pool
                              {| registry := sys_registry s; _tasks := sys_tasks s pool;
                                 trace := sys_trace s
                                          ++ [EvRecordTaskInfo (task_type task)
                                                (signature task) user false] |}
                              (sys_busy s)) ++ submitting.*2).
      { apply Permutation_app_tail.
        rewrite in_system_with_world, (in_system_split s pool). reflexivity. }
      split; [eapply consistent_perm; [exact Hperm|exact Hcons]|].
      split; [eapply tracked_perm; [exact Hperm|exact Htracked]|exact Hbusy].
    + destruct (_record_task_info _ _ user _) as [inserted reg'] eqn:Hrecord.
      pose proof (record_result (task_type task) (signature task) user (sys_registry s))
        as Hresult.
      rewrite Hrecord in Hresult. cbn [fst] in Hresult.
      rewrite (bool_decide_eq_false_2 _ Hfresh) in Hresult. cbn [negb] in Hresult.
      subst inserted. cbn [fst snd].
      intros [= <-]. cbn [node_system node_submitting with_world sys_registry sys_busy].
      intros (Hcons & Htracked & Hbusy).
      assert (Hreg : reg' = (_record_task_info (task_type task) (signature task) user
                               (sys_registry s)).2)
        by (rewrite Hrecord; reflexivity).
      rewrite Hreg.
      match goal with
      | |- consistent _ ?l /\ _ =>
          assert (Hperm : task :: (in_system s ++ submitting.*2) ≡ₚ l)
      end.
      { rewrite fmap_app. cbn [fmap list_fmap snd].
        rewrite in_system_with_world, <- (in_system_split s pool).
        cbn [_tasks]. rewrite app_assoc. rewrite <- Permutation_cons_append. reflexivity. }
      split; [eapply consistent_perm;
                [exact Hperm|apply (consistent_record _ _ task user Hcons Hfresh)]|].
      split; [eapply tracked_perm;
                [exact Hperm|apply (tracked_record _ _ task user Htracked)]|exact Hbusy].
  - destruct (submitting !! n) as [[pool task]|] eqn:Hlook; [|discriminate].
    intros [= <-]. cbn [node_system node_submitting with_world sys_registry sys_busy].
    unfold submit_task_push, exec, bind, put_tasks, emit.
    cbn [world_of registry _tasks trace fst snd].
    intros (Hcons & Htracked & Hbusy).
    match goal with
    | |- consistent _ ?l /\ _ =>
        assert (Hperm : in_system s ++ submitting.*2 ≡ₚ l)
    end.
    { rewrite in_system_with_world, (in_system_split s pool). cbn [_tasks].
      assert (Hsub : submitting.*2 ≡ₚ task :: (delete n submitting).*2).
      { rewrite (delete_Permutation _ _ _ Hlook) at 1. reflexivity. }
      rewrite Hsub.
      set (queued := sys_tasks s pool).
      set (others := flat_map (sys_tasks s) (filter (fun p => p <> pool) all_pools)
                     ++ busy_tasks (sys_busy s)).
      set (pending := (delete n submitting).*2).
      rewrite <- !app_assoc. apply Permutation_app_head.
      cbn [app]. rewrite <- Permutation_middle. reflexivity. }
    split; [eapply consistent_perm; [exact Hperm|exact Hcons]|].
    split; [eapply tracked_perm; [exact Hperm|exact Htracked]|exact Hbusy].
  - destruct (apply_action cfg (Dequeue pool prio) s) as [s'|] eqn:Hdeq; [|discriminate].
    cbn [fmap option_fmap option_map]. intros [= <-].
    cbn [on_system node_system node_submitting].
    apply dequeue_effect in Hdeq as (Hs & Hk & Hperm & job & Hjob & Hown).
    intros (Hcons & Htracked & Hbusy).
    split; [|split].
    + apply (consistent_same (sys_registry s)); [exact Hs | exact Hk |].
      eapply consistent_perm; [|exact Hcons]. rewrite Hperm. reflexivity.
    + apply (tracked_same (sys_registry s)); [exact Hs|].
      eapply tracked_perm; [|exact Htracked]. rewrite Hperm. reflexivity.
    + rewrite Hjob. apply Forall_app. split; [exact Hbusy|].
      apply Forall_cons. split; [exact Hown|apply Forall_nil_2].
  - destruct (apply_action cfg (Execute n env) s) as [s'|] eqn:Hexec; [|discriminate].
    cbn [fmap option_fmap option_map]. intros [= <-].
    cbn [on_system node_system node_submitting].
    apply execute_effect in Hexec as (pool & job & Hlook & Hbusy' & Hperm & Hreg).
    intros (Hcons & Htracked & Hbusy).
    pose proof (proj1 (Forall_lookup _ _) Hbusy n (pool, job) Hlook) as Hown.
    unfold holds_own_job in Hown. cbn [fst snd] in Hown.
    assert (Hperm' : in_system s ++ submitting.*2
                     ≡ₚ job_tasks job ++ (in_system s' ++ submitting.*2)).
    { rewrite Hperm, <- app_assoc. reflexivity. }
    apply (consistent_perm _ _ _ Hperm') in Hcons.
    apply (tracked_perm _ _ _ Hperm') in Htracked.
    rewrite Hreg, Hbusy'. unfold release_job.
    split; [|split; [|apply Forall_delete; exact Hbusy]].
    + destruct (task_of_job _ job) as [[t user]|] eqn:Hjob.
      * rewrite (task_of_job_tasks _ _ _ _ Hjob) in Hcons. cbn [app] in Hcons.
        apply consistent_remove. apply consistent_bump. exact Hcons.
      * apply consistent_bump. eapply consistent_drop. exact Hcons.
    + destruct (task_of_job _ job) as [[t user]|] eqn:Hjob.
      * rewrite (task_of_job_tasks _ _ _ _ Hjob) in Htracked. cbn [app] in Htracked.
        apply tracked_remove. apply tracked_bump. exact Htracked.
      * rewrite Hown in Htracked. cbn [app] in Htracked.
        apply tracked_bump. exact Htracked.
Qed.

Lemma node_reachable_invariant cfg now node :
  node_reachable cfg now node -> node_invariant cfg node.
Proof.
  unfold node_reachable. intros Hreach.
  apply rtc_nsteps in Hreach as [n Hsteps].
  revert node Hsteps. induction n as [|n IH]; intros node Hsteps.
  - inversion Hsteps; subst. unfold node_invariant, submitting_tasks. cbn.
    split; [apply consistent_init|]. split; [|apply Forall_nil_2].
    intros kind sig Hlive. unfold live in Hlive. cbn in Hlive.
    rewrite at_empty in Hlive. apply not_elem_of_empty in Hlive. contradiction.
  - apply nsteps_inv_r in Hsteps as (node1 & Hsteps & [m Hm]).
    eapply apply_move_invariant; [exact Hm|]. apply IH. exact Hsteps.
Qed.

Lemma play_rtc cfg moves node node' :
  play cfg moves node = Some node' -> rtc (node_step cfg) node node'.
Proof.
  revert node. induction moves as [|m moves IH]; intros node; cbn [play].
  - intros [= <-]. apply rtc_refl.
  - destruct (apply_move cfg m node) as [node1|] eqn:Hm; [|discriminate].
    intros Hplay. eapply rtc_l; [exists m; exact Hm | apply IH; exact Hplay].
Qed.

Lemma node_after_reachable moves :
  match play Sample.cfg moves (node_init 0) with Some _ => True | None => False end ->
  node_reachable Sample.cfg 0 (node_after moves).
Proof.
  unfold node_after.
  destruct (play Sample.cfg moves (node_init 0)) as [node|] eqn:Hplay; [|contradiction].
  intros _. apply (play_rtc _ moves). exact Hplay.
Qed.

(** The live signatures of a reachable node are those of the tasks that are
    queued, held by a busy worker, or held by a submitter between its two
    critical sections. *)
Lemma live_iff_in_node cfg now node kind sig :
  node_reachable cfg now node ->
  sig ∈ live (sys_registry (node_system node)) kind
  <-> exists t,
        (t ∈ in_system (node_system node) \/ t ∈ submitting_tasks node)
        /\ task_type t = kind /\ signature t = sig.
Proof.
  intros Hreach. apply node_reachable_invariant in Hreach as ((_ & Hlive & _) & Htracked & _).
  split.
  - intros Hin. apply Htracked in Hin. apply list_elem_of_fmap in Hin as (t & Hkey & Hin).
    exists t. unfold task_key in Hkey. injection Hkey as -> ->.
    apply elem_of_app in Hin. auto.
  - intros (t & Hin & <- & <-). apply Hlive. apply elem_of_app. exact Hin.
Qed.

(** A submission whose two critical sections follow each other without
    another thread in between is the submission of [apply_action]. *)
Lemma submit_is_record_then_push cfg pool task node s' :
  apply_action cfg (Submit pool task) (node_system node) = Some s' ->
  exists moves node',
    play cfg moves node = Some node'
    /\ node_submitting node' = node_submitting node
    /\ sys_registry (node_system node') = sys_registry s'
    /\ (forall p, sys_tasks (node_system node') p = sys_tasks s' p)
    /\ sys_busy (node_system node') = sys_busy s'
    /\ sys_trace (node_system node') = sys_trace s'.
Proof.
  destruct node as [s submitting]. cbn [apply_action node_system node_submitting].
  intros [= <-]. rewrite submit_task_run. cbn zeta.
  cbn [world_of registry _tasks trace with_world sys_registry sys_tasks sys_busy sys_trace].
  set (user := match resource_info task with Some u => u | None => ""%string end).
  destruct (_record_task_info (task_type task) (signature task) user (sys_registry s))
    as [inserted reg'] eqn:Hrecord.
  assert (Hfirst : submit_task_record task (world_of s pool)
                   = (inserted,
                      {| registry := reg'; _tasks := sys_tasks s pool;
                         trace := sys_trace s
                                  ++ [EvRecordTaskInfo (task_type task) (signature task)
                                        user inserted] |})).
  { unfold submit_task_record, record_task_info, bind, get_registry, put_registry, emit, ret.
    cbn [world_of registry _tasks trace fst snd]. fold user. rewrite Hrecord. reflexivity. }
  cbn [fst snd]. destruct inserted.
  - exists [SubmitRecord pool task; SubmitPush (length submitting)].
    eexists. cbn [play apply_move node_system node_submitting]. rewrite Hfirst.
    cbn [play apply_move node_system node_submitting].
    rewrite lookup_app_r by lia. rewrite Nat.sub_diag. cbn [lookup list_lookup].
    split; [reflexivity|]. cbn [node_system node_submitting].
    split.
    { rewrite (delete_middle submitting [] (pool, task)). apply app_nil_r. }
    unfold submit_task_push, exec, bind, put_tasks, emit.
    cbn [world_of with_world registry _tasks trace fst snd sys_registry sys_tasks sys_busy
         sys_trace].
    split; [reflexivity|]. split; [|split; [reflexivity|]].
    + intros p. destruct (decide (p = pool)) as [->|Hne]; [|reflexivity].
      destruct (decide (pool = pool)); [reflexivity|contradiction].
    + rewrite <- app_assoc. reflexivity.
  - exists [SubmitRecord pool task].
    eexists. cbn [play apply_move node_system node_submitting]. rewrite Hfirst.
    split; [reflexivity|]. cbn [node_system node_submitting with_world sys_registry
                                  sys_tasks sys_busy sys_trace registry _tasks trace].
    split; [reflexivity|]. split; [reflexivity|]. split; [reflexivity|].
    split; [reflexivity|]. rewrite app_nil_r. reflexivity.
Qed.

(** X9. In every state the node can reach, submissions in progress
    included, the signature registry holds exactly the tasks the node has:
    a (kind, signature) pair is live if and only if a task with that pair is
    queued in a pool, held by a busy worker, or held by a submitter that
    recorded it and has not pushed it yet. *)
Theorem registry_tracks_tasks_in_system (cfg : Config) (now : Z) (node : Node) :
  node_reachable cfg now node ->
  forall kind sig,
    sig ∈ live (sys_registry (node_system node)) kind
    <-> exists t,
          (t ∈ in_system (node_system node) \/ t ∈ submitting_tasks node)
          /\ task_type t = kind /\ signature t = sig.
Proof.
  intros Hreach kind sig. apply (live_iff_in_node cfg now node kind sig Hreach).
Qed.

Lemma registry_tracks_tasks_in_system_witness :
  let t := Sample.task TTaskType.CLONE 4 None None in
  let u := Sample.task TTaskType.CLONE 5 None None in
  let node := node_after [SubmitRecord TaskWorkerType.CLONE t;
                          SubmitRecord TaskWorkerType.CLONE u;
                          SubmitPush 1] in
  node_reachable Sample.cfg 0 node
  /\ in_system (node_system node) = [u]
  /\ submitting_tasks node = [t]
  /\ (4 ∈ live (sys_registry (node_system node)) TTaskType.CLONE
      <-> exists t', (t' ∈ in_system (node_system node) \/ t' ∈ submitting_tasks node)
                     /\ task_type t' = TTaskType.CLONE /\ signature t' = 4).
Proof.
  intros t u node.
  assert (Hreach : node_reachable Sample.cfg 0 node)
    by (apply node_after_reachable; vm_compute; exact I).
  split; [exact Hreach|]. split; [vm_compute; reflexivity|].
  split; [vm_compute; reflexivity|].
  apply (registry_tracks_tasks_in_system Sample.cfg 0 node Hreach).
Defined.

(** X10. No signature is leaked: once nothing is queued, no worker is busy
    and no submission is in progress, every live set is empty and every
    per-kind total is zero, whatever was submitted and however the
    collaborators answered. *)
Theorem drained_node_has_empty_registry (cfg : Config) (now : Z) (node : Node) :
  node_reachable cfg now node ->
  node_drained node ->
  forall kind,
    live (sys_registry (node_system node)) kind = ∅
    /\ total_by_kind (sys_registry (node_system node)) kind = 0.
Proof.
  intros Hreach [[Hqueues Hbusy] Hsubmitting] kind.
  assert (Hnone : in_system (node_system node) = []).
  { unfold in_system. rewrite Hbusy. cbn [busy_tasks flat_map]. rewrite app_nil_r.
    induction all_pools as [|pool pools IH]; [reflexivity|].
    cbn [flat_map]. rewrite Hqueues, IH. reflexivity. }
  assert (Hlive : forall kind', live (sys_registry (node_system node)) kind' = ∅).
  { intros kind'. apply set_eq. intros sig. split.
    - intros Hin. apply (live_iff_in_node cfg now node kind' sig Hreach) in Hin.
      destruct Hin as (t & Hin & _). unfold submitting_tasks in Hin.
      rewrite Hnone, Hsubmitting in Hin.
      destruct Hin as [Hin|Hin]; apply elem_of_nil in Hin; contradiction.
    - intros Hin. apply not_elem_of_empty in Hin. contradiction. }
  split; [apply Hlive|].
  apply node_reachable_invariant in Hreach as ((_ & _ & Htotal & Hother) & _).
  destruct (decide (kind = TTaskType.PUSH)) as [->|Hne]; [|apply Hother; exact Hne].
  rewrite Htotal, Hlive. reflexivity.
Qed.

Lemma drained_node_has_empty_registry_witness :
  let t := Sample.task TTaskType.PUSH 1 None (Some "alice"%string) in
  let node := node_after [SubmitRecord TaskWorkerType.PUSH t;
                          SubmitPush 0;
                          WorkerDequeue TaskWorkerType.PUSH TPriority.NORMAL;
                          WorkerExecute 0 Sample.env] in
  node_reachable Sample.cfg 0 node
  /\ node_drained node
  /\ live (sys_registry (node_system node)) TTaskType.PUSH = ∅
  /\ total_by_kind (sys_registry (node_system node)) TTaskType.PUSH = 0.
Proof.
  intros t node.
  assert (Hreach : node_reachable Sample.cfg 0 node)
    by (apply node_after_reachable; vm_compute; exact I).
  assert (Hdrained : node_drained node)
    by (split; [split; [intros []|]|]; vm_compute; reflexivity).
  split; [exact Hreach|]. split; [exact Hdrained|].
  apply (drained_node_has_empty_registry Sample.cfg 0 node Hreach Hdrained TTaskType.PUSH).
Defined.

(** X11. The report of the task worker in a reachable state of the node,
    submissions in progress included: it is sent whether or not a heartbeat
    was received, it changes neither the registry nor the queue, and the
    signatures it lists are exactly those of the tasks that are queued in a
    pool, held by a busy worker, or recorded by a submitter that has not
    pushed them yet. *)
Theorem task_report_lists_tasks_in_system (cfg : Config) (env : Env) (now : Z)
    (node : Node) (pool : TaskWorkerType.type) :
  node_reachable cfg now node ->
  let w := world_of (node_system node) pool in
  let w' := exec (_report_task_body cfg env) w in
  registry w' = registry w /\ _tasks w' = _tasks w
  /\ exists request reported,
       new_events w w'
       = [EvReport request; EvSleep (report_task_interval_seconds cfg)]
       /\ rep_tasks request = Some reported
       /\ rep_backend request = Some (backend env)
       /\ rep_force_recovery request = Some (force_recovery cfg)
       /\ rep_report_version request = None
       /\ rep_tablets request = None
       /\ rep_disks request = None
       /\ forall kind sig,
            sig ∈ at_ ∅ reported kind
            <-> exists t,
                  (t ∈ in_system (node_system node) \/ t ∈ submitting_tasks node)
                  /\ task_type t = kind /\ signature t = sig.
Proof.
  intros Hreach w w'. unfold w', w, _report_task_body, exec, bind, get_registry, emit.
  cbn [world_of registry _tasks trace fst snd].
  split; [reflexivity|]. split; [reflexivity|].
  eexists _, (_s_task_signatures (sys_registry (node_system node))).
  split; [unfold new_events; cbn [trace]; rewrite <- app_assoc; apply drop_app_length|].
  cbn [rep_tasks rep_backend rep_force_recovery rep_report_version rep_tablets rep_disks
       report_request_base].
  repeat (split; [reflexivity|]).
  intros kind sig. apply (live_iff_in_node cfg now node kind sig Hreach).
Qed.

Lemma task_report_lists_tasks_in_system_witness :
  let t := Sample.task TTaskType.CLONE 4 None None in
  let node := node_after [SubmitRecord TaskWorkerType.CLONE t] in
  let w := world_of (node_system node) TaskWorkerType.REPORT_TASK in
  let w' := exec (_report_task_body Sample.cfg Sample.env) w in
  node_reachable Sample.cfg 0 node
  /\ sys_tasks (node_system node) TaskWorkerType.CLONE = []
  /\ submitting_tasks node = [t]
  /\ exists request reported,
       new_events w w' = [EvReport request; EvSleep 10]
       /\ rep_tasks request = Some reported
       /\ 4 ∈ at_ ∅ reported TTaskType.CLONE.
Proof.
  intros t node w w'.
  assert (Hreach : node_reachable Sample.cfg 0 node)
    by (apply node_after_reachable; vm_compute; exact I).
  assert (Hsubmitting : submitting_tasks node = [t]) by (vm_compute; reflexivity).
  split; [exact Hreach|]. split; [vm_compute; reflexivity|]. split; [exact Hsubmitting|].
  destruct (task_report_lists_tasks_in_system Sample.cfg Sample.env 0 node
              TaskWorkerType.REPORT_TASK Hreach)
    as (_ & _ & request & reported & Hevents & Htasks & _ & _ & _ & _ & _ & Hlisted).
  exists request, reported. split; [exact Hevents|]. split; [exact Htasks|].
  apply Hlisted. exists t. split; [|split; reflexivity].
  right. rewrite Hsubmitting. apply list_elem_of_singleton. reflexivity.
Defined.

(** X28.  Whenever the selector computes a task's total rate in a
    reachable state of the node, submissions in progress included, the
    divisor is the total of the task's kind, and for a PUSH task it is
    nonzero: admission incremented it before the task was enqueued, and the
    release decrements it only after the task left the queue (fewer than
    2^32 PUSH signatures are live). *)
Theorem push_rate_divisor_nonzero (cfg : Config) (now : Z) (node : Node)
    (pool : TaskWorkerType.type) (thread_count : Z) (prio : TPriority.type) :
  node_reachable cfg now node ->
  let s := node_system node in
  Z.of_nat (size (live (sys_registry s) TTaskType.PUSH)) < 2 ^ 32 ->
  forall kind sig divisor,
    (kind, sig, divisor)
      ∈ rate_divisors (selector_log thread_count (sys_tasks s pool) prio (sys_registry s)) ->
    divisor = total_by_kind (sys_registry s) kind
    /\ (kind = TTaskType.PUSH -> divisor <> 0).
Proof.
  intros Hreach s Hsize kind sig divisor Hin.
  apply node_reachable_invariant in Hreach as ((_ & Hlive & Htotal & _) & _).
  fold s in Hlive, Htotal.
  unfold selector_log in Hin.
  destruct (_get_next_task_index _ _ _ _) as [[[returned reg'] log]|] eqn:Hnext;
    [|apply elem_of_nil in Hin; contradiction].
  apply get_next_task_index_frame in Hnext as (_ & _ & _ & _ & Hrates).
  destruct (Hrates kind sig divisor Hin) as (-> & task & Hqueued & Hkey).
  split; [reflexivity|].
  intros ->. rewrite Htotal.
  assert (Hlive' : signature task ∈ live (sys_registry s) (task_type task)).
  { apply Hlive. apply elem_of_app. left. apply (queued_in_system s pool). exact Hqueued. }
  unfold task_key in Hkey. injection Hkey as Hk Hs. rewrite Hk in Hlive'.
  assert (Hpos : size (live (sys_registry s) TTaskType.PUSH) <> 0%nat).
  { intros Hzero. apply size_empty_inv in Hzero.
    apply (not_elem_of_empty (C:=gset Z) (signature task)).
    apply Hzero. exact Hlive'. }
  rewrite wrap_uint32_small by lia. lia.
Qed.

Lemma push_rate_divisor_nonzero_witness :
  let t := Sample.task TTaskType.PUSH 1 None (Some "alice"%string) in
  let u := Sample.task TTaskType.PUSH 2 None (Some "bob"%string) in
  let node := node_after [SubmitRecord TaskWorkerType.PUSH t;
                          SubmitRecord TaskWorkerType.PUSH u;
                          SubmitPush 0] in
  let s := node_system node in
  node_reachable Sample.cfg 0 node
  /\ Z.of_nat (size (live (sys_registry s) TTaskType.PUSH)) < 2 ^ 32
  /\ sys_tasks s TaskWorkerType.PUSH = [t]
  /\ submitting_tasks node = [u]
  /\ rate_divisors
       (selector_log 3 (sys_tasks s TaskWorkerType.PUSH) TPriority.NORMAL (sys_registry s))
     = [(TTaskType.PUSH, 1, 2)]
  /\ (2 : Z) <> 0.
Proof.
  intros t u node s.
  assert (Hreach : node_reachable Sample.cfg 0 node)
    by (apply node_after_reachable; vm_compute; exact I).
  assert (Hsize : Z.of_nat (size (live (sys_registry s) TTaskType.PUSH)) < 2 ^ 32)
    by (vm_compute; reflexivity).
  assert (Hlog : rate_divisors
                   (selector_log 3 (sys_tasks s TaskWorkerType.PUSH) TPriority.NORMAL
                      (sys_registry s))
                 = [(TTaskType.PUSH, 1, 2)])
    by (vm_compute; reflexivity).
  split; [exact Hreach|]. split; [exact Hsize|].
  split; [vm_compute; reflexivity|]. split; [vm_compute; reflexivity|].
  split; [exact Hlog|].
  apply (push_rate_divisor_nonzero Sample.cfg 0 node TaskWorkerType.PUSH 3 TPriority.NORMAL
           Hreach Hsize TTaskType.PUSH 1 2).
  - fold s. rewrite Hlog. apply elem_of_cons. left. reflexivity.
  - reflexivity.
Defined.

(** ** Kinds without totals *)

Lemma dequeue_total_by_user cfg callback prio w job w' :
  callback_dequeue cfg callback prio w = Some (job, w') ->
  forall kind user,
    total_by_user (registry w') kind user = total_by_user (registry w) kind user.
Proof.
  destruct callback; cbn [callback_dequeue]; unfold pop_front;
    try (destruct (_tasks w); [discriminate|]; intros [= <- <-]; reflexivity);
    try (intros [= <- <-]; reflexivity).
  intros Hdeq. apply push_dequeue_frame in Hdeq as (_ & _ & _ & Hu & _). exact Hu.
Qed.

Lemma apply_action_no_totals cfg a s s' :
  apply_action cfg a s = Some s' ->
  no_totals_outside_push (sys_registry s) -> no_totals_outside_push (sys_registry s').
Proof.
  destruct a as [pool task|pool prio|n env]; cbn [apply_action].
  - intros [= <-] Hnone kind user Hkind.
    cbn [with_world sys_registry]. rewrite submit_task_run. cbn zeta.
    cbn [world_of registry]. rewrite total_by_user_record.
    destruct (decide _) as [(Hpush & _ & -> & _)|_]; [contradiction|].
    apply Hnone. exact Hkind.
  - destruct (callback_dequeue _ _ _ _) as [[job w]|] eqn:Hdeq; [|discriminate].
    intros [= <-] Hnone kind user Hkind. cbn [with_world sys_registry].
    rewrite (dequeue_total_by_user _ _ _ _ _ _ Hdeq). apply Hnone. exact Hkind.
  - destruct (sys_busy s !! n) as [[pool job]|]; [|discriminate].
    intros [= <-] Hnone kind user Hkind. cbn [with_world sys_registry].
    rewrite body_registry. cbn [world_of registry]. unfold release_job.
    assert (Hbump : total_by_user
                      (if successful_create_alter_push env (snd (start cfg pool)) job
                       then bump_report_version (sys_registry s) else sys_registry s)
                      kind user = 0)
      by (destruct (successful_create_alter_push _ _ _); apply Hnone; exact Hkind).
    destruct (task_of_job _ job) as [[t u]|]; [|exact Hbump].
    rewrite total_by_user_remove.
    destruct (decide _) as [(Hpush & -> & _)|_]; [contradiction | exact Hbump].
Qed.

Lemma reachable_no_totals cfg now s :
  reachable cfg now s -> no_totals_outside_push (sys_registry s).
Proof.
  unfold reachable. intros Hreach.
  apply rtc_nsteps in Hreach as [n Hsteps].
  revert s Hsteps. induction n as [|n IH]; intros s Hsteps.
  - inversion Hsteps; subst. intros kind user _. apply at2_empty.
  - apply nsteps_inv_r in Hsteps as (s1 & Hsteps & [a Ha]).
    eapply apply_action_no_totals; [exact Ha|]. apply IH. exact Hsteps.
Qed.

Lemma float_le_nan_r (x : spec_float) : float_le x S754_nan = false.
Proof. destruct x; reflexivity. Qed.

(** X12. For a task of a kind other than PUSH (the REALTIME_PUSH and DELETE
    pools run the selector too) both totals the selector divides are zero in
    every reachable state, so the user's total rate is 0.0 / 0 = NaN and the
    comparison [user_running_rate <= user_total_rate] is false whatever the
    running count and the thread count: such a task is only chosen by the
    scan when its user runs nothing. *)
Theorem rate_test_fails_outside_push (cfg : Config) (now : Z) (s : System)
    (kind : TTaskType.type) (user : string) (thread_count : Z) :
  reachable cfg now s ->
  kind <> TTaskType.PUSH ->
  let reg := sys_registry s in
  total_by_user reg kind user = 0
  /\ total_by_kind reg kind = 0
  /\ user_total_rate (total_by_user reg kind user) (total_by_kind reg kind) = S754_nan
  /\ float_le (user_running_rate (running_by_user reg kind user) thread_count)
       (user_total_rate (total_by_user reg kind user) (total_by_kind reg kind))
     = false.
Proof.
  intros Hreach Hkind reg.
  assert (Huser : total_by_user reg kind user = 0)
    by (apply (reachable_no_totals cfg now s Hreach); exact Hkind).
  assert (Htotal : total_by_kind reg kind = 0).
  { apply reachable_consistent in Hreach as (_ & _ & _ & Hother). apply Hother. exact Hkind. }
  split; [exact Huser|]. split; [exact Htotal|].
  rewrite Huser, Htotal.
  assert (Hnan : user_total_rate 0 0 = S754_nan) by (vm_compute; reflexivity).
  rewrite Hnan. split; [reflexivity | apply float_le_nan_r].
Qed.

Lemma rate_test_fails_outside_push_witness :
  let t := Sample.task TTaskType.DELETE 1 None (Some "alice"%string) in
  let s := Sample.after [Submit TaskWorkerType.DELETE t] in
  reachable Sample.cfg 0 s
  /\ TTaskType.DELETE <> TTaskType.PUSH
  /\ float_le (user_running_rate
                 (running_by_user (sys_registry s) TTaskType.DELETE "alice") 3)
       (user_total_rate (total_by_user (sys_registry s) TTaskType.DELETE "alice")
          (total_by_kind (sys_registry s) TTaskType.DELETE))
     = false.
Proof.
  intros t s.
  assert (Hreach : reachable Sample.cfg 0 s)
    by (apply after_reachable; vm_compute; exact I).
  assert (Hkind : TTaskType.DELETE <> TTaskType.PUSH) by discriminate.
  split; [exact Hreach|]. split; [exact Hkind|].
  destruct (rate_test_fails_outside_push Sample.cfg 0 s TTaskType.DELETE "alice" 3
              Hreach Hkind) as (_ & _ & _ & Hle).
  exact Hle.
Defined.

(** ** Queue order *)

(** X13. A submission of a signature that is not live: the task is appended
    at the back of the queue of the pool it is submitted to, the condition
    variable is notified once, the (kind, signature) pair becomes live, and
    for kind PUSH the total of the kind and the total of the task's user
    (the empty string without [resource_info]) are incremented.  The other
    queues, the busy workers, the running counts and the report version are
    untouched. *)
Theorem fresh_submission_is_queued_last (cfg : Config) (s : System)
    (pool : TaskWorkerType.type) (task : TAgentTaskRequest) :
  signature task ∉ live (sys_registry s) (task_type task) ->
  exists s',
    apply_action cfg (Submit pool task) s = Some s'
    /\ sys_tasks s' pool = sys_tasks s pool ++ [task]
    /\ (forall pool', pool' <> pool -> sys_tasks s' pool' = sys_tasks s pool')
    /\ sys_busy s' = sys_busy s
    /\ sys_trace s'
       = sys_trace s
         ++ [EvRecordTaskInfo (task_type task) (signature task) (task_user task) true;
             EvNotify]
    /\ (forall kind sig,
          sig ∈ live (sys_registry s') kind
          <-> (kind = task_type task /\ sig = signature task)
              \/ sig ∈ live (sys_registry s) kind)
    /\ (forall kind,
          total_by_kind (sys_registry s') kind =
          if decide (task_type task = TTaskType.PUSH /\ kind = TTaskType.PUSH)
          then wrap_uint32 (total_by_kind (sys_registry s) kind + 1)
          else total_by_kind (sys_registry s) kind)
    /\ (forall kind user,
          total_by_user (sys_registry s') kind user =
          if decide (task_type task = TTaskType.PUSH /\ kind = TTaskType.PUSH
                     /\ user = task_user task)
          then wrap_uint32 (total_by_user (sys_registry s) kind user + 1)
          else total_by_user (sys_registry s) kind user)
    /\ _s_running_task_user_count (sys_registry s')
       = _s_running_task_user_count (sys_registry s)
    /\ _s_report_version (sys_registry s') = _s_report_version (sys_registry s).
Proof.
  intros Hfresh. eexists. split; [reflexivity|].
  cbn [with_world sys_registry sys_tasks sys_busy sys_trace].
  rewrite submit_task_run. cbn zeta. cbn [world_of registry _tasks trace].
  change (match resource_info task with Some u => u | None => ""%string end)
    with (task_user task).
  rewrite record_result, (bool_decide_eq_false_2 _ Hfresh). cbn [negb].
  split; [destruct (decide (pool = pool)); [reflexivity | congruence]|].
  split; [intros pool' Hne; destruct (decide (pool' = pool)); [congruence | reflexivity]|].
  split; [reflexivity|]. split; [reflexivity|].
  split; [|split; [|split; [|split]]].
  - intros kind sig. rewrite live_record.
    destruct (decide (task_type task = kind)) as [<-|Hne].
    + rewrite elem_of_union, elem_of_singleton. split; [intros [->|?]; auto|].
      intros [[_ ->]|?]; auto.
    + split; [auto|]. intros [[-> _]|?]; [congruence | assumption].
  - intros kind. rewrite total_by_kind_record.
    destruct (decide (task_type task = TTaskType.PUSH /\ kind = TTaskType.PUSH))
      as [[Hpush ->]|Hn].
    + destruct (decide _) as [_|Hn]; [reflexivity | exfalso; apply Hn; auto].
    + destruct (decide _) as [(? & ? & _)|_]; [exfalso; apply Hn; auto | reflexivity].
  - intros kind user. rewrite total_by_user_record.
    destruct (decide (task_type task = TTaskType.PUSH /\ kind = TTaskType.PUSH
                      /\ user = task_user task)) as [(Hpush & -> & ->)|Hn].
    + destruct (decide _) as [_|Hn]; [reflexivity | exfalso; apply Hn; auto].
    + destruct (decide _) as [(Hpush & _ & -> & ->)|_]; [|reflexivity].
      exfalso. apply Hn. auto.
  - apply running_by_user_record.
  - apply report_version_record.
Qed.

Lemma fresh_submission_is_queued_last_witness :
  let first := Sample.task TTaskType.CLONE 1 None None in
  let second := Sample.task TTaskType.CLONE 2 None None in
  let s := Sample.after [Submit TaskWorkerType.CLONE first] in
  (signature second ∉ live (sys_registry s) (task_type second))
  /\ exists s',
       apply_action Sample.cfg (Submit TaskWorkerType.CLONE second) s = Some s'
       /\ sys_tasks s' TaskWorkerType.CLONE = [first; second].
Proof.
  intros first second s.
  assert (Hfresh : signature second ∉ live (sys_registry s) (task_type second))
    by (apply (bool_decide_unpack _); vm_compute; exact I).
  split; [exact Hfresh|].
  destruct (fresh_submission_is_queued_last Sample.cfg s TaskWorkerType.CLONE second Hfresh)
    as (s' & Hstep & Hqueue & _).
  exists s'. split; [exact Hstep|]. rewrite Hqueue. reflexivity.
Defined.

(** The critical section of a worker that takes the front of the queue. *)
Lemma takes_front_dequeue cfg callback prio w :
  takes_front callback = true ->
  callback_dequeue cfg callback prio w = pop_front w.
Proof. destruct callback; cbn; intros; reflexivity || discriminate. Qed.

(** X14. The pools other than the push pools serve their queue in order:
    [n] critical sections of workers of such a pool hand out the first [n]
    tasks of the queue, in queue order, one to each worker, and leave the
    rest of the queue, the other queues, the registry and the trace as they
    are; on an empty queue the worker waits. *)
Theorem fifo_pool_serves_in_queue_order (cfg : Config) (pool : TaskWorkerType.type)
    (prio : TPriority.type) (n : nat) (s : System) :
  takes_front (snd (start cfg pool)) = true ->
  (n <= length (sys_tasks s pool))%nat ->
  exists s',
    run cfg (replicate n (Dequeue pool prio)) s = Some s'
    /\ sys_tasks s' pool = drop n (sys_tasks s pool)
    /\ sys_busy s'
       = sys_busy s ++ ((fun t => (pool, Fifo t)) <$> take n (sys_tasks s pool))
    /\ (forall pool', pool' <> pool -> sys_tasks s' pool' = sys_tasks s pool')
    /\ sys_registry s' = sys_registry s
    /\ sys_trace s' = sys_trace s
    /\ (sys_tasks s' pool = [] -> apply_action cfg (Dequeue pool prio) s' = None).
Proof.
  intros Hfront. revert s. induction n as [|n IH]; intros s Hlen.
  - exists s. cbn [replicate run take drop fmap list_fmap]. rewrite app_nil_r.
    repeat (split; [reflexivity || auto|]).
    intros Hempty. cbn [apply_action]. rewrite takes_front_dequeue by exact Hfront.
    unfold pop_front. cbn [world_of _tasks]. rewrite Hempty. reflexivity.
  - destruct (sys_tasks s pool) as [|t rest] eqn:Hqueue; [cbn in Hlen; lia|].
    cbn [length] in Hlen.
    cbn [replicate run apply_action]. rewrite takes_front_dequeue by exact Hfront.
    unfold pop_front. cbn [world_of _tasks]. rewrite Hqueue.
    set (s1 := with_world s pool _ _).
    assert (Hq1 : sys_tasks s1 pool = rest).
    { unfold s1. cbn [with_world sys_tasks _tasks].
      destruct (decide (pool = pool)); [reflexivity | congruence]. }
    destruct (IH s1) as (s' & Hrun & Hq & Hbusy & Hothers & Hreg & Htrace & Hwait);
      [rewrite Hq1; lia|].
    exists s'. split; [exact Hrun|]. rewrite Hq1 in *.
    split; [exact Hq|]. split; [|split; [|split; [|split]]].
    + rewrite Hbusy. unfold s1. cbn [with_world sys_busy take fmap list_fmap].
      rewrite <- app_assoc. reflexivity.
    + intros pool' Hne. rewrite (Hothers pool' Hne). unfold s1.
      cbn [with_world sys_tasks]. destruct (decide (pool' = pool)); [congruence | reflexivity].
    + rewrite Hreg. reflexivity.
    + rewrite Htrace. reflexivity.
    + exact Hwait.
Qed.

Lemma fifo_pool_serves_in_queue_order_witness :
  let clone n := Sample.task TTaskType.CLONE n None None in
  let s := Sample.after [Submit TaskWorkerType.CLONE (clone 1);
                         Submit TaskWorkerType.CLONE (clone 2);
                         Submit TaskWorkerType.CLONE (clone 3)] in
  takes_front (snd (start Sample.cfg TaskWorkerType.CLONE)) = true
  /\ (2 <= length (sys_tasks s TaskWorkerType.CLONE))%nat
  /\ exists s',
       run Sample.cfg (replicate 2 (Dequeue TaskWorkerType.CLONE TPriority.NORMAL)) s
       = Some s'
       /\ sys_tasks s' TaskWorkerType.CLONE = [clone 3]
       /\ sys_busy s' = [(TaskWorkerType.CLONE, Fifo (clone 1));
                         (TaskWorkerType.CLONE, Fifo (clone 2))].
Proof.
  intros clone s.
  assert (Hfront : takes_front (snd (start Sample.cfg TaskWorkerType.CLONE)) = true)
    by reflexivity.
  assert (Hlen : (2 <= length (sys_tasks s TaskWorkerType.CLONE))%nat)
    by (vm_compute; lia).
  split; [exact Hfront|]. split; [exact Hlen|].
  destruct (fifo_pool_serves_in_queue_order Sample.cfg TaskWorkerType.CLONE TPriority.NORMAL
              2 s Hfront Hlen) as (s' & Hrun & Hq & Hbusy & _).
  exists s'. split; [exact Hrun|]. rewrite Hq, Hbusy. split; reflexivity.
Defined.

(** ** The election of the HIGH workers *)

Lemma elect_threads_from cfg (n : nat) (elected : nat) :
  let bound := Z.to_nat (wrap_uint32 (push_worker_count_high_priority cfg)) in
  (elected <= bound)%nat ->
  elect_threads cfg n (Z.of_nat elected)
  = (replicate (n `min` (bound - elected)) TPriority.HIGH
     ++ replicate (n - (bound - elected)) TPriority.NORMAL,
     Z.of_nat (elected + n `min` (bound - elected))).
Proof.
  cbn zeta.
  pose proof (wrap_uint32_range (push_worker_count_high_priority cfg)) as Hrange.
  set (bound := Z.to_nat (wrap_uint32 (push_worker_count_high_priority cfg))).
  assert (Hbound : wrap_uint32 (push_worker_count_high_priority cfg) = Z.of_nat bound)
    by (unfold bound; lia).
  revert elected. induction n as [|n IH]; intros elected Hle.
  - cbn. f_equal. lia.
  - cbn [elect_threads]. unfold elect_priority. rewrite Hbound.
    destruct (Z.ltb_spec (Z.of_nat elected) (Z.of_nat bound)) as [Hlt|Hge].
    + rewrite wrap_uint32_small by lia.
      replace (Z.of_nat elected + 1) with (Z.of_nat (S elected)) by lia.
      rewrite IH by lia.
      replace (S n `min` (bound - elected))%nat
        with (S (n `min` (bound - S elected)))%nat by lia.
      replace (S n - (bound - elected))%nat with (n - (bound - S elected))%nat by lia.
      cbn [replicate app]. f_equal. f_equal. lia.
    + assert (Heq : elected = bound) by lia. subst elected.
      rewrite IH by lia. rewrite Nat.sub_diag, !Nat.min_0_r, !Nat.sub_0_r.
      reflexivity.
Qed.

(** X15. The election at the start of [_push_worker_thread_callback], over
    all the threads that ever run it (the counter is a function-local
    static, shared by the PUSH, REALTIME_PUSH and DELETE pools): of [n]
    threads the first [min n h] are elected HIGH and all later ones NORMAL,
    where [h] is [push_worker_count_high_priority] read as a [uint32_t]. *)
Theorem first_threads_elected_high (cfg : Config) (n : nat) :
  let h := Z.to_nat (wrap_uint32 (push_worker_count_high_priority cfg)) in
  elect_threads cfg n 0
  = (replicate (n `min` h) TPriority.HIGH ++ replicate (n - h) TPriority.NORMAL,
     Z.of_nat (n `min` h)).
Proof.
  cbn zeta. pose proof (elect_threads_from cfg n 0) as Hfrom. cbn zeta in Hfrom.
  rewrite Nat.sub_0_r in Hfrom. apply Hfrom. lia.
Qed.

(** ** The finish requests *)

(** The request a callback body hands to [_finish_task]. *)
Lemma body_trace_request cfg env callback job t user w :
  task_of_job callback job = Some (t, user) ->
  exists pre fin,
    trace (exec (callback_body cfg env callback job) w) =
      trace w ++ pre ++ fin ++ [EvRemoveTaskInfo (task_type t) (signature t) user]
    /\ finish_attempts pre = []
    /\ (fin = [] \/
        exists request,
          fin = finish_task_events cfg env (Z.to_nat TASK_FINISH_MAX_RETRY) 0 request
          /\ (if leaves_request_unfilled callback t
              then request = empty_finish_task_request
              else fin_backend request = Some (backend env)
                   /\ fin_task_type request = Some (task_type t)
                   /\ fin_signature request = Some (signature t)
                   /\ is_Some (fin_task_status request))
          /\ fin_report_version request
             = (if sets_report_version callback t
                then Some (_s_report_version
                             (registry (exec (callback_body cfg env callback job) w)))
                else None)).
Proof.
  destruct w as [reg q tr].
  destruct callback, job; cbn [callback_body task_of_job]; try discriminate.
  all: intros [= <- <-].
  all: unfold_bodies; run_m; rewrite <- ?app_assoc.
  all: split_trace; (split; [reflexivity|]); (split; [assumption || reflexivity|]).
  all: try (left; reflexivity).
  all: right; eexists; (split; [reflexivity|]).
  all: rewrite ?report_version_remove.
  all: cbn [leaves_request_unfilled sets_report_version].
  all: try match goal with H : task_type _ = _ |- _ => rewrite H end.
  all: cbn; repeat split; eauto.
  all: exfalso; intuition congruence.
Qed.

(** From the shape of a trace to the requests of its finish attempts. *)
Lemma attempts_of_trace cfg env w w' kind sig user (Q : TFinishTaskRequest -> Prop) :
  (exists pre fin,
     trace w' = trace w ++ pre ++ fin ++ [EvRemoveTaskInfo kind sig user]
     /\ finish_attempts pre = []
     /\ (fin = [] \/
         exists request,
           fin = finish_task_events cfg env (Z.to_nat TASK_FINISH_MAX_RETRY) 0 request
           /\ Q request)) ->
  forall n r, (n, r) ∈ finish_attempts (new_events w w') -> Q r.
Proof.
  intros (pre & fin & Htrace & Hpre & Hfin) n r Hin.
  rewrite (new_events_app _ _ _ Htrace) in Hin.
  unfold finish_attempts in Hin, Hpre. rewrite !omap_app, Hpre in Hin.
  cbn [omap app] in Hin. rewrite app_nil_r in Hin.
  destruct Hfin as [->|(request & -> & HQ)].
  - apply elem_of_nil in Hin. contradiction.
  - destruct (finish_task_events_same_request cfg env request) as [_ Hsame].
    rewrite (Hsame n r Hin). exact HQ.
Qed.

(** X16. Every finish request a callback sends for the task it holds names
    that task: it carries this backend, the kind and the signature of the
    task, and a status.  The one exception is the alter callback given a
    request that is neither a SCHEMA_CHANGE nor a ROLLUP: it sends a
    default-constructed request, with no field set. *)
Theorem finish_request_identifies_task (cfg : Config) (env : Env)
    (callback : CALLBACK_FUNCTION) (job : Job) (t : TAgentTaskRequest)
    (user : string) (w : World) :
  task_of_job callback job = Some (t, user) ->
  forall n r,
    (n, r) ∈ finish_attempts (new_events w (exec (callback_body cfg env callback job) w)) ->
    if leaves_request_unfilled callback t
    then r = empty_finish_task_request
    else fin_backend r = Some (backend env)
         /\ fin_task_type r = Some (task_type t)
         /\ fin_signature r = Some (signature t)
         /\ is_Some (fin_task_status r).
Proof.
  intros Hjob.
  apply (attempts_of_trace cfg env w _ (task_type t) (signature t) user).
  destruct (body_trace_request cfg env callback job t user w Hjob)
    as (pre & fin & Htrace & Hpre & Hfin).
  exists pre, fin. split; [exact Htrace|]. split; [exact Hpre|].
  destruct Hfin as [->|(request & -> & Hid & _)]; [left; reflexivity|].
  right. exists request. auto.
Qed.

Lemma finish_request_identifies_task_witness :
  let t := Sample.task TTaskType.CLONE 5 None None in
  let w := Sample.world 0 [] in
  let w' := exec (callback_body Sample.cfg Sample.env _clone_worker_thread_callback
                    (Fifo t)) w in
  exists r,
    finish_attempts (new_events w w') = [(0, r)]
    /\ fin_backend r = Some (backend Sample.env)
    /\ fin_task_type r = Some TTaskType.CLONE
    /\ fin_signature r = Some 5.
Proof.
  intros t w w'.
  assert (Hsent : exists r, finish_attempts (new_events w w') = [(0, r)])
    by (eexists; vm_compute; reflexivity).
  destruct Hsent as [r Hsent]. exists r. split; [exact Hsent|].
  pose proof (finish_request_identifies_task Sample.cfg Sample.env
                _clone_worker_thread_callback (Fifo t) t "" w eq_refl 0 r) as Hid.
  cbn [leaves_request_unfilled] in Hid.
  destruct Hid as (Hbackend & Hkind & Hsig & _).
  - fold w'. rewrite Hsent. apply list_elem_of_singleton. reflexivity.
  - auto.
Defined.

(** X17. The report version in a finish request.  The create and push
    callbacks, and the alter callback for a SCHEMA_CHANGE or ROLLUP request,
    attach the report version to the finish request, and the value attached
    is the one read after the increment: the counter plus one (modulo 2^64)
    when the engine call succeeded, the counter itself otherwise, which is
    also the value the callback leaves in the counter.  No other callback
    sets the field. *)
Theorem finish_request_carries_report_version (cfg : Config) (env : Env)
    (callback : CALLBACK_FUNCTION) (job : Job) (t : TAgentTaskRequest)
    (user : string) (w : World) :
  task_of_job callback job = Some (t, user) ->
  let w' := exec (callback_body cfg env callback job) w in
  forall n r,
    (n, r) ∈ finish_attempts (new_events w w') ->
    fin_report_version r
    = (if sets_report_version callback t
       then Some (_s_report_version (registry w')) else None)
    /\ _s_report_version (registry w')
       = (if successful_create_alter_push env callback job
          then wrap_uint64 (_s_report_version (registry w) + 1)
          else _s_report_version (registry w)).
Proof.
  intros Hjob w'.
  apply (attempts_of_trace cfg env w _ (task_type t) (signature t) user).
  destruct (body_trace_request cfg env callback job t user w Hjob)
    as (pre & fin & Htrace & Hpre & Hfin).
  exists pre, fin. split; [exact Htrace|]. split; [exact Hpre|].
  destruct Hfin as [->|(request & -> & _ & Hversion)]; [left; reflexivity|].
  right. exists request. split; [reflexivity|]. split; [exact Hversion|].
  unfold w'. rewrite body_registry. unfold release_job. rewrite Hjob.
  rewrite report_version_remove.
  destruct (successful_create_alter_push env callback job); reflexivity.
Qed.

Lemma finish_request_carries_report_version_witness :
  let t := Sample.task TTaskType.CREATE 5 None None in
  let w := Sample.world 0 [] in
  let w' := exec (callback_body Sample.cfg Sample.env _create_tablet_worker_thread_callback
                    (Fifo t)) w in
  exists r,
    finish_attempts (new_events w w') = [(0, r)]
    /\ fin_report_version r = Some (_s_report_version (registry w'))
    /\ _s_report_version (registry w') = 1.
Proof.
  intros t w w'.
  assert (Hsent : exists r, finish_attempts (new_events w w') = [(0, r)])
    by (eexists; vm_compute; reflexivity).
  destruct Hsent as [r Hsent]. exists r. split; [exact Hsent|].
  pose proof (finish_request_carries_report_version Sample.cfg Sample.env
                _create_tablet_worker_thread_callback (Fifo t) t "" w eq_refl 0 r) as Hversion.
  cbn zeta in Hversion. cbn [sets_report_version] in Hversion.
  destruct Hversion as [Hcarried _].
  - fold w'. rewrite Hsent. apply list_elem_of_singleton. reflexivity.
  - split; [exact Hcarried | vm_compute; reflexivity].
Defined.

(** The status and the tablet descriptions in the request a callback body
    hands to [_finish_task]. *)
Lemma body_trace_status cfg env callback job t user w :
  task_of_job callback job = Some (t, user) ->
  exists pre fin,
    trace (exec (callback_body cfg env callback job) w) =
      trace w ++ pre ++ fin ++ [EvRemoveTaskInfo (task_type t) (signature t) user]
    /\ finish_attempts pre = []
    /\ (fin = [] \/
        exists request,
          fin = finish_task_events cfg env (Z.to_nat TASK_FINISH_MAX_RETRY) 0 request
          /\ (status_code <$> fin_task_status request = Some TStatusCode.ANALYSIS_ERROR ->
              match callback with
              | _push_worker_thread_callback =>
                  fst (engine_batch_load env t) = DORIS_TASK_REQUEST_ERROR
              | _ => False
              end)
          /\ (is_Some (fin_finish_tablet_infos request) ->
              status_code <$> fin_task_status request = Some TStatusCode.OK)).
Proof.
  destruct w as [reg q tr].
  destruct callback, job; cbn [callback_body task_of_job]; try discriminate.
  all: intros [= <- <-].
  all: unfold_bodies; run_m; rewrite <- ?app_assoc.
  all: split_trace; (split; [reflexivity|]); (split; [assumption || reflexivity|]).
  all: try (left; reflexivity).
  all: right; eexists; (split; [reflexivity|]).
  all: cbn; split; intros Hcase; try discriminate; try reflexivity.
  all: try (apply is_Some_None in Hcase; contradiction).
  all: assumption.
Qed.

(** X18. ANALYSIS_ERROR is reported by one callback only: a finish request
    with that status code comes from the push callback, for a task on which
    the batch-load task left DORIS_TASK_REQUEST_ERROR.  In particular the
    alter callback never reports it: it calls [_alter_tablet] only for
    SCHEMA_CHANGE and ROLLUP, so the invalid-type branch of [_alter_tablet]
    is never taken. *)
Theorem analysis_error_only_from_push (cfg : Config) (env : Env)
    (callback : CALLBACK_FUNCTION) (job : Job) (t : TAgentTaskRequest)
    (user : string) (w : World) :
  task_of_job callback job = Some (t, user) ->
  forall n r,
    (n, r) ∈ finish_attempts (new_events w (exec (callback_body cfg env callback job) w)) ->
    status_code <$> fin_task_status r = Some TStatusCode.ANALYSIS_ERROR ->
    match callback with
    | _push_worker_thread_callback =>
        fst (engine_batch_load env t) = DORIS_TASK_REQUEST_ERROR
    | _ => False
    end.
Proof.
  intros Hjob.
  apply (attempts_of_trace cfg env w _ (task_type t) (signature t) user
           (fun r => status_code <$> fin_task_status r = Some TStatusCode.ANALYSIS_ERROR ->
                     match callback with
                     | _push_worker_thread_callback =>
                         fst (engine_batch_load env t) = DORIS_TASK_REQUEST_ERROR
                     | _ => False
                     end)).
  destruct (body_trace_status cfg env callback job t user w Hjob)
    as (pre & fin & Htrace & Hpre & Hfin).
  exists pre, fin. split; [exact Htrace|]. split; [exact Hpre|].
  destruct Hfin as [->|(request & -> & Hanalysis & _)]; [left; reflexivity|].
  right. exists request. auto.
Qed.

Lemma analysis_error_only_from_push_witness :
  let env := Sample.make_env (fun _ => DORIS_SUCCESS) DORIS_TASK_REQUEST_ERROR
               (fun _ => (OLAP_SUCCESS, [])) in
  let t := Sample.task TTaskType.PUSH 5 None None in
  let w := Sample.world 0 [] in
  let w' := exec (callback_body Sample.cfg env _push_worker_thread_callback
                    (PushSelected t "")) w in
  exists r,
    finish_attempts (new_events w w') = [(0, r)]
    /\ status_code <$> fin_task_status r = Some TStatusCode.ANALYSIS_ERROR
    /\ fst (engine_batch_load env t) = DORIS_TASK_REQUEST_ERROR.
Proof.
  intros env t w w'.
  assert (Hsent : exists r, finish_attempts (new_events w w') = [(0, r)]
                            /\ status_code <$> fin_task_status r
                               = Some TStatusCode.ANALYSIS_ERROR)
    by (eexists; split; vm_compute; reflexivity).
  destruct Hsent as (r & Hsent & Hstatus). exists r.
  split; [exact Hsent|]. split; [exact Hstatus|].
  apply (analysis_error_only_from_push Sample.cfg env _push_worker_thread_callback
           (PushSelected t "") t "" w eq_refl 0 r); [|exact Hstatus].
  fold w'. rewrite Hsent. apply list_elem_of_singleton. reflexivity.
Defined.

(** X19. Tablet descriptions are attached to a finish request only together
    with status OK: whatever callback sends it, a request on which
    [finish_tablet_infos] is set carries status code OK. *)
Theorem tablet_infos_only_with_ok (cfg : Config) (env : Env)
    (callback : CALLBACK_FUNCTION) (job : Job) (t : TAgentTaskRequest)
    (user : string) (w : World) :
  task_of_job callback job = Some (t, user) ->
  forall n r,
    (n, r) ∈ finish_attempts (new_events w (exec (callback_body cfg env callback job) w)) ->
    is_Some (fin_finish_tablet_infos r) ->
    status_code <$> fin_task_status r = Some TStatusCode.OK.
Proof.
  intros Hjob.
  apply (attempts_of_trace cfg env w _ (task_type t) (signature t) user
           (fun r => is_Some (fin_finish_tablet_infos r) ->
                     status_code <$> fin_task_status r = Some TStatusCode.OK)).
  destruct (body_trace_status cfg env callback job t user w Hjob)
    as (pre & fin & Htrace & Hpre & Hfin).
  exists pre, fin. split; [exact Htrace|]. split; [exact Hpre|].
  destruct Hfin as [->|(request & -> & _ & Hinfos)]; [left; reflexivity|].
  right. exists request. auto.
Qed.

Lemma tablet_infos_only_with_ok_witness :
  let t := Sample.task TTaskType.CLONE 5 None None in
  let w := Sample.world 0 [] in
  let w' := exec (callback_body Sample.cfg Sample.env _clone_worker_thread_callback
                    (Fifo t)) w in
  exists r,
    finish_attempts (new_events w w') = [(0, r)]
    /\ is_Some (fin_finish_tablet_infos r)
    /\ status_code <$> fin_task_status r = Some TStatusCode.OK.
Proof.
  intros t w w'.
  assert (Hsent : exists r, finish_attempts (new_events w w') = [(0, r)]
                            /\ is_Some (fin_finish_tablet_infos r))
    by (eexists; split; [vm_compute; reflexivity | eexists; reflexivity]).
  destruct Hsent as (r & Hsent & Hinfos). exists r.
  split; [exact Hsent|]. split; [exact Hinfos|].
  apply (tablet_infos_only_with_ok Sample.cfg Sample.env _clone_worker_thread_callback
           (Fifo t) t "" w eq_refl 0 r); [|exact Hinfos].
  fold w'. rewrite Hsent. apply list_elem_of_singleton. reflexivity.
Defined.

(** The finish attempts of a trace of known shape. *)
Lemma attempts_of_shape cfg env w w' pre request kind sig user :
  trace w' = trace w ++ pre
             ++ finish_task_events cfg env (Z.to_nat TASK_FINISH_MAX_RETRY) 0 request
             ++ [EvRemoveTaskInfo kind sig user] ->
  finish_attempts pre = [] ->
  finish_attempts (new_events w w') <> []
  /\ forall n r, (n, r) ∈ finish_attempts (new_events w w') -> r = request.
Proof.
  intros Htrace Hpre. rewrite (new_events_app _ _ _ Htrace).
  destruct (finish_task_events_same_request cfg env request) as [Hne Hsame].
  unfold finish_attempts in *. rewrite !omap_app, Hpre. cbn [omap app].
  rewrite app_nil_r. split; [exact Hne | exact Hsame].
Qed.

(** X20. The alter callback increments the report version as soon as the
    schema-change engine task has succeeded, before it looks up the new
    tablet: when that lookup fails, the task is reported with RUNTIME_ERROR
    and without tablet description, and yet the counter has been incremented
    and the request carries the incremented value. *)
Theorem alter_bumps_version_before_tablet_lookup (cfg : Config) (env : Env)
    (t : TAgentTaskRequest) (w : World) :
  task_type t = TTaskType.SCHEMA_CHANGE \/ task_type t = TTaskType.ROLLUP ->
  fst (engine_schema_change env t) = OLAP_SUCCESS ->
  fst (engine_report_tablet_info env
         {| tablet_id := new_tablet_id (alter_tablet_req t);
            schema_hash := new_schema_hash (alter_tablet_req t);
            tablet_version := 0 |}) <> OLAP_SUCCESS ->
  let w' := exec (_alter_tablet_body cfg env t) w in
  _s_report_version (registry w') = wrap_uint64 (_s_report_version (registry w) + 1)
  /\ finish_attempts (new_events w w') <> []
  /\ forall n r,
       (n, r) ∈ finish_attempts (new_events w w') ->
       status_code <$> fin_task_status r = Some TStatusCode.RUNTIME_ERROR
       /\ fin_finish_tablet_infos r = None
       /\ fin_report_version r = Some (wrap_uint64 (_s_report_version (registry w) + 1)).
Proof.
  intros Hkind Hengine Hlookup w'.
  assert (Hshape : exists request,
             trace w' = trace w ++ [EvEngine t]
                        ++ finish_task_events cfg env (Z.to_nat TASK_FINISH_MAX_RETRY) 0 request
                        ++ [EvRemoveTaskInfo (task_type t) (signature t) ""]
             /\ status_code <$> fin_task_status request = Some TStatusCode.RUNTIME_ERROR
             /\ fin_finish_tablet_infos request = None
             /\ fin_report_version request
                = Some (wrap_uint64 (_s_report_version (registry w) + 1))).
  { unfold w', _alter_tablet_body, _alter_tablet, _get_tablet_info.
    destruct w as [reg q tr].
    destruct (engine_schema_change env t) as [sc_status engine_msgs].
    cbn [fst] in Hengine. subst sc_status.
    destruct (engine_report_tablet_info env _) as [olap_status tablet_info].
    cbn [fst] in Hlookup.
    destruct Hkind as [Hkind|Hkind]; rewrite Hkind.
    all: run_m; rewrite <- ?app_assoc; try congruence.
    all: eexists; (split; [reflexivity|]); cbn; auto. }
  destruct Hshape as (request & Htrace & Hstatus & Hinfos & Hversion).
  destruct (attempts_of_shape cfg env w w' [EvEngine t] request _ _ _ Htrace eq_refl)
    as [Hne Hsame].
  split; [|split; [exact Hne|]].
  - pose proof (body_registry cfg env _alter_tablet_worker_thread_callback (Fifo t) w)
      as Hbody.
    cbn [callback_body successful_create_alter_push task_of_job] in Hbody.
    unfold release_job in Hbody. cbn [task_of_job] in Hbody.
    rewrite (bool_decide_eq_true_2 _ Hkind), (bool_decide_eq_true_2 _ Hengine) in Hbody.
    unfold w'. rewrite Hbody, report_version_remove. reflexivity.
  - intros n r Hin. rewrite (Hsame n r Hin). auto.
Qed.

Lemma alter_bumps_version_before_tablet_lookup_witness :
  let env := Answers.with_report_tablet_info
               (fun info => (OLAP_ERR_TABLE_NOT_FOUND, info)) Sample.env in
  let t := Sample.task TTaskType.ROLLUP 3 None None in
  let w := Sample.world 0 [] in
  let w' := exec (_alter_tablet_body Sample.cfg env t) w in
  (task_type t = TTaskType.SCHEMA_CHANGE \/ task_type t = TTaskType.ROLLUP)
  /\ fst (engine_schema_change env t) = OLAP_SUCCESS
  /\ fst (engine_report_tablet_info env
             {| tablet_id := new_tablet_id (alter_tablet_req t);
                schema_hash := new_schema_hash (alter_tablet_req t);
                tablet_version := 0 |}) <> OLAP_SUCCESS
  /\ _s_report_version (registry w) = 0
  /\ _s_report_version (registry w') = 1
  /\ exists r,
       finish_attempts (new_events w w') = [(0, r)]
       /\ status_code <$> fin_task_status r = Some TStatusCode.RUNTIME_ERROR
       /\ fin_report_version r = Some 1.
Proof.
  intros env t w w'.
  assert (Hkind : task_type t = TTaskType.SCHEMA_CHANGE \/ task_type t = TTaskType.ROLLUP)
    by (right; reflexivity).
  assert (Hengine : fst (engine_schema_change env t) = OLAP_SUCCESS) by reflexivity.
  assert (Hlookup : fst (engine_report_tablet_info env
                           {| tablet_id := new_tablet_id (alter_tablet_req t);
                              schema_hash := new_schema_hash (alter_tablet_req t);
                              tablet_version := 0 |}) <> OLAP_SUCCESS) by discriminate.
  destruct (alter_bumps_version_before_tablet_lookup Sample.cfg env t w Hkind Hengine Hlookup)
    as (Hbumped & _ & Hall).
  split; [exact Hkind|]. split; [exact Hengine|]. split; [exact Hlookup|].
  split; [reflexivity|]. split; [exact Hbumped|].
  assert (Hsent : exists r, finish_attempts (new_events w w') = [(0, r)])
    by (eexists; vm_compute; reflexivity).
  destruct Hsent as [r Hsent]. exists r. split; [exact Hsent|].
  destruct (Hall 0 r) as (Hstatus & _ & Hversion).
  - fold w'. rewrite Hsent. apply list_elem_of_singleton. reflexivity.
  - split; [exact Hstatus | exact Hversion].
Defined.

(** X21. Engine answers that mean the work was already done are reported as
    success.  The drop callback reports the task to the master, with OK and
    no message when the engine answers OLAP_SUCCESS or
    OLAP_ERR_TABLE_NOT_FOUND, and with RUNTIME_ERROR and the message "drop
    table failed!" for any other answer.  The clone callback reports the
    task with OK, the engine's messages and the tablet descriptions when the
    clone task leaves DORIS_SUCCESS or DORIS_CREATE_TABLE_EXIST, and
    otherwise with RUNTIME_ERROR, "clone failed." appended to the engine's
    messages, and no tablet description.  Each callback makes at least one
    finish attempt, and every attempt carries that status. *)
Theorem already_done_is_reported_ok (cfg : Config) (env : Env)
    (t : TAgentTaskRequest) (w : World) :
  (finish_attempts (new_events w (exec (_drop_tablet_body cfg env t) w)) <> []
   /\ forall n r,
        (n, r) ∈ finish_attempts (new_events w (exec (_drop_tablet_body cfg env t) w)) ->
        fin_task_status r
        = Some (if bool_decide (engine_drop_tablet env t = OLAP_SUCCESS
                                \/ engine_drop_tablet env t = OLAP_ERR_TABLE_NOT_FOUND)
                then make_status TStatusCode.OK []
                else make_status TStatusCode.RUNTIME_ERROR ["drop table failed!"%string]))
  /\ (finish_attempts (new_events w (exec (_clone_body cfg env t) w)) <> []
      /\ forall n r,
           (n, r) ∈ finish_attempts (new_events w (exec (_clone_body cfg env t) w)) ->
           let '(status, engine_msgs, tablet_infos) := engine_clone env t in
           if bool_decide (status = DORIS_SUCCESS \/ status = DORIS_CREATE_TABLE_EXIST)
           then fin_task_status r = Some (make_status TStatusCode.OK engine_msgs)
                /\ fin_finish_tablet_infos r = Some tablet_infos
           else fin_task_status r
                = Some (make_status TStatusCode.RUNTIME_ERROR
                          (engine_msgs ++ ["clone failed."%string]))
                /\ fin_finish_tablet_infos r = None).
Proof.
  split.
  - assert (Hshape : exists request,
               trace (exec (_drop_tablet_body cfg env t) w)
               = trace w ++ [EvEngine t]
                 ++ finish_task_events cfg env (Z.to_nat TASK_FINISH_MAX_RETRY) 0 request
                 ++ [EvRemoveTaskInfo (task_type t) (signature t) ""]
               /\ fin_task_status request
                  = Some (if bool_decide (engine_drop_tablet env t = OLAP_SUCCESS
                                          \/ engine_drop_tablet env t = OLAP_ERR_TABLE_NOT_FOUND)
                          then make_status TStatusCode.OK []
                          else make_status TStatusCode.RUNTIME_ERROR
                                 ["drop table failed!"%string])).
    { unfold _drop_tablet_body. destruct w as [reg q tr].
      destruct (engine_drop_tablet env t) eqn:Hdrop.
      all: run_m; rewrite <- ?app_assoc.
      all: try (exfalso; cbn in *; intuition congruence).
      all: eexists; split; reflexivity. }
    destruct Hshape as (request & Htrace & Hstatus).
    destruct (attempts_of_shape cfg env w _ [EvEngine t] request _ _ _ Htrace eq_refl)
      as [Hne Hsame].
    split; [exact Hne|].
    intros n r Hin. rewrite (Hsame n r Hin). exact Hstatus.
  - assert (Hshape : exists request,
               trace (exec (_clone_body cfg env t) w)
               = trace w ++ [EvEngine t]
                 ++ finish_task_events cfg env (Z.to_nat TASK_FINISH_MAX_RETRY) 0 request
                 ++ [EvRemoveTaskInfo (task_type t) (signature t) ""]
               /\ let '(status, engine_msgs, tablet_infos) := engine_clone env t in
                  if bool_decide (status = DORIS_SUCCESS \/ status = DORIS_CREATE_TABLE_EXIST)
                  then fin_task_status request
                       = Some (make_status TStatusCode.OK engine_msgs)
                       /\ fin_finish_tablet_infos request = Some tablet_infos
                  else fin_task_status request
                       = Some (make_status TStatusCode.RUNTIME_ERROR
                                 (engine_msgs ++ ["clone failed."%string]))
                       /\ fin_finish_tablet_infos request = None).
    { unfold _clone_body. destruct w as [reg q tr].
      destruct (engine_clone env t) as [[status engine_msgs] tablet_infos].
      destruct status.
      all: run_m; rewrite <- ?app_assoc.
      all: try (exfalso; cbn in *; intuition congruence).
      all: eexists; (split; [reflexivity|]); cbn; auto. }
    destruct Hshape as (request & Htrace & Hstatus).
    destruct (attempts_of_shape cfg env w _ [EvEngine t] request _ _ _ Htrace eq_refl)
      as [Hne Hsame].
    split; [exact Hne|].
    intros n r Hin. rewrite (Hsame n r Hin). exact Hstatus.
Qed.

Lemma already_done_is_reported_ok_witness :
  let env := Answers.with_drop_tablet (fun _ => OLAP_ERR_TABLE_NOT_FOUND)
               (Answers.with_clone
                  (fun _ => (DORIS_CREATE_TABLE_EXIST, ["tablet exists"%string], []))
                  Sample.env) in
  let dropped := Sample.task TTaskType.DROP 2 None None in
  let cloned := Sample.task TTaskType.CLONE 4 None None in
  let w := Sample.world 0 [] in
  engine_drop_tablet env dropped = OLAP_ERR_TABLE_NOT_FOUND
  /\ (exists r,
        finish_attempts (new_events w (exec (_drop_tablet_body Sample.cfg env dropped) w))
        = [(0, r)]
        /\ fin_task_status r = Some (make_status TStatusCode.OK []))
  /\ engine_clone env cloned = (DORIS_CREATE_TABLE_EXIST, ["tablet exists"%string], [])
  /\ (exists r,
        finish_attempts (new_events w (exec (_clone_body Sample.cfg env cloned) w))
        = [(0, r)]
        /\ fin_task_status r = Some (make_status TStatusCode.OK ["tablet exists"%string])
        /\ fin_finish_tablet_infos r = Some []).
Proof.
  intros env dropped cloned w.
  split; [reflexivity|]. split; [|split; [reflexivity|]].
  - destruct (already_done_is_reported_ok Sample.cfg env dropped w) as [[_ Hdrop] _].
    assert (Hsent : exists r,
               finish_attempts
                 (new_events w (exec (_drop_tablet_body Sample.cfg env dropped) w))
               = [(0, r)])
      by (eexists; vm_compute; reflexivity).
    destruct Hsent as [r Hsent]. exists r. split; [exact Hsent|].
    apply (Hdrop 0 r). rewrite Hsent. apply list_elem_of_singleton. reflexivity.
  - destruct (already_done_is_reported_ok Sample.cfg env cloned w) as [_ [_ Hclone]].
    assert (Hsent : exists r,
               finish_attempts
                 (new_events w (exec (_clone_body Sample.cfg env cloned) w))
               = [(0, r)])
      by (eexists; vm_compute; reflexivity).
    destruct Hsent as [r Hsent]. exists r. split; [exact Hsent|].
    apply (Hclone 0 r). rewrite Hsent. apply list_elem_of_singleton. reflexivity.
Defined.

(** X22. The finish request of the snapshot callback.  It always carries
    the snapshot path the snapshot manager left.  The snapshot directory is
    listed whenever the field [list_files] of the request is set, whatever
    its value, and only after a successful [make_snapshot]; a failed listing
    turns the status into RUNTIME_ERROR while the path is still reported.
    Without the field, or after a failed [make_snapshot], the list of files
    is set and empty. *)
Theorem snapshot_files_listed_when_field_is_set (cfg : Config) (env : Env)
    (t : TAgentTaskRequest) (w : World) :
  forall n r,
    (n, r) ∈ finish_attempts (new_events w (exec (_make_snapshot_body cfg env t) w)) ->
    let request := snapshot_req t in
    let made := snapshot_make_snapshot env request in
    let dir := (snd made +:+ "/" +:+ pretty (snapshot_tablet_id request)
                +:+ "/" +:+ pretty (snapshot_schema_hash request) +:+ "/")%string in
    let listed := file_scan_dir env dir in
    fin_snapshot_path r = Some (snd made)
    /\ (fst made <> OLAP_SUCCESS ->
        fin_snapshot_files r = Some []
        /\ status_code <$> fin_task_status r = Some TStatusCode.RUNTIME_ERROR)
    /\ (fst made = OLAP_SUCCESS -> list_files request = None ->
        fin_snapshot_files r = Some []
        /\ fin_task_status r = Some (make_status TStatusCode.OK []))
    /\ (fst made = OLAP_SUCCESS -> is_Some (list_files request) ->
        fin_snapshot_files r = Some (snd listed)
        /\ fin_task_status r
           = Some (if ok (fst listed) then make_status TStatusCode.OK []
                   else make_status TStatusCode.RUNTIME_ERROR
                          ["make_snapshot failed. list file failed: "
                             +:+ get_error_msg (fst listed)])).
Proof.
  assert (Hshape : exists request0,
             trace (exec (_make_snapshot_body cfg env t) w)
             = trace w ++ [EvEngine t]
               ++ finish_task_events cfg env (Z.to_nat TASK_FINISH_MAX_RETRY) 0 request0
               ++ [EvRemoveTaskInfo (task_type t) (signature t) ""]
             /\ let request := snapshot_req t in
                let made := snapshot_make_snapshot env request in
                let dir := (snd made +:+ "/" +:+ pretty (snapshot_tablet_id request)
                            +:+ "/" +:+ pretty (snapshot_schema_hash request) +:+ "/")%string in
                let listed := file_scan_dir env dir in
                fin_snapshot_path request0 = Some (snd made)
                /\ (fst made <> OLAP_SUCCESS ->
                    fin_snapshot_files request0 = Some []
                    /\ status_code <$> fin_task_status request0
                       = Some TStatusCode.RUNTIME_ERROR)
                /\ (fst made = OLAP_SUCCESS -> list_files request = None ->
                    fin_snapshot_files request0 = Some []
                    /\ fin_task_status request0 = Some (make_status TStatusCode.OK []))
                /\ (fst made = OLAP_SUCCESS -> is_Some (list_files request) ->
                    fin_snapshot_files request0 = Some (snd listed)
                    /\ fin_task_status request0
                       = Some (if ok (fst listed) then make_status TStatusCode.OK []
                               else make_status TStatusCode.RUNTIME_ERROR
                                      ["make_snapshot failed. list file failed: "
                                         +:+ get_error_msg (fst listed)]))).
  { unfold _make_snapshot_body. destruct w as [reg q tr]. cbn zeta.
    destruct (snapshot_make_snapshot env (snapshot_req t)) as [made path] eqn:Hmade.
    cbn [fst snd].
    destruct (list_files (snapshot_req t)) as [flag|] eqn:Hflag.
    - destruct (file_scan_dir env _) as [st files] eqn:Hscan. cbn [fst snd].
      destruct (ok st) eqn:Hok.
      all: run_m; rewrite <- ?app_assoc.
      all: try (exfalso; cbn in *; congruence).
      all: eexists; (split; [reflexivity|]); cbn.
      all: repeat split; intros; try congruence; try reflexivity.
      all: try match goal with H : is_Some None |- _ => apply is_Some_None in H; contradiction end.
      all: try rewrite Hscan; cbn; try rewrite Hok; reflexivity.
    - run_m; rewrite <- ?app_assoc.
      all: eexists; (split; [reflexivity|]); cbn.
      all: repeat split; intros; try congruence; try reflexivity.
      all: try match goal with H : is_Some None |- _ => apply is_Some_None in H; contradiction end. }
  destruct Hshape as (request0 & Htrace & Hfacts).
  destruct (attempts_of_shape cfg env w _ [EvEngine t] request0 _ _ _ Htrace eq_refl)
    as [_ Hsame].
  intros n r Hin. rewrite (Hsame n r Hin). exact Hfacts.
Qed.

Lemma snapshot_files_listed_when_field_is_set_witness :
  let env := Answers.with_scan_dir (fun _ => (Sample.status_ok, ["10001.hdr"%string]))
               Sample.env in
  let t := {| task_type := TTaskType.MAKE_SNAPSHOT; signature := 8; priority := None;
              resource_info := None;
              push_req := push_req (Sample.task TTaskType.MAKE_SNAPSHOT 8 None None);
              alter_tablet_req :=
                alter_tablet_req (Sample.task TTaskType.MAKE_SNAPSHOT 8 None None);
              check_consistency_req :=
                check_consistency_req (Sample.task TTaskType.MAKE_SNAPSHOT 8 None None);
              snapshot_req := {| snapshot_tablet_id := 10001; snapshot_schema_hash := 7;
                                 list_files := Some false |};
              release_snapshot_path := "";
              move_dir_req := move_dir_req (Sample.task TTaskType.MAKE_SNAPSHOT 8 None None) |} in
  let w := Sample.world 0 [] in
  let w' := exec (_make_snapshot_body Sample.cfg env t) w in
  exists r,
    finish_attempts (new_events w w') = [(0, r)]
    /\ list_files (snapshot_req t) = Some false
    /\ fin_snapshot_path r = Some "snapshot"%string
    /\ fin_snapshot_files r = Some ["10001.hdr"%string].
Proof.
  intros env t w w'.
  assert (Hsent : exists r, finish_attempts (new_events w w') = [(0, r)])
    by (eexists; vm_compute; reflexivity).
  destruct Hsent as [r Hsent]. exists r. split; [exact Hsent|]. split; [reflexivity|].
  pose proof (snapshot_files_listed_when_field_is_set Sample.cfg env t w 0 r) as Hlisted.
  cbn zeta in Hlisted.
  destruct Hlisted as (Hpath & _ & _ & Hfiles).
  - fold w'. rewrite Hsent. apply list_elem_of_singleton. reflexivity.
  - split; [exact Hpath|].
    destruct Hfiles as [Hfiles _]; [reflexivity | eexists; reflexivity | exact Hfiles].
Defined.

(** X23. The finish request of the push callback.  The request version and
    its hash are echoed exactly when the push type is DELETE, whatever the
    outcome.  The status follows the status the batch-load task left:
    DORIS_SUCCESS gives OK with "push success" and the tablet descriptions;
    DORIS_TASK_REQUEST_ERROR gives ANALYSIS_ERROR; anything else gives
    RUNTIME_ERROR with "push failed"; the last two without tablet
    description. *)
Theorem push_finish_request (cfg : Config) (env : Env) (t : TAgentTaskRequest)
    (user : string) (w : World) :
  forall n r,
    (n, r) ∈ finish_attempts (new_events w (exec (_push_body cfg env t user) w)) ->
    let '(status, tablet_infos) := engine_batch_load env t in
    (if bool_decide (push_type (push_req t) = TPushType.DELETE)
     then fin_request_version r = Some (push_version (push_req t))
          /\ fin_request_version_hash r = Some (push_version_hash (push_req t))
     else fin_request_version r = None /\ fin_request_version_hash r = None)
    /\ fin_task_status r
       = Some (match status with
               | DORIS_SUCCESS => make_status TStatusCode.OK ["push success"%string]
               | DORIS_TASK_REQUEST_ERROR =>
                   make_status TStatusCode.ANALYSIS_ERROR
                     ["push request push_type invalid."%string]
               | _ => make_status TStatusCode.RUNTIME_ERROR ["push failed"%string]
               end)
    /\ fin_finish_tablet_infos r
       = match status with DORIS_SUCCESS => Some tablet_infos | _ => None end.
Proof.
  assert (Hshape :
            trace (exec (_push_body cfg env t user) w)
            = trace w ++ [EvEngine t]
              ++ [EvRemoveTaskInfo (task_type t) (signature t) user]
            \/ exists request,
                 trace (exec (_push_body cfg env t user) w)
                 = trace w ++ [EvEngine t]
                   ++ finish_task_events cfg env (Z.to_nat TASK_FINISH_MAX_RETRY) 0 request
                   ++ [EvRemoveTaskInfo (task_type t) (signature t) user]
                 /\ let '(status, tablet_infos) := engine_batch_load env t in
                    (if bool_decide (push_type (push_req t) = TPushType.DELETE)
                     then fin_request_version request = Some (push_version (push_req t))
                          /\ fin_request_version_hash request
                             = Some (push_version_hash (push_req t))
                     else fin_request_version request = None
                          /\ fin_request_version_hash request = None)
                    /\ fin_task_status request
                       = Some (match status with
                               | DORIS_SUCCESS =>
                                   make_status TStatusCode.OK ["push success"%string]
                               | DORIS_TASK_REQUEST_ERROR =>
                                   make_status TStatusCode.ANALYSIS_ERROR
                                     ["push request push_type invalid."%string]
                               | _ => make_status TStatusCode.RUNTIME_ERROR
                                        ["push failed"%string]
                               end)
                    /\ fin_finish_tablet_infos request
                       = match status with DORIS_SUCCESS => Some tablet_infos | _ => None end).
  { unfold _push_body. destruct w as [reg q tr].
    destruct (engine_batch_load env t) as [status tablet_infos].
    destruct (decide (push_type (push_req t) = TPushType.DELETE)) as [Hdelete|Hload].
    - rewrite (bool_decide_eq_true_2 _ Hdelete).
      destruct status.
      all: run_m; rewrite <- ?app_assoc.
      all: try (exfalso; cbn in *; congruence).
      all: try (left; reflexivity).
      all: right; eexists; (split; [reflexivity|]); cbn; auto.
    - rewrite (bool_decide_eq_false_2 _ Hload).
      destruct status.
      all: run_m; rewrite <- ?app_assoc.
      all: try (exfalso; cbn in *; congruence).
      all: try (left; reflexivity).
      all: right; eexists; (split; [reflexivity|]); cbn; auto. }
  intros n r Hin. destruct Hshape as [Htrace|(request & Htrace & Hfacts)].
  - rewrite (new_events_app _ _ _ Htrace) in Hin. cbn in Hin.
    apply elem_of_nil in Hin. contradiction.
  - destruct (attempts_of_shape cfg env w _ [EvEngine t] request _ _ _ Htrace eq_refl)
      as [_ Hsame].
    rewrite (Hsame n r Hin). exact Hfacts.
Qed.

Lemma push_finish_request_witness :
  let env := Sample.make_env (fun _ => DORIS_SUCCESS) DORIS_ERROR
               (fun _ => (OLAP_SUCCESS, [])) in
  let t := {| task_type := TTaskType.PUSH; signature := 8; priority := None;
              resource_info := None;
              push_req := {| push_type := TPushType.DELETE; push_version := 12;
                             push_version_hash := 34 |};
              alter_tablet_req := alter_tablet_req (Sample.task TTaskType.PUSH 8 None None);
              check_consistency_req :=
                check_consistency_req (Sample.task TTaskType.PUSH 8 None None);
              snapshot_req := snapshot_req (Sample.task TTaskType.PUSH 8 None None);
              release_snapshot_path := "";
              move_dir_req := move_dir_req (Sample.task TTaskType.PUSH 8 None None) |} in
  let w := Sample.world 0 [] in
  let w' := exec (_push_body Sample.cfg env t "") w in
  exists r,
    finish_attempts (new_events w w') = [(0, r)]
    /\ fin_request_version r = Some 12
    /\ fin_request_version_hash r = Some 34
    /\ fin_task_status r
       = Some (make_status TStatusCode.RUNTIME_ERROR ["push failed"%string]).
Proof.
  intros env t w w'.
  assert (Hsent : exists r, finish_attempts (new_events w w') = [(0, r)])
    by (eexists; vm_compute; reflexivity).
  destruct Hsent as [r Hsent]. exists r. split; [exact Hsent|].
  assert (Hin : (0, r) ∈ finish_attempts (new_events w w'))
    by (rewrite Hsent; apply list_elem_of_singleton; reflexivity).
  pose proof (push_finish_request Sample.cfg env t "" w 0 r Hin) as Hrequest.
  cbn in Hrequest.
  destruct Hrequest as ((Hversion & Hhash) & Hstatus & _). auto.
Defined.

(** X24. Moving a directory into a tablet.  The callback goes through
    [_move_dir], which asks the loader for an overwriting move into the
    directory of the tablet.  A tablet that does not exist
    (DORIS_TASK_REQUEST_ERROR in [_move_dir]) and a move that fails
    (DORIS_INTERNAL_ERROR) are both reported as RUNTIME_ERROR, with the one
    message [_move_dir] pushed: "failed to get tablet", or the loader's
    message.  A successful move is reported as OK without message. *)
Theorem move_dir_reports_missing_tablet (cfg : Config) (env : Env)
    (t : TAgentTaskRequest) (w : World) :
  forall n r,
    (n, r) ∈ finish_attempts (new_events w (exec (_move_dir_body cfg env t) w)) ->
    let request := move_dir_req t in
    fin_task_status r
    = Some
        match engine_get_tablet env (move_tablet_id request) (move_schema_hash request) with
        | None => make_status TStatusCode.RUNTIME_ERROR ["failed to get tablet"%string]
        | Some (dest_tablet_dir, store_path) =>
            let status := loader_move env (move_src request) dest_tablet_dir store_path
                            (move_job_id request) true in
            if ok status then make_status TStatusCode.OK []
            else make_status TStatusCode.RUNTIME_ERROR [get_error_msg status]
        end.
Proof.
  assert (Hshape : exists request0,
             trace (exec (_move_dir_body cfg env t) w)
             = trace w ++ [EvEngine t]
               ++ finish_task_events cfg env (Z.to_nat TASK_FINISH_MAX_RETRY) 0 request0
               ++ [EvRemoveTaskInfo (task_type t) (signature t) ""]
             /\ let request := move_dir_req t in
                fin_task_status request0
                = Some
                    match engine_get_tablet env (move_tablet_id request)
                            (move_schema_hash request) with
                    | None =>
                        make_status TStatusCode.RUNTIME_ERROR ["failed to get tablet"%string]
                    | Some (dest_tablet_dir, store_path) =>
                        let status := loader_move env (move_src request) dest_tablet_dir
                                        store_path (move_job_id request) true in
                        if ok status then make_status TStatusCode.OK []
                        else make_status TStatusCode.RUNTIME_ERROR [get_error_msg status]
                    end).
  { unfold _move_dir_body, _move_dir. destruct w as [reg q tr]. cbn zeta.
    destruct (engine_get_tablet env _ _) as [[dest_tablet_dir store_path]|].
    - destruct (ok (loader_move env _ _ _ _ _)) eqn:Hok.
      all: run_m; rewrite <- ?app_assoc.
      all: try (exfalso; cbn in *; congruence).
      all: eexists; split; reflexivity.
    - run_m; rewrite <- ?app_assoc.
      all: try (exfalso; cbn in *; congruence).
      all: eexists; split; reflexivity. }
  destruct Hshape as (request0 & Htrace & Hstatus).
  destruct (attempts_of_shape cfg env w _ [EvEngine t] request0 _ _ _ Htrace eq_refl)
    as [_ Hsame].
  intros n r Hin. rewrite (Hsame n r Hin). exact Hstatus.
Qed.

Lemma move_dir_reports_missing_tablet_witness :
  let t := Sample.task TTaskType.MOVE 6 None None in
  let w := Sample.world 0 [] in
  let w' := exec (_move_dir_body Sample.cfg Sample.env t) w in
  exists r,
    finish_attempts (new_events w w') = [(0, r)]
    /\ engine_get_tablet Sample.env 0 0 = None
    /\ fin_task_status r
       = Some (make_status TStatusCode.RUNTIME_ERROR ["failed to get tablet"%string]).
Proof.
  intros t w w'.
  assert (Hsent : exists r, finish_attempts (new_events w w') = [(0, r)])
    by (eexists; vm_compute; reflexivity).
  destruct Hsent as [r Hsent]. exists r. split; [exact Hsent|]. split; [reflexivity|].
  assert (Hin : (0, r) ∈ finish_attempts (new_events w w'))
    by (rewrite Hsent; apply list_elem_of_singleton; reflexivity).
  exact (move_dir_reports_missing_tablet Sample.cfg Sample.env t w 0 r Hin).
Defined.

(** ** The report loops *)

(** The map the disk report builds, one data directory after the other. *)
Lemma disks_lookup (dirs : list DataDirInfo) (path : string) :
  foldl (fun (acc : gmap string TDisk) (info : DataDirInfo) =>
           <[dir_path info := disk_of_data_dir info]> acc) ∅ dirs !! path
  = disk_of_data_dir <$> last (filter (fun info => dir_path info = path) dirs).
Proof.
  induction dirs as [|info dirs IH] using rev_ind.
  - cbn. apply lookup_empty.
  - rewrite foldl_app, filter_app. cbn [foldl].
    destruct (decide (dir_path info = path)) as [Heq|Hne].
    + rewrite filter_cons_True by exact Heq. rewrite filter_nil, last_snoc. cbn.
      rewrite <- Heq. apply lookup_insert_eq.
    + rewrite filter_cons_False by exact Hne. rewrite filter_nil, app_nil_r.
      rewrite lookup_insert_ne by exact Hne. exact IH.
Qed.

(** X25. The disk report, once a heartbeat has been received: one report is
    sent, followed by the wait for the next round; it changes neither the
    registry nor the queue and sets no field but the disks.  The disks are
    keyed by root path: each path of a data directory has one entry, built
    from the last data directory with that path in the engine's answer, and
    no other path has an entry. *)
Theorem disk_report_keeps_last_dir_per_path (cfg : Config) (env : Env) (w : World) :
  master_port env <> 0 ->
  let w' := exec (_report_disk_state_body cfg env) w in
  registry w' = registry w /\ _tasks w' = _tasks w
  /\ exists request disks,
       new_events w w'
       = [EvReport request;
          EvWaitForReportNotify (report_disk_state_interval_seconds cfg) false]
       /\ rep_disks request = Some disks
       /\ rep_backend request = Some (backend env)
       /\ rep_force_recovery request = Some (force_recovery cfg)
       /\ rep_report_version request = None
       /\ rep_tasks request = None
       /\ rep_tablets request = None
       /\ forall path,
            disks !! path
            = disk_of_data_dir
                <$> last (filter (fun info => dir_path info = path)
                            (engine_get_all_data_dir_info env)).
Proof.
  intros Hport w'. unfold w', _report_disk_state_body.
  destruct (Z.eqb_spec (master_port env) 0) as [Hzero|_]; [contradiction|].
  unfold exec, bind, emit. cbn [registry _tasks trace fst snd].
  split; [reflexivity|]. split; [reflexivity|].
  eexists _, _.
  split; [unfold new_events; cbn [trace]; rewrite <- app_assoc; apply drop_app_length|].
  cbn [rep_tasks rep_backend rep_force_recovery rep_report_version rep_tablets rep_disks
       report_request_base].
  repeat (split; [reflexivity|]).
  apply disks_lookup.
Qed.

Lemma disk_report_keeps_last_dir_per_path_witness :
  let dir path capacity :=
    {| dir_path := path; dir_path_hash := 1; dir_capacity := capacity;
       dir_data_used_capacity := 0; dir_available := capacity; dir_is_used := true |} in
  let env := Answers.with_data_dir_info [dir "/data1"%string 100; dir "/data2"%string 200;
                                         dir "/data1"%string 300] Sample.env in
  let w := Sample.world 0 [] in
  let w' := exec (_report_disk_state_body Sample.cfg env) w in
  master_port env <> 0
  /\ exists request disks,
       new_events w w' = [EvReport request; EvWaitForReportNotify 60 false]
       /\ rep_disks request = Some disks
       /\ disks !! "/data1"%string = Some (disk_of_data_dir (dir "/data1"%string 300))
       /\ disks !! "/data3"%string = None.
Proof.
  intros dir env w w'.
  assert (Hport : master_port env <> 0) by discriminate.
  split; [exact Hport|].
  destruct (disk_report_keeps_last_dir_per_path Sample.cfg env w Hport)
    as (_ & _ & request & disks & Hevents & Hdisks & _ & _ & _ & _ & _ & Hlookup).
  exists request, disks. split; [exact Hevents|]. split; [exact Hdisks|].
  rewrite !Hlookup. split; reflexivity.
Defined.

(** X26. When a report loop sends nothing.  Before the first heartbeat (the
    master port is still 0) the disk and the tablet report loops only sleep
    [sleep_one_second]; the task report loop has no such guard and sends
    its report all the same.  After the heartbeat, a tablet report round in
    which [report_all_tablets_info] fails sends nothing either and goes
    straight to the wait for the next round. *)
Theorem report_loops_without_report (cfg : Config) (env : Env) (w : World) :
  (master_port env = 0 ->
   exec (_report_disk_state_body cfg env) w = add_trace w [EvSleep (sleep_one_second cfg)]
   /\ exec (_report_tablet_body cfg env) w = add_trace w [EvSleep (sleep_one_second cfg)]
   /\ exists request,
        new_events w (exec (_report_task_body cfg env) w)
        = [EvReport request; EvSleep (report_task_interval_seconds cfg)])
  /\ (master_port env <> 0 ->
      fst (engine_report_all_tablets_info env) <> OLAP_SUCCESS ->
      exec (_report_tablet_body cfg env) w
      = add_trace w [EvWaitForReportNotify (report_tablet_interval_seconds cfg) true]).
Proof.
  split.
  - intros Hzero. unfold _report_disk_state_body, _report_tablet_body, _report_task_body.
    rewrite Hzero. cbn [Z.eqb]. unfold exec, emit, bind, get_registry, add_trace.
    cbn [fst snd registry _tasks trace].
    split; [reflexivity|]. split; [reflexivity|].
    eexists. unfold new_events. cbn [trace]. rewrite <- app_assoc. apply drop_app_length.
  - intros Hport Hfailed. unfold _report_tablet_body.
    destruct (Z.eqb_spec (master_port env) 0) as [Hzero|_]; [contradiction|].
    unfold exec, bind, read_report_version, get_registry, ret.
    cbn [fst snd registry _tasks trace].
    destruct (engine_report_all_tablets_info env) as [status tablets].
    cbn [fst] in Hfailed. rewrite (bool_decide_eq_true_2 _ Hfailed).
    reflexivity.
Qed.

(** ** The finish reporter on its own *)

(** X27. One run of [_finish_task], event by event: the attempts are
    numbered from 0 and all carry the request it was given; an attempt that
    the transport reports as failed is followed by a sleep of
    [sleep_one_second], the third one included, and a successful attempt
    ends the run at once.  The registry and the queue are not touched. *)
Theorem finish_task_sleeps_after_each_failure (cfg : Config) (env : Env)
    (request : TFinishTaskRequest) (w : World) :
  let w' := exec (_finish_task cfg env request) w in
  let succeeded n := master_finish_task env request n = DORIS_SUCCESS in
  let attempt n := EvFinishTask n request in
  let pause := EvSleep (sleep_one_second cfg) in
  registry w' = registry w /\ _tasks w' = _tasks w
  /\ ((succeeded 0 /\ new_events w w' = [attempt 0])
      \/ (~ succeeded 0 /\ succeeded 1
          /\ new_events w w' = [attempt 0; pause; attempt 1])
      \/ (~ succeeded 0 /\ ~ succeeded 1 /\ succeeded 2
          /\ new_events w w' = [attempt 0; pause; attempt 1; pause; attempt 2])
      \/ (~ succeeded 0 /\ ~ succeeded 1 /\ ~ succeeded 2
          /\ new_events w w' = [attempt 0; pause; attempt 1; pause; attempt 2; pause])).
Proof.
  cbn zeta. unfold exec. rewrite finish_task_run. cbn [snd add_trace registry _tasks].
  split; [reflexivity|]. split; [reflexivity|].
  unfold new_events, add_trace. cbn [trace]. rewrite drop_app_length.
  change (Z.to_nat TASK_FINISH_MAX_RETRY) with 3%nat. cbn [finish_task_events].
  change (0 + 1) with 1. change (1 + 1) with 2.
  repeat case_bool_decide; auto 10.
Qed.
